(** * Production report tool: data pipeline and workbook assembly

    A shallow embedding of [Producion_Report_Tool.py] (class
    [ProductionReporter]): column-letter resolution, date normalisation, the
    three per-process extractors, the personnel and period aggregations and
    the list of sheets written to the workbook.

    Conventions.
    - Python text is modelled on 7-bit ASCII ([str.upper], [str.isalpha] and
      [str.strip] are given for that range; other code points are outside
      the model and the statements that classify characters say so).
    - A pandas [Timestamp] is a number of nanoseconds since 1970-01-01T00:00
      and [NaT] is [None].
    - [messagebox.show*] and [print] are recorded as a list of events, in
      program order.
    - Library code whose result depends on the representation of the data
      is a section variable: [pd.to_datetime], the default [sort_values]
      algorithm, the exception of the date arithmetic of a block, the sums
      and means of [groupby] (64-bit integers wrap, floats round, objects
      are added as Python adds them), the exception of [pivot_table] and the
      pivot of the trend chart on group labels.  Reference instances run the
      model on concrete inputs. *)

From Stdlib Require Import ZArith List String Ascii Bool Lia.
From Stdlib Require Import Permutation Sorted QArith.
Import ListNotations.

Local Open Scope string_scope.
Local Open Scope list_scope.
Local Open Scope Z_scope.

(** ** Exceptions and reported events *)

Inductive Exn : Type :=
| ValueError
| IndexError
| DateParseError
| TypeError
| KeyError
| OverflowError.

Inductive result (A : Type) : Type :=
| Ok (a : A)
| Raised (e : Exn).
Arguments Ok {A} a.
Arguments Raised {A} e.

(** What the user sees: a dialog (by title) or a line on standard output. *)
Inductive Event : Type :=
| ShowInfo (title : string)
| ShowWarning (title : string)
| ShowError (title : string)
| Printed (line : string).

(** ** Python strings on 7-bit ASCII *)

Module PyStr.

Definition ord (c : ascii) : Z := Z.of_N (N_of_ascii c).

Definition is_ascii7 (c : ascii) : bool := ord c <? 128.

Definition isupper (c : ascii) : bool := (65 <=? ord c) && (ord c <=? 90).
Definition islower (c : ascii) : bool := (97 <=? ord c) && (ord c <=? 122).

(** [str.isalpha] on one character. *)
Definition isalpha (c : ascii) : bool := isupper c || islower c.

(** [str.isspace] on one character: tab, LF, VT, FF, CR, FS, GS, RS, US, space. *)
Definition isspace (c : ascii) : bool :=
  ((9 <=? ord c) && (ord c <=? 13)) || ((28 <=? ord c) && (ord c <=? 32)).

Definition upper_char (c : ascii) : ascii :=
  if islower c then ascii_of_N (N_of_ascii c - 32) else c.

Definition chars (s : string) : list ascii := list_ascii_of_string s.

(** [s.upper()] *)
Definition upper (s : string) : string :=
  string_of_list_ascii (map upper_char (chars s)).

Fixpoint lstrip_chars (l : list ascii) : list ascii :=
  match l with
  | [] => []
  | c :: rest => if isspace c then lstrip_chars rest else l
  end.

(** [s.strip()] *)
Definition strip (s : string) : string :=
  string_of_list_ascii (rev (lstrip_chars (rev (lstrip_chars (chars s))))).

(** [x in xs] for a list of strings. *)
Definition str_in (x : string) (xs : list string) : bool :=
  existsb (String.eqb x) xs.

End PyStr.

(** ** ColumnMapper: [excel_column_to_index] *)

Module ColumnMapper.
Import PyStr.

(** The body of the [for char in col_letters.upper()] loop, started at
    [index]; a character that is not a letter raises [ValueError]. *)
Fixpoint column_loop (index : Z) (cs : list ascii) : result Z :=
  match cs with
  | [] => Ok index
  | char :: rest =>
      if negb (isalpha char) then Raised ValueError
      else column_loop (index * 26 + (ord char - ord "A"%char) + 1) rest
  end.

(** [excel_column_to_index]: the zero-based index, or [None] after an error
    dialog when the loop raised. *)
Definition excel_column_to_index (col_letters : string)
  : option Z * list Event :=
  match column_loop 0 (chars (upper col_letters)) with
  | Ok index => (Some (index - 1), [])
  | Raised _ => (None, [ShowError "Column Conversion Error"])
  end.

(** The specification's reading: positional base 26 with digits A=1 ... Z=26. *)
Definition letter_value (c : ascii) : Z := ord c - 64.

Fixpoint base26_value (cs : list ascii) : Z :=
  match cs with
  | [] => 0
  | c :: rest => letter_value c * 26 ^ Z.of_nat (List.length rest) + base26_value rest
  end.

Definition letters_only (s : string) : Prop :=
  Forall (fun c => isalpha c = true) (chars s).

End ColumnMapper.

(** ** Calendar arithmetic on timestamps *)

Module Calendar.

Definition ns_per_day : Z := 86400 * 1000000000.

(** Days since 1970-01-01 of the proleptic Gregorian date [y]-[m]-[d]. *)
Definition days_from_civil (y m d : Z) : Z :=
  let y' := if m <=? 2 then y - 1 else y in
  let era := y' / 400 in
  let yoe := y' - era * 400 in
  let mp := (m + 9) mod 12 in
  let doy := (153 * mp + 2) / 5 + d - 1 in
  let doe := yoe * 365 + yoe / 4 - yoe / 100 + doy in
  era * 146097 + doe - 719468.

(** The inverse: (year, month, day) of a day number. *)
Definition civil_from_days (z : Z) : Z * Z * Z :=
  let z' := z + 719468 in
  let era := z' / 146097 in
  let doe := z' - era * 146097 in
  let yoe := (doe - doe / 1460 + doe / 36524 - doe / 146096) / 365 in
  let doy := doe - (365 * yoe + yoe / 4 - yoe / 100) in
  let mp := (5 * doy + 2) / 153 in
  let d := doy - (153 * mp + 2) / 5 + 1 in
  let m := if mp <? 10 then mp + 3 else mp - 9 in
  let y := yoe + era * 400 in
  (if m <=? 2 then y + 1 else y, m, d).

Definition is_leap (y : Z) : bool :=
  ((y mod 4 =? 0) && negb (y mod 100 =? 0)) || (y mod 400 =? 0).

Definition days_in_month (y m : Z) : Z :=
  if m =? 2 then (if is_leap y then 29 else 28)
  else if (m =? 4) || (m =? 6) || (m =? 9) || (m =? 11) then 30
  else 31.

(** Midnight of a calendar date, as a timestamp. *)
Definition midnight (y m d : Z) : Z := days_from_civil y m d * ns_per_day.

(** [t.to_period('W').start_time]: weeks run Monday to Sunday, and day 0
    (1970-01-01) was a Thursday. *)
Definition week_start (t : Z) : Z :=
  let day := t / ns_per_day in
  (day - (day + 3) mod 7) * ns_per_day.

(** [t.to_period('M').start_time]: midnight of the first day of the month. *)
Definition month_start (t : Z) : Z :=
  let '(y, m, _) := civil_from_days (t / ns_per_day) in
  midnight y m 1.

End Calendar.

(** ** Cells of the raw table *)

(** One cell as [pd.read_excel] delivers it.  A number is a whole number:
    fractions in the raw table are outside the model. *)
Inductive Cell : Type :=
| CNull                (* an empty cell: None / NaN / NaT, [pd.isna] holds *)
| CStr (s : string)    (* text *)
| CNum (n : Z)         (* a number *)
| CTime (t : Z).       (* a date cell, already a Timestamp *)

(** A Timestamp or [pd.NaT]. *)
Definition DateTime : Type := option Z.
Definition NaT : DateTime := None.

(** [pd.isna] on a scalar cell. *)
Definition isna (c : Cell) : bool :=
  match c with CNull => true | _ => false end.

Definition Cell_eq_dec (a b : Cell) : {a = b} + {a <> b}.
Proof.
  decide equality; try apply Z.eq_dec; apply string_dec.
Defined.

(** ** Reference instance of [pd.to_datetime]

    Strict matching of the four formats used by the tool: a year is four
    digits, a month or a day one or two digits, the whole text must match,
    the date must exist and fit the 64-bit nanosecond range. The strings
    pandas reads as NaT give NaT.  Without a format only what the four
    formats recognise is accepted; pandas accepts more there, which no
    input used in this file depends on. *)

Module ToDatetimeRef.
Import PyStr Calendar.

Definition is_digit (c : ascii) : bool := (48 <=? ord c) && (ord c <=? 57).

Fixpoint digits_value (acc : Z) (cs : list ascii) : Z :=
  match cs with
  | [] => acc
  | c :: rest => digits_value (acc * 10 + (ord c - 48)) rest
  end.

(** Split at the separator [sep]. *)
Fixpoint split_on (sep : ascii) (cs : list ascii) : list (list ascii) :=
  match cs with
  | [] => [[]]
  | c :: rest =>
      if Ascii.eqb c sep then [] :: split_on sep rest
      else match split_on sep rest with
           | [] => [[c]]
           | p :: ps => (c :: p) :: ps
           end
  end.

(** [%Y]: exactly four digits. *)
Definition field_year (cs : list ascii) : option Z :=
  if (List.length cs =? 4)%nat && forallb is_digit cs
  then Some (digits_value 0 cs) else None.

(** [%m] and [%d]: one digit 1-9, or two digits, within [1, hi]. *)
Definition field_upto (hi : Z) (cs : list ascii) : option Z :=
  if ((List.length cs =? 1)%nat || (List.length cs =? 2)%nat) && forallb is_digit cs
  then let v := digits_value 0 cs in
       if (1 <=? v) && (v <=? hi) then Some v else None
  else None.

Definition in_ns_bounds (t : Z) : bool :=
  (- 2 ^ 63 <? t) && (t <? 2 ^ 63).

Definition make_date (y m d : option Z) : result DateTime :=
  match y, m, d with
  | Some y, Some m, Some d =>
      if (d <=? days_in_month y m) && in_ns_bounds (midnight y m d)
      then Ok (Some (midnight y m d)) else Raised ValueError
  | _, _, _ => Raised ValueError
  end.

Definition nat_strings : list string :=
  ["NaT"; "nat"; "NAT"; "nan"; "NaN"; "NAN"].

Definition strptime (fmt : string) (s : string) : result DateTime :=
  if String.eqb s "" || str_in s nat_strings then Ok NaT
  else if String.eqb fmt "%Y-%m-%d" then
    match split_on "-"%char (chars s) with
    | [y; m; d] => make_date (field_year y) (field_upto 12 m) (field_upto 31 d)
    | _ => Raised ValueError
    end
  else if String.eqb fmt "%m/%d/%Y" then
    match split_on "/"%char (chars s) with
    | [m; d; y] => make_date (field_year y) (field_upto 12 m) (field_upto 31 d)
    | _ => Raised ValueError
    end
  else if String.eqb fmt "%d-%m-%Y" then
    match split_on "-"%char (chars s) with
    | [d; m; y] => make_date (field_year y) (field_upto 12 m) (field_upto 31 d)
    | _ => Raised ValueError
    end
  else if String.eqb fmt "%Y/%m/%d" then
    match split_on "/"%char (chars s) with
    | [y; m; d] => make_date (field_year y) (field_upto 12 m) (field_upto 31 d)
    | _ => Raised ValueError
    end
  else Raised ValueError.

Definition known_formats : list string :=
  ["%Y-%m-%d"; "%m/%d/%Y"; "%d-%m-%Y"; "%Y/%m/%d"].

Fixpoint first_ok (fmts : list string) (s : string) : result DateTime :=
  match fmts with
  | [] => Raised DateParseError
  | fmt :: rest =>
      match strptime fmt s with
      | Ok d => Ok d
      | Raised _ => first_ok rest s
      end
  end.

Definition to_datetime (fmt : option string) (c : Cell) : result DateTime :=
  match c with
  | CNull => Ok NaT
  | CTime t => Ok (Some t)
  | CNum n =>
      match fmt with
      | Some _ => Raised ValueError
      | None => if in_ns_bounds n then Ok (Some n) else Raised ValueError
      end
  | CStr s =>
      match fmt with
      | Some f => strptime f s
      | None => first_ok known_formats s
      end
  end.

End ToDatetimeRef.

(** ** Tables *)

Inductive Process : Type := Key | QC | Final.

(** The value written to the ['Process'] column. *)
Definition process_name (p : Process) : string :=
  match p with Key => "Key" | QC => "QC" | Final => "Final" end.

Definition Process_eq_dec (a b : Process) : {a = b} + {a <> b}.
Proof. decide equality. Defined.

(** The raw table: [ncols] columns, each row a sequence of cells read by
    position (a position past the end of a short row reads as empty). *)
Record DataFrame : Type := {
  ncols : nat;
  rows : list (list Cell)
}.

(** [input_df.empty] *)
Definition df_empty (df : DataFrame) : bool :=
  (ncols df =? 0)%nat || (List.length (rows df) =? 0)%nat.

Definition cell_at (r : list Cell) (j : nat) : Cell := nth j r CNull.

(** One row of [key_df], [qc_df] or [final_df].  The three frames share the
    columns Outdate, Indate, Total Rec., Processing Days, Week, Month and
    Process; [Name] is 'Key Branch', 'QC Branch' or 'Final Person'.  A column
    a frame does not have is left empty: Duedate and On Time Status exist for
    Key only, Status and Shipment Date for Final only.  [row_index] is the
    index label the frame keeps from the raw table. *)
Record Row : Type := {
  row_index : nat;
  Name : Cell;
  Outdate : DateTime;
  Duedate : DateTime;
  Indate : DateTime;
  Status : Cell;
  ShipmentDate : DateTime;
  TotalRec : Cell;
  ProcessingDays : option Z;
  OnTimeStatus : option string;
  Week : DateTime;
  Month : DateTime;
  RowProcess : Process
}.

(** [(a - b).dt.days]: the day component of the difference, missing when
    either date is. *)
Definition days_between (a b : DateTime) : option Z :=
  match a, b with
  | Some ta, Some tb => Some ((ta - tb) / Calendar.ns_per_day)
  | _, _ => None
  end.

(** [a <= b] on dates; a comparison with NaT is False. *)
Definition date_le (a b : DateTime) : bool :=
  match a, b with
  | Some ta, Some tb => ta <=? tb
  | _, _ => false
  end.

Definition period_week (a : DateTime) : DateTime := option_map Calendar.week_start a.
Definition period_month (a : DateTime) : DateTime := option_map Calendar.month_start a.

(** [dropna(subset=[name, 'Total Rec.'])] keeps a row when both are present. *)
Definition has_required (r : Row) : bool :=
  negb (isna (Name r)) && negb (isna (TotalRec r)).

Definition is_numeric (c : Cell) : bool :=
  match c with CNum _ => true | _ => false end.

(** The number held by a numeric 'Total Rec.' cell.  It is used for tables
    whose Total Rec. are all numbers ([numeric_table]); what the program does
    with the other tables is [series_sum] below. *)
Definition total_value (c : Cell) : Z :=
  match c with CNum n => n | _ => 0 end.

(** Rows of the personnel report before numbering, and after. *)
Record PersonnelRow : Type := {
  p_Name : Cell;
  p_Process : Process;
  p_TotalRec : Z
}.

Record PersonnelReportRow : Type := {
  SNo : Z;
  pr_Name : Cell;
  pr_Process : Process;
  pr_TotalRec : Z
}.

(** Rows of the weekly and monthly personnel reports. *)
Record PeriodPersonnelRow : Type := {
  pp_Period : Z;
  pp_Name : Cell;
  pp_TotalRec : Z;
  pp_Process : Process
}.

(** Rows of the per-process period aggregation: summed records and mean
    processing days (missing when no row of the group has a duration). *)
Record PeriodStat : Type := {
  ps_Period : Z;
  ps_Process : Process;
  ps_TotalRec : Z;
  ps_Days : option Q
}.

(** The pivoted period report after [reset_index]: the period column, then
    one column per flattened label; each row lists its values in column
    order. *)
Record PeriodReport : Type := {
  period_label : string;
  value_columns : list string;
  report_rows : list (Z * list Q)
}.

Record Results : Type := {
  res_Key : list Row;
  res_QC : list Row;
  res_Final : list Row;
  res_Weekly : option PeriodReport;
  res_Monthly : option PeriodReport;
  res_Personnel : option (list PersonnelReportRow);
  res_PersonnelWeekly : option (list PeriodPersonnelRow);
  res_PersonnelMonthly : option (list PeriodPersonnelRow)
}.

(** The ['cols'] entries of the [results] dictionary. *)
Record Columns : Type := {
  cols_Key : list string;
  cols_QC : list string;
  cols_Final : list string
}.

Definition default_columns : Columns := {|
  cols_Key := ["J"; "K"; "L"; "M"; "N"];
  cols_QC := ["U"; "V"; "W"; "X"];
  cols_Final := ["X"; "Y"; "Z"; "AA"; "AB"; "AC"]
|}.

(** Values written to worksheet cells. *)
Inductive Value : Type :=
| VInt (n : Z)
| VFloat (q : Q)
| VText (s : string)
| VDate (d : DateTime)
| VDays (d : option Z)
| VCell (c : Cell)
| VStrftime (fmt : string) (t : Z).   (* [t.strftime(fmt)] *)

Record Sheet : Type := {
  title : string;
  header : list string;
  body : list (list Value)
}.

Definition Workbook : Type := list Sheet.

(** ** Sorting and grouping helpers *)

Section Sorting.
Context {A : Type} (leb : A -> A -> bool).

Fixpoint insert_by (x : A) (l : list A) : list A :=
  match l with
  | [] => [x]
  | y :: t => if leb x y then x :: l else y :: insert_by x t
  end.

(** A stable sort: equal elements keep their order. *)
Definition sort_by (l : list A) : list A := fold_right insert_by [] l.
End Sorting.

Section Grouping.
Context {K : Type} (K_eq_dec : forall a b : K, {a = b} + {a <> b})
        (K_leb : K -> K -> bool).

(** The group keys of a [groupby]: each key once, in sorted order. *)
Definition group_keys (ks : list K) : list K :=
  sort_by K_leb (nodup K_eq_dec ks).

(** The members of the group of [k], in table order. *)
Definition group_of {V : Type} (k : K) (kvs : list (K * V)) : list V :=
  map snd (filter (fun kv => if K_eq_dec (fst kv) k then true else false) kvs).
End Grouping.

Definition sum_Z (l : list Z) : Z := fold_right Z.add 0 l.

(** The exact mean of a list of integers, as a reduced fraction. *)
Definition exact_mean (l : list Z) : Q :=
  Qred (Qmake (sum_Z l) (Pos.of_nat (List.length l))).

(** Orders of the group keys.  In a column of mixed cells numbers come before
    text. *)
Definition cell_rank (c : Cell) : Z :=
  match c with CNum _ => 0 | CStr _ => 1 | CTime _ => 2 | CNull => 3 end.

Definition cell_leb (a b : Cell) : bool :=
  match a, b with
  | CNum x, CNum y => x <=? y
  | CStr x, CStr y => String.leb x y
  | CTime x, CTime y => x <=? y
  | _, _ => cell_rank a <=? cell_rank b
  end.

Definition process_leb (a b : Process) : bool :=
  String.leb (process_name a) (process_name b).

Definition name_process_leb (a b : Cell * Process) : bool :=
  if Cell_eq_dec (fst a) (fst b) then process_leb (snd a) (snd b)
  else cell_leb (fst a) (fst b).

Definition period_name_leb (a b : Z * Cell) : bool :=
  if Z.eq_dec (fst a) (fst b) then cell_leb (snd a) (snd b)
  else fst a <=? fst b.

Definition period_process_leb (a b : Z * Process) : bool :=
  if Z.eq_dec (fst a) (fst b) then process_leb (snd a) (snd b)
  else fst a <=? fst b.

Definition name_process_eq_dec (a b : Cell * Process) : {a = b} + {a <> b}.
Proof. decide equality; [apply Process_eq_dec | apply Cell_eq_dec]. Defined.

Definition period_name_eq_dec (a b : Z * Cell) : {a = b} + {a <> b}.
Proof. decide equality; [apply Cell_eq_dec | apply Z.eq_dec]. Defined.

Definition period_process_eq_dec (a b : Z * Process) : {a = b} + {a <> b}.
Proof. decide equality; [apply Process_eq_dec | apply Z.eq_dec]. Defined.

(** Reference instance of [sort_values(by='Total Rec.', ascending=False)]. *)
Definition total_desc_leb (a b : PersonnelRow) : bool :=
  p_TotalRec b <=? p_TotalRec a.

Definition sort_values_desc_ref (l : list PersonnelRow) : list PersonnelRow :=
  sort_by total_desc_leb l.

(** ** The pipeline *)

Section Pipeline.
Import PyStr ColumnMapper.

(** [pd.to_datetime(value, format=fmt)]; without a format, the permissive
    parse. *)
Variable to_datetime : option string -> Cell -> result DateTime.

(** [sort_values(by='Total Rec.', ascending=False)] with the default
    algorithm, which orders the rows but does not fix the order of rows with
    equal totals. *)
Variable sort_values_desc : list PersonnelRow -> list PersonnelRow.

Definition nonempty {A : Type} (l : list A) : bool :=
  match l with [] => false | _ => true end.

(** *** DateNormalizer: [safe_date_parse] *)

Definition sentinels : list string := ["WIP"; "NA"; "N/A"; ""].

(** [str(date_str).strip().upper() in sentinels].  The text of a number or
    of a Timestamp contains a digit and the text of an empty cell is
    [None], [nan] or [NaT], so only a text cell can be a sentinel. *)
Definition is_sentinel (c : Cell) : bool :=
  match c with
  | CStr s => str_in (upper (strip s)) sentinels
  | _ => false
  end.

Definition formats : list string :=
  ["%Y-%m-%d"; "%m/%d/%Y"; "%d-%m-%Y"; "%Y/%m/%d"].

(** The [for fmt in ...] loop: the first format that does not raise returns;
    [None] when the loop runs to its end. *)
Fixpoint try_formats (fmts : list string) (date_str : Cell) : option DateTime :=
  match fmts with
  | [] => None
  | fmt :: rest =>
      match to_datetime (Some fmt) date_str with
      | Ok d => Some d
      | Raised _ => try_formats rest date_str
      end
  end.

Definition parse_warning : Event := Printed "Warning: Could not parse date".

Definition safe_date_parse (date_str : Cell) : DateTime * list Event :=
  if isna date_str || is_sentinel date_str then (NaT, [])
  else
    match try_formats formats date_str with
    | Some d => (d, [])
    | None =>
        match to_datetime None date_str with
        | Ok d => (d, [])
        | Raised _ => (NaT, [parse_warning])
        end
    end.

(** *** ProcessExtractor: the Key, QC and Final blocks *)

(** [[self.excel_column_to_index(col) for col in cols]] *)
Fixpoint resolve_columns (cols : list string) : list (option Z) * list Event :=
  match cols with
  | [] => ([], [])
  | col :: rest =>
      let (i, ev) := excel_column_to_index col in
      let (others, evs) := resolve_columns rest in
      (i :: others, ev ++ evs)
  end.

(** [None in cols] is False exactly when every entry is an index. *)
Fixpoint all_some (l : list (option Z)) : option (list Z) :=
  match l with
  | [] => Some []
  | None :: _ => None
  | Some i :: rest => option_map (cons i) (all_some rest)
  end.

(** One position of [iloc]: negative positions count from the end, a
    position outside the frame raises [IndexError]. *)
Definition iloc_position (n : nat) (i : Z) : result nat :=
  if (0 <=? i) && (i <? Z.of_nat n) then Ok (Z.to_nat i)
  else if (- Z.of_nat n <=? i) && (i <? 0) then Ok (Z.to_nat (Z.of_nat n + i))
  else Raised IndexError.

Fixpoint iloc_columns (n : nat) (idx : list Z) : result (list nat) :=
  match idx with
  | [] => Ok []
  | i :: rest =>
      match iloc_position n i with
      | Raised e => Raised e
      | Ok j =>
          match iloc_columns n rest with
          | Raised e => Raised e
          | Ok js => Ok (j :: js)
          end
      end
  end.

(** The rows of the raw table with their index labels. *)
Definition enumerate (l : list (list Cell)) : list (nat * list Cell) :=
  combine (seq 0 (List.length l)) l.

(** The lines printed while [safe_date_parse] is applied down column [j]. *)
Definition parse_events (input_df : DataFrame) (j : nat) : list Event :=
  flat_map (fun r => snd (safe_date_parse (cell_at r j))) (rows input_df).

Definition parse_cell (r : list Cell) (j : nat) : DateTime :=
  fst (safe_date_parse (cell_at r j)).

(** Selected, renamed and parsed columns of one raw row; the derived columns
    are not yet there. *)
Definition key_select (c_branch c_out c_due c_in c_total : nat)
           (ir : nat * list Cell) : Row :=
  let (i, r) := ir in
  {| row_index := i; Name := cell_at r c_branch;
     Outdate := parse_cell r c_out; Duedate := parse_cell r c_due;
     Indate := parse_cell r c_in; Status := CNull; ShipmentDate := NaT;
     TotalRec := cell_at r c_total; ProcessingDays := None;
     OnTimeStatus := None; Week := NaT; Month := NaT; RowProcess := Key |}.

Definition key_derive (r : Row) : Row :=
  {| row_index := row_index r; Name := Name r;
     Outdate := Outdate r; Duedate := Duedate r; Indate := Indate r;
     Status := Status r; ShipmentDate := ShipmentDate r; TotalRec := TotalRec r;
     ProcessingDays := days_between (Indate r) (Outdate r);
     OnTimeStatus :=
       Some (if date_le (Indate r) (Duedate r) then "On Time" else "Delayed");
     Week := period_week (Indate r); Month := period_month (Indate r);
     RowProcess := Key |}.

Definition qc_select (c_branch c_out c_in c_total : nat)
           (ir : nat * list Cell) : Row :=
  let (i, r) := ir in
  {| row_index := i; Name := cell_at r c_branch;
     Outdate := parse_cell r c_out; Duedate := NaT;
     Indate := parse_cell r c_in; Status := CNull; ShipmentDate := NaT;
     TotalRec := cell_at r c_total; ProcessingDays := None;
     OnTimeStatus := None; Week := NaT; Month := NaT; RowProcess := QC |}.

Definition qc_derive (r : Row) : Row :=
  {| row_index := row_index r; Name := Name r;
     Outdate := Outdate r; Duedate := Duedate r; Indate := Indate r;
     Status := Status r; ShipmentDate := ShipmentDate r; TotalRec := TotalRec r;
     ProcessingDays := days_between (Indate r) (Outdate r);
     OnTimeStatus := None;
     Week := period_week (Indate r); Month := period_month (Indate r);
     RowProcess := QC |}.

Definition final_select (c_total c_person c_out c_in c_status c_ship : nat)
           (ir : nat * list Cell) : Row :=
  let (i, r) := ir in
  {| row_index := i; Name := cell_at r c_person;
     Outdate := parse_cell r c_out; Duedate := NaT;
     Indate := parse_cell r c_in; Status := cell_at r c_status;
     ShipmentDate := parse_cell r c_ship;
     TotalRec := cell_at r c_total; ProcessingDays := None;
     OnTimeStatus := None; Week := NaT; Month := NaT; RowProcess := Final |}.

Definition final_derive (r : Row) : Row :=
  {| row_index := row_index r; Name := Name r;
     Outdate := Outdate r; Duedate := Duedate r; Indate := Indate r;
     Status := Status r; ShipmentDate := ShipmentDate r; TotalRec := TotalRec r;
     ProcessingDays := days_between (ShipmentDate r) (Outdate r);
     OnTimeStatus := None;
     Week := period_week (ShipmentDate r); Month := period_month (ShipmentDate r);
     RowProcess := Final |}.

(** The derived columns are computed by the library inside the [try] of the
    block: a difference of two date columns and its [.dt.days], a comparison
    of two date columns, [.dt.to_period] of the anchor.  These statements
    raise on some columns: when timestamps with and without a UTC offset
    meet, when the anchor column is not a column of timestamps, when a
    difference does not fit 64 bits.  On which frames they raise is the
    library's: [derive_raises p df] is the exception raised for the frame
    [df] of block [p] as it is after [dropna], if any. *)
Variable derive_raises : Process -> list Row -> option Exn.

(** [if not df.empty:] followed by the derived columns. *)
Definition derived (p : Process) (derive : Row -> Row) (df : list Row)
  : result (list Row) :=
  if nonempty df then
    match derive_raises p df with
    | Some e => Raised e
    | None => Ok (map derive df)
    end
  else Ok [].

(** The body of a process block's [try]: the frame, or the exception, with
    what was shown or printed on the way. *)
Definition key_frame (cols : list string) (input_df : DataFrame)
  : result (list Row) * list Event :=
  let (key_cols, ev) := resolve_columns cols in
  match all_some key_cols with
  | None => (Raised ValueError, ev)
  | Some idx =>
      match iloc_columns (ncols input_df) idx with
      | Raised e => (Raised e, ev)
      | Ok [c0; c1; c2; c3; c4] =>
          (derived Key key_derive
             (filter has_required
                (map (key_select c0 c1 c2 c3 c4) (enumerate (rows input_df)))),
           ev ++ parse_events input_df c1 ++ parse_events input_df c2
              ++ parse_events input_df c3)
      | Ok _ => (Raised ValueError, ev)   (* five names for another number of columns *)
      end
  end.

Definition qc_frame (cols : list string) (input_df : DataFrame)
  : result (list Row) * list Event :=
  let (qc_cols, ev) := resolve_columns cols in
  match all_some qc_cols with
  | None => (Raised ValueError, ev)
  | Some idx =>
      match iloc_columns (ncols input_df) idx with
      | Raised e => (Raised e, ev)
      | Ok [c0; c1; c2; c3] =>
          (derived QC qc_derive
             (filter has_required
                (map (qc_select c0 c1 c2 c3) (enumerate (rows input_df)))),
           ev ++ parse_events input_df c1 ++ parse_events input_df c2)
      | Ok _ => (Raised ValueError, ev)
      end
  end.

Definition final_frame (cols : list string) (input_df : DataFrame)
  : result (list Row) * list Event :=
  let (final_cols, ev) := resolve_columns cols in
  match all_some final_cols with
  | None => (Raised ValueError, ev)
  | Some idx =>
      match iloc_columns (ncols input_df) idx with
      | Raised e => (Raised e, ev)
      | Ok [c0; c1; c2; c3; c4; c5] =>
          (derived Final final_derive
             (filter has_required
                (map (final_select c0 c1 c2 c3 c4 c5) (enumerate (rows input_df)))),
           ev ++ parse_events input_df c2 ++ parse_events input_df c3
              ++ parse_events input_df c5)
      | Ok _ => (Raised ValueError, ev)
      end
  end.

(** The [except] of a process block: a warning dialog and an empty frame. *)
Definition caught (warning : string) (m : result (list Row) * list Event)
  : list Row * list Event :=
  match m with
  | (Ok df, ev) => (df, ev)
  | (Raised _, ev) => ([], ev ++ [ShowWarning warning])
  end.

(** The table a block leaves in [results], and whether its [try] raised. *)
Definition frame_rows (m : result (list Row) * list Event) : list Row :=
  match fst m with Ok df => df | Raised _ => [] end.

Definition frame_raised (m : result (list Row) * list Event) : Prop :=
  exists e, fst m = Raised e.

Definition process_key (cols : list string) (input_df : DataFrame) :=
  caught "Key Data Warning" (key_frame cols input_df).
Definition process_qc (cols : list string) (input_df : DataFrame) :=
  caught "QC Data Warning" (qc_frame cols input_df).
Definition process_final (cols : list string) (input_df : DataFrame) :=
  caught "Final Data Warning" (final_frame cols input_df).

(** *** Aggregator: the tables of numbers

    The aggregation with exact integer sums.  It is what the program
    computes from process tables whose Total Rec. are all numbers, as long as
    the sums stay in the range in which the arithmetic of the library is
    exact; [process_input_data_with] below runs the aggregation as the
    library does it, with the sums the library returns and with the [try]
    blocks of the source. *)

(** The mean of a group of processing days, a float: the library's.  The
    mean is missing when no row of the group has a duration. *)
Variable float_mean : list Z -> Q.

Definition days_mean (days : list Z) : option Q :=
  match days with
  | [] => None
  | _ => Some (float_mean days)
  end.

(** [df[[name, 'Total Rec.', 'Process']].rename(columns={name: 'Name'})] *)
Definition personnel_projection (df : list Row) : list PersonnelRow :=
  map (fun r => {| p_Name := Name r; p_Process := RowProcess r;
                   p_TotalRec := total_value (TotalRec r) |}) df.

Definition personnel_key (r : PersonnelRow) : Cell * Process :=
  (p_Name r, p_Process r).

(** [groupby(['Name', 'Process'])['Total Rec.'].sum().reset_index()]; rows
    without a name belong to no group. *)
Definition groupby_name_process (data : list PersonnelRow) : list PersonnelRow :=
  let keyed :=
    map (fun r => (personnel_key r, p_TotalRec r))
        (filter (fun r => negb (isna (p_Name r))) data) in
  map (fun k => {| p_Name := fst k; p_Process := snd k;
                   p_TotalRec := sum_Z (group_of name_process_eq_dec k keyed) |})
      (group_keys name_process_eq_dec name_process_leb (map fst keyed)).

(** [insert(0, 'S.No.', range(1, len + 1))], counting from [n]. *)
Fixpoint number_from (n : Z) (l : list PersonnelRow) : list PersonnelReportRow :=
  match l with
  | [] => []
  | r :: rest =>
      {| SNo := n; pr_Name := p_Name r; pr_Process := p_Process r;
         pr_TotalRec := p_TotalRec r |} :: number_from (n + 1) rest
  end.

Definition personnel_report (data : list PersonnelRow) : list PersonnelReportRow :=
  number_from 1 (sort_values_desc (groupby_name_process data)).

(** [df.groupby([period, name]).agg({'Total Rec.': 'sum'}).reset_index()]
    tagged with the process; a row whose period or name is missing belongs
    to no group. *)
Definition period_personnel (period : Row -> DateTime) (p : Process)
           (df : list Row) : list PeriodPersonnelRow :=
  let keyed :=
    flat_map (fun r =>
                match period r with
                | Some w =>
                    if isna (Name r) then []
                    else [((w, Name r), total_value (TotalRec r))]
                | None => []
                end) df in
  map (fun k => {| pp_Period := fst k; pp_Name := snd k;
                   pp_TotalRec := sum_Z (group_of period_name_eq_dec k keyed);
                   pp_Process := p |})
      (group_keys period_name_eq_dec period_name_leb (map fst keyed)).

(** [sort_values([period, 'Total Rec.'], ascending=[True, False])] *)
Definition period_total_leb (a b : PeriodPersonnelRow) : bool :=
  (pp_Period a <? pp_Period b)
  || ((pp_Period a =? pp_Period b) && (pp_TotalRec b <=? pp_TotalRec a)).

Definition period_personnel_report (period : Row -> DateTime)
           (key_df qc_df final_df : list Row) : list PeriodPersonnelRow :=
  sort_by period_total_leb
    (period_personnel period Key key_df ++ period_personnel period QC qc_df
       ++ period_personnel period Final final_df).

Definition present_days (l : list (option Z)) : list Z :=
  flat_map (fun d => match d with Some n => [n] | None => [] end) l.

(** [df.groupby([period, 'Process']).agg({'Total Rec.': 'sum',
    'Processing Days': 'mean'}).reset_index()] *)
Definition period_stats (period : Row -> DateTime) (df : list Row)
  : list PeriodStat :=
  let keyed :=
    flat_map (fun r =>
                match period r with
                | Some w => [((w, RowProcess r), r)]
                | None => []
                end) df in
  map (fun k =>
         let members := group_of period_process_eq_dec k keyed in
         {| ps_Period := fst k; ps_Process := snd k;
            ps_TotalRec := sum_Z (map (fun r => total_value (TotalRec r)) members);
            ps_Days := days_mean (present_days (map ProcessingDays members)) |})
      (group_keys period_process_eq_dec period_process_leb (map fst keyed)).

Inductive Metric : Type := MProcessingDays | MTotalRec.

Definition metric_name (m : Metric) : string :=
  match m with MProcessingDays => "Processing Days" | MTotalRec => "Total Rec." end.

(** The value of one statistic under a metric; the sum skips a missing mean. *)
Definition metric_value (m : Metric) (s : PeriodStat) : Q :=
  match m with
  | MTotalRec => inject_Z (ps_TotalRec s)
  | MProcessingDays => match ps_Days s with Some q => q | None => 0%Q end
  end.

Definition sum_Q (l : list Q) : Q := fold_right (fun a b => Qred (a + b)%Q) 0%Q l.

(** One cell of the pivot: the sum over the statistics of that period and
    process, and 0 from [fillna(0)] where there is none. *)
Definition pivot_cell (stats : list PeriodStat) (w : Z) (m : Metric) (p : Process) : Q :=
  match filter (fun s => (ps_Period s =? w)
                         && (if Process_eq_dec (ps_Process s) p then true else false))
               stats with
  | [] => 0%Q
  | found => sum_Q (map (metric_value m) found)
  end.

(** [' '.join(col).strip()] *)
Definition column_title (m : Metric) (p : Process) : string :=
  strip (metric_name m ++ " " ++ process_name p)%string.

(** [pivot_table(index=period, columns='Process', values=['Total Rec.',
    'Processing Days'], aggfunc='sum').fillna(0)], the column labels
    flattened, then [reset_index()]: the columns are the (metric, process)
    pairs of the processes that occur, in sorted order. *)
Definition pivot_table (label : string) (stats : list PeriodStat) : PeriodReport :=
  let periods := group_keys Z.eq_dec Z.leb (map ps_Period stats) in
  let procs := group_keys Process_eq_dec process_leb (map ps_Process stats) in
  let columns :=
    map (pair MProcessingDays) procs ++ map (pair MTotalRec) procs in
  {| period_label := label;
     value_columns := map (fun mp => column_title (fst mp) (snd mp)) columns;
     report_rows :=
       map (fun w => (w, map (fun mp => pivot_cell stats w (fst mp) (snd mp)) columns))
           periods |}.

Definition period_report (label : string) (period : Row -> DateTime)
           (key_df qc_df final_df : list Row) : PeriodReport :=
  pivot_table label
    (period_stats period key_df ++ period_stats period qc_df
       ++ period_stats period final_df).

(** *** Aggregator: the sums of the library and the [try] blocks

    What [groupby(...).sum()] returns for a group depends on how the column
    'Total Rec.' is held.  A group of numbers is added as numbers: 64-bit
    integers wrap around, floats are rounded, Python integers are exact.  A
    group that holds something else is added with Python's [+], which raises
    [TypeError] for a number and a text.  Text alone is concatenated: the
    total is then a text, which the tables of [Results], whose totals are
    integers, cannot hold; the model carries on with the number [object_sum]
    gives, and every statement about a total assumes that the Total Rec. of
    the tables are numbers. *)

(** Where a sum is taken: a [groupby] of one process table, the [groupby] of
    the personnel report, the [groupby] of a trend chart. *)
Inductive Site : Type :=
| AtFrame (p : Process)
| AtPersonnel
| AtTrend (period_type : string).

(** The sum of a group of numbers, as the library returns it. *)
Variable int_sum : Site -> list Z -> Z.

(** The sum of a group that does not hold numbers only: an exception, or a
    total. *)
Variable object_sum : Site -> list Cell -> result Z.

(** Whether [sort_values] or [pivot_table] raises in the [try] block that
    ends in the warning [block], on tables some Total Rec. of which is not a
    number: the totals are then Python objects, which these functions
    compare and add as Python does. *)
Variable object_raises : string -> list Row -> option Exn.

(** Whether [pivot_table] raises on a table without rows. *)
Variable empty_pivot_raises : string -> option Exn.

Fixpoint all_numbers (cells : list Cell) : option (list Z) :=
  match cells with
  | [] => Some []
  | CNum n :: rest => option_map (cons n) (all_numbers rest)
  | _ :: _ => None
  end.

(** ['Total Rec.'].sum() of one group. *)
Definition series_sum (site : Site) (cells : list Cell) : result Z :=
  match all_numbers cells with
  | Some zs => Ok (int_sum site zs)
  | None => object_sum site cells
  end.

(** The rows of an aggregation, one per group; the aggregation raises when
    the sum of a group does. *)
Fixpoint all_ok {A : Type} (l : list (result A)) : result (list A) :=
  match l with
  | [] => Ok []
  | Raised e :: _ => Raised e
  | Ok a :: rest =>
      match all_ok rest with
      | Ok others => Ok (a :: others)
      | Raised e => Raised e
      end
  end.

Definition numeric_table (df : list Row) : bool :=
  forallb (fun r => is_numeric (TotalRec r)) df.

(** Sorting and pivoting totals that are numbers does not raise. *)
Definition block_raises (block : string) (tables : list Row) : option Exn :=
  if numeric_table tables then None else object_raises block tables.

(** [pd.concat(personnel_data).groupby(['Name', 'Process'])['Total Rec.']
    .sum().reset_index()], on the rows of the process tables put end to end
    (the projection keeps the name, the Total Rec. and the process of each
    row). *)
Definition personnel_sums (tables : list Row) : result (list PersonnelRow) :=
  let keyed :=
    flat_map (fun r => if isna (Name r) then []
                       else [((Name r, RowProcess r), TotalRec r)]) tables in
  all_ok
    (map (fun k =>
            match series_sum AtPersonnel (group_of name_process_eq_dec k keyed) with
            | Ok total => Ok {| p_Name := fst k; p_Process := snd k;
                                p_TotalRec := total |}
            | Raised e => Raised e
            end)
         (group_keys name_process_eq_dec name_process_leb (map fst keyed))).

(** The [try] block of the personnel report: the sums, the sort and the
    numbering, or the warning and an empty table. *)
Definition personnel_try (tables : list Row)
  : list PersonnelReportRow * list Event :=
  match personnel_sums tables, block_raises "Personnel Report Warning" tables with
  | Ok groups, None => (number_from 1 (sort_values_desc groups), [])
  | _, _ => ([], [ShowWarning "Personnel Report Warning"])
  end.

(** [df.groupby([period, name]).agg({'Total Rec.': 'sum'}).reset_index()] of
    the table of process [p], tagged with [p]. *)
Definition period_personnel_sums (period : Row -> DateTime) (p : Process)
           (df : list Row) : result (list PeriodPersonnelRow) :=
  let keyed :=
    flat_map (fun r =>
                match period r with
                | Some w =>
                    if isna (Name r) then [] else [((w, Name r), TotalRec r)]
                | None => []
                end) df in
  all_ok
    (map (fun k =>
            match series_sum (AtFrame p) (group_of period_name_eq_dec k keyed) with
            | Ok total => Ok {| pp_Period := fst k; pp_Name := snd k;
                                pp_TotalRec := total; pp_Process := p |}
            | Raised e => Raised e
            end)
         (group_keys period_name_eq_dec period_name_leb (map fst keyed))).

(** The entries of [personnel_weekly] (or [personnel_monthly]) put end to
    end.  These [groupby]s are in no [try] block of their own: when one of
    them raises, [process_input_data] ends in its outer [except].  An empty
    table has no entry, and no row. *)
Definition personnel_parts (period : Row -> DateTime)
           (key_df qc_df final_df : list Row) : result (list PeriodPersonnelRow) :=
  match period_personnel_sums period Key key_df with
  | Raised e => Raised e
  | Ok k =>
      match period_personnel_sums period QC qc_df with
      | Raised e => Raised e
      | Ok q =>
          match period_personnel_sums period Final final_df with
          | Raised e => Raised e
          | Ok f => Ok (k ++ q ++ f)
          end
      end
  end.

(** The [try] block of the weekly (or monthly) personnel report:
    [pd.concat(...).sort_values([period, 'Total Rec.'], ascending=[True,
    False])], or the warning and an empty table. *)
Definition period_personnel_try (block : string) (tables : list Row)
           (parts : list PeriodPersonnelRow)
  : list PeriodPersonnelRow * list Event :=
  match block_raises block tables with
  | None => (sort_by period_total_leb parts, [])
  | Some _ => ([], [ShowWarning block])
  end.

(** [df.groupby([period, 'Process']).agg({'Total Rec.': 'sum',
    'Processing Days': 'mean'}).reset_index()] of the table of process
    [p]. *)
Definition period_stats_sums (period : Row -> DateTime) (p : Process)
           (df : list Row) : result (list PeriodStat) :=
  let keyed :=
    flat_map (fun r =>
                match period r with
                | Some w => [((w, RowProcess r), r)]
                | None => []
                end) df in
  all_ok
    (map (fun k =>
            let members := group_of period_process_eq_dec k keyed in
            match series_sum (AtFrame p) (map TotalRec members) with
            | Ok total =>
                Ok {| ps_Period := fst k; ps_Process := snd k;
                      ps_TotalRec := total;
                      ps_Days := days_mean (present_days (map ProcessingDays members)) |}
            | Raised e => Raised e
            end)
         (group_keys period_process_eq_dec period_process_leb (map fst keyed))).

Definition aggregation_warning (what : string) (p : Process) : Event :=
  Printed ("Warning: Error aggregating " ++ what ++ " " ++ process_name p ++ " data").

(** One turn of the loop [for process in ['Key', 'QC', 'Final']]: the entry
    added to [weekly_data] (or [monthly_data]), if any.  An empty table adds
    none; an aggregation that raises prints a line and adds none. *)
Definition aggregate (what : string) (period : Row -> DateTime) (p : Process)
           (df : list Row) : option (list PeriodStat) * list Event :=
  if nonempty df then
    match period_stats_sums period p df with
    | Ok stats => (Some stats, [])
    | Raised _ => (None, [aggregation_warning what p])
    end
  else (None, []).

(** The table of process [p] as far as it reached [weekly_data]. *)
Definition aggregated (period : Row -> DateTime) (p : Process) (df : list Row)
  : list Row :=
  match period_stats_sums period p df with
  | Ok _ => df
  | Raised _ => []
  end.

Definition entry (e : option (list PeriodStat)) : list PeriodStat :=
  match e with Some stats => stats | None => [] end.

Definition has_entry (e : option (list PeriodStat)) : bool :=
  match e with Some _ => true | None => false end.

(** [pd.DataFrame()] *)
Definition empty_report : PeriodReport :=
  {| period_label := ""; value_columns := []; report_rows := [] |}.

(** Whether the [try] block of a process report raises. *)
Definition pivot_raises (block : string) (tables : list Row) (stats : list PeriodStat)
  : option Exn :=
  if nonempty stats then block_raises block tables else empty_pivot_raises block.

(** The weekly (or monthly) process report: the loop over the processes,
    then, if [weekly_data] has an entry, the [try] block of the pivot, which
    leaves the report or, after its warning, an empty table. *)
Definition period_report_try (what block label : string) (period : Row -> DateTime)
           (key_df qc_df final_df : list Row)
  : option PeriodReport * list Event :=
  let (k, ev_k) := aggregate what period Key key_df in
  let (q, ev_q) := aggregate what period QC qc_df in
  let (f, ev_f) := aggregate what period Final final_df in
  let ev := ev_k ++ ev_q ++ ev_f in
  if has_entry k || has_entry q || has_entry f then
    let stats := entry k ++ entry q ++ entry f in
    match pivot_raises block (key_df ++ qc_df ++ final_df) stats with
    | Some _ => (Some empty_report, ev ++ [ShowWarning block])
    | None => (Some (pivot_table label stats), ev)
    end
  else (None, ev).

(** *** [process_input_data] *)

(** [process_input_data] from 'Generate personnel data' on, given the three
    process tables. *)
Definition aggregate_tables (key_df qc_df final_df : list Row)
  : option Results * list Event :=
  let tables := key_df ++ qc_df ++ final_df in
  match personnel_parts Week key_df qc_df final_df,
        personnel_parts Month key_df qc_df final_df with
  | Ok weekly, Ok monthly =>
      if nonempty key_df || nonempty qc_df || nonempty final_df then
        let (personnel, ev_p) := personnel_try tables in
        let (personnel_weekly, ev_pw) :=
          period_personnel_try "Weekly Personnel Warning" tables weekly in
        let (personnel_monthly, ev_pm) :=
          period_personnel_try "Monthly Personnel Warning" tables monthly in
        let (weekly_report, ev_w) :=
          period_report_try "weekly" "Weekly Report Warning" "Week" Week
                            key_df qc_df final_df in
        let (monthly_report, ev_m) :=
          period_report_try "monthly" "Monthly Report Warning" "Month" Month
                            key_df qc_df final_df in
        (Some {| res_Key := key_df; res_QC := qc_df; res_Final := final_df;
                 res_Weekly := weekly_report;
                 res_Monthly := monthly_report;
                 res_Personnel := Some personnel;
                 res_PersonnelWeekly := Some personnel_weekly;
                 res_PersonnelMonthly := Some personnel_monthly |},
         ev_p ++ ev_pw ++ ev_pm ++ ev_w ++ ev_m)
      else
        (Some {| res_Key := key_df; res_QC := qc_df; res_Final := final_df;
                 res_Weekly := None; res_Monthly := None; res_Personnel := None;
                 res_PersonnelWeekly := None; res_PersonnelMonthly := None |},
         [])
  | _, _ => (None, [ShowError "Processing Error"])
  end.

Definition process_input_data_with (cols : Columns) (input_df : DataFrame)
  : option Results * list Event :=
  if df_empty input_df then (None, [ShowError "Input Error"])
  else
    let (key_df, ev_key) := process_key (cols_Key cols) input_df in
    let (qc_df, ev_qc) := process_qc (cols_QC cols) input_df in
    let (final_df, ev_final) := process_final (cols_Final cols) input_df in
    let (results, ev) := aggregate_tables key_df qc_df final_df in
    (results, ev_key ++ ev_qc ++ ev_final ++ ev).

Definition process_input_data (input_df : DataFrame) : option Results * list Event :=
  process_input_data_with default_columns input_df.

(** *** WorkbookAssembler: the sheets of [save_reports]

    A sheet is its title, header row and data rows, as the loops of
    [save_reports] write them; cell styles and column widths are left out.
    The charts, the rows the trend chart adds under a table and the lines
    the chart functions print are in [save_reports_charts], further down. *)

Fixpoint enumerate_from (i : Z) (l : list Row) : list (Z * Row) :=
  match l with
  | [] => []
  | r :: rest => (i, r) :: enumerate_from (i + 1) rest
  end.

Definition status_value (s : option string) : Value :=
  match s with Some t => VText t | None => VCell CNull end.

Definition key_sheet (df : list Row) : Sheet :=
  {| title := (process_name Key ++ " Process")%string;
     header := ["S.No."; "Key Branch"; "Start Date"; "Due Date"; "End Date";
                "Total Records"; "Processing Days"; "Status"];
     body := map (fun ir =>
                    let (i, row) := ir : Z * Row in
                    [VInt i; VCell (Name row); VDate (Outdate row);
                     VDate (Duedate row); VDate (Indate row);
                     VCell (TotalRec row); VDays (ProcessingDays row);
                     status_value (OnTimeStatus row)])
                 (enumerate_from 1 df) |}.

Definition qc_sheet (df : list Row) : Sheet :=
  {| title := (process_name QC ++ " Process")%string;
     header := ["S.No."; "QC Branch"; "Start Date"; "End Date";
                "Total Records"; "Processing Days"];
     body := map (fun ir =>
                    let (i, row) := ir : Z * Row in
                    [VInt i; VCell (Name row); VDate (Outdate row);
                     VDate (Indate row); VCell (TotalRec row);
                     VDays (ProcessingDays row)])
                 (enumerate_from 1 df) |}.

Definition final_sheet (df : list Row) : Sheet :=
  {| title := (process_name Final ++ " Process")%string;
     header := ["S.No."; "Final Person"; "Start Date"; "QC End Date";
                "Shipment Date"; "Total Records"; "Processing Days"; "Status"];
     body := map (fun ir =>
                    let (i, row) := ir : Z * Row in
                    [VInt i; VCell (Name row); VDate (Outdate row);
                     VDate (Indate row); VDate (ShipmentDate row);
                     VCell (TotalRec row); VDays (ProcessingDays row);
                     VCell (Status row)])
                 (enumerate_from 1 df) |}.

(** A period report is written with [dataframe_to_rows(header=True)]. *)
Definition report_sheet (report_type : string) (df : PeriodReport) : Sheet :=
  {| title := (report_type ++ " Report")%string;
     header := period_label df :: value_columns df;
     body := map (fun wr => VDate (Some (fst wr)) :: map VFloat (snd wr))
                 (report_rows df) |}.

Definition personnel_sheet (df : list PersonnelReportRow) : Sheet :=
  {| title := "Personnel Performance";
     header := ["S.No."; "Name"; "Process"; "Total Records"];
     body := map (fun row => [VInt (SNo row); VCell (pr_Name row);
                              VText (process_name (pr_Process row));
                              VInt (pr_TotalRec row)]) df |}.

Definition period_personnel_sheet (sheet_title period_header fmt : string)
           (df : list PeriodPersonnelRow) : Sheet :=
  {| title := sheet_title;
     header := [period_header; "Name"; "Process"; "Total Records"];
     body := map (fun row => [VStrftime fmt (pp_Period row); VCell (pp_Name row);
                              VText (process_name (pp_Process row));
                              VInt (pp_TotalRec row)]) df |}.

(** [if data['df'] is not None and not data['df'].empty: create the sheet] *)
Definition sheet_if {A : Type} (df : option (list A)) (mk : list A -> Sheet)
  : list Sheet :=
  match df with
  | Some (r :: l) => [mk (r :: l)]
  | _ => []
  end.

Definition report_if (df : option PeriodReport) (mk : PeriodReport -> Sheet)
  : list Sheet :=
  match df with
  | Some rep => if nonempty (report_rows rep) then [mk rep] else []
  | None => []
  end.

(** The sheets of the workbook, in the order [save_reports] creates them,
    each with the rows its loop writes.  The chart functions run after the
    loop of a sheet: what they add (charts, the rows of a trend chart) and
    print is in [save_reports_charts].  Writing the file ([wb.save]) is the
    caller's environment and is not modelled. *)
Definition build_workbook (processed_data : Results) : Workbook :=
  sheet_if (Some (res_Key processed_data)) key_sheet
  ++ sheet_if (Some (res_QC processed_data)) qc_sheet
  ++ sheet_if (Some (res_Final processed_data)) final_sheet
  ++ report_if (res_Weekly processed_data) (report_sheet "Weekly")
  ++ report_if (res_Monthly processed_data) (report_sheet "Monthly")
  ++ sheet_if (res_Personnel processed_data) personnel_sheet
  ++ sheet_if (res_PersonnelWeekly processed_data)
       (period_personnel_sheet "Personnel Weekly" "Week" "%Y-%m-%d")
  ++ sheet_if (res_PersonnelMonthly processed_data)
       (period_personnel_sheet "Personnel Monthly" "Month" "%Y-%m").

(** [if not processed_data: showerror("Save Error", ...)], and otherwise the
    sheets; the lines the chart functions print are not among these events,
    they are those of [save_reports_charts]. *)
Definition save_reports (processed_data : option Results)
  : option Workbook * list Event :=
  match processed_data with
  | None => (None, [ShowError "Save Error"])
  | Some data => (Some (build_workbook data), [])
  end.

(** * Properties *)

(** The variables of the section that a goal does not depend on are cleared
    before [tauto], which takes a variable of a function type for an
    implication and would leave it in the proof. *)
Ltac tidy := repeat match goal with H : _ |- _ => clear H end.

(** ** ColumnMapper *)

Lemma chars_of_list (cs : list ascii) : chars (string_of_list_ascii cs) = cs.
Proof. apply list_ascii_of_string_of_list_ascii. Qed.

Lemma chars_upper (s : string) : chars (upper s) = map upper_char (chars s).
Proof. unfold upper. apply chars_of_list. Qed.

Lemma chars_inj (s t : string) : chars s = chars t -> s = t.
Proof.
  intros H. rewrite <- (string_of_list_ascii_of_string s).
  rewrite <- (string_of_list_ascii_of_string t). unfold chars in H. now rewrite H.
Qed.

Lemma ord_inj (a b : ascii) : ord a = ord b -> a = b.
Proof.
  unfold ord. intros H. apply N2Z.inj in H.
  rewrite <- (ascii_N_embedding a), <- (ascii_N_embedding b). now rewrite H.
Qed.

Lemma isalpha_upper_char (c : ascii) : isalpha (upper_char c) = isalpha c.
Proof. destruct c as [[] [] [] [] [] [] [] []]; reflexivity. Qed.

Lemma isupper_upper_char (c : ascii) :
  isalpha c = true -> isupper (upper_char c) = true.
Proof. destruct c as [[] [] [] [] [] [] [] []]; intros H; try reflexivity; discriminate H. Qed.

Lemma isupper_range (c : ascii) :
  isupper c = true -> 1 <= letter_value c <= 26.
Proof.
  unfold isupper, letter_value. intros H.
  apply andb_true_iff in H. destruct H as [H1 H2].
  apply Z.leb_le in H1. apply Z.leb_le in H2. lia.
Qed.

Lemma isupper_isalpha (c : ascii) : isupper c = true -> isalpha c = true.
Proof. unfold isalpha. intros ->. reflexivity. Qed.

(** The loop as a left fold, when no character is rejected. *)
Definition horner (acc : Z) (cs : list ascii) : Z :=
  fold_left (fun a c => a * 26 + letter_value c) cs acc.

Lemma column_loop_letters (cs : list ascii) :
  Forall (fun c => isupper c = true) cs ->
  forall acc, column_loop acc cs = Ok (horner acc cs).
Proof.
  induction 1 as [| c cs Hc _ IH]; intros acc; simpl.
  - reflexivity.
  - rewrite (isupper_isalpha c Hc). simpl. rewrite IH. unfold horner. simpl.
    f_equal. f_equal. unfold letter_value.
    change (ord "A"%char) with 65. lia.
Qed.

Lemma horner_snoc (acc : Z) (cs : list ascii) (c : ascii) :
  horner acc (cs ++ [c]) = horner acc cs * 26 + letter_value c.
Proof. unfold horner. rewrite fold_left_app. reflexivity. Qed.

Lemma horner_base26 (cs : list ascii) :
  forall acc, horner acc cs = acc * 26 ^ Z.of_nat (List.length cs) + base26_value cs.
Proof.
  induction cs as [| c cs IH]; intros acc.
  - simpl. lia.
  - change (horner acc (c :: cs)) with (horner (acc * 26 + letter_value c) cs).
    rewrite IH. simpl base26_value. simpl List.length.
    rewrite Nat2Z.inj_succ, Z.pow_succ_r by lia. ring.
Qed.

Lemma horner_pos (cs : list ascii) :
  Forall (fun c => isupper c = true) cs -> cs <> [] -> 1 <= horner 0 cs.
Proof.
  induction cs as [| c cs IH] using rev_ind; intros H Hne.
  - congruence.
  - apply Forall_app in H. destruct H as [H Hc]. inversion_clear Hc as [| ? ? Hc' _].
    rewrite horner_snoc. pose proof (isupper_range c Hc').
    destruct cs as [| d cs'].
    + simpl. lia.
    + assert (1 <= horner 0 (d :: cs')) by (apply IH; [assumption | discriminate]). lia.
Qed.

Lemma horner_inj (cs1 : list ascii) :
  Forall (fun c => isupper c = true) cs1 ->
  forall cs2, Forall (fun c => isupper c = true) cs2 ->
  horner 0 cs1 = horner 0 cs2 -> cs1 = cs2.
Proof.
  induction cs1 as [| c1 cs1 IH] using rev_ind; intros H1 cs2 H2 E.
  - destruct cs2 as [| d cs2']; [reflexivity |].
    assert (1 <= horner 0 (d :: cs2')) by (apply horner_pos; [assumption | discriminate]).
    change (horner 0 []) with 0 in E. lia.
  - destruct cs2 as [| c2 cs2 _] using rev_ind.
    + assert (1 <= horner 0 (cs1 ++ [c1]))
        by (apply horner_pos; [assumption | destruct cs1; discriminate]).
      change (horner 0 []) with 0 in E. lia.
    + apply Forall_app in H1. destruct H1 as [H1 Hc1].
      apply Forall_app in H2. destruct H2 as [H2 Hc2].
      inversion_clear Hc1 as [| ? ? Hc1' _]. inversion_clear Hc2 as [| ? ? Hc2' _].
      rewrite !horner_snoc in E.
      pose proof (isupper_range c1 Hc1'). pose proof (isupper_range c2 Hc2').
      assert (horner 0 cs1 = horner 0 cs2 /\ letter_value c1 = letter_value c2)
        as [Eh Ev] by lia.
      f_equal.
      * apply IH; assumption.
      * f_equal. apply ord_inj. unfold letter_value in Ev. lia.
Qed.

Lemma letters_upper (l : string) :
  letters_only l -> Forall (fun c => isupper c = true) (chars (upper l)).
Proof.
  unfold letters_only. rewrite chars_upper. intros H.
  induction H as [| c cs Hc _ IH]; simpl; constructor.
  - now apply isupper_upper_char.
  - exact IH.
Qed.

Lemma excel_column_to_index_letters (l : string) :
  letters_only l ->
  excel_column_to_index l = (Some (horner 0 (chars (upper l)) - 1), []).
Proof.
  intros H. unfold excel_column_to_index.
  now rewrite (column_loop_letters _ (letters_upper l H)).
Qed.

Lemma column_loop_rejects (cs : list ascii) :
  Exists (fun c => isalpha c = false) cs ->
  forall acc, column_loop acc (map upper_char cs) = Raised ValueError.
Proof.
  induction 1 as [c cs Hc | c cs _ IH]; intros acc; simpl.
  - rewrite isalpha_upper_char, Hc. reflexivity.
  - destruct (isalpha (upper_char c)); simpl; [apply IH | reflexivity].
Qed.

(** C7 (as amended).  A non-empty label of letters A-Z in either case maps,
    without any dialog, to a non-negative index that is its base-26 value
    (A=1 ... Z=26) minus one; A, Z and AA map to 0, 25 and 26; two such
    labels with the same index are equal after upper-casing; and a 7-bit
    label with a character that is not a letter gives no index but the
    column error dialog. *)
Theorem excel_column_to_index_base26 :
  (forall l : string,
      l <> "" -> letters_only l ->
      exists idx : Z,
        excel_column_to_index l = (Some idx, [])
        /\ 0 <= idx
        /\ idx = base26_value (chars (upper l)) - 1)
  /\ excel_column_to_index "A" = (Some 0, [])
  /\ excel_column_to_index "Z" = (Some 25, [])
  /\ excel_column_to_index "AA" = (Some 26, [])
  /\ (forall l1 l2 : string,
        letters_only l1 -> letters_only l2 ->
        fst (excel_column_to_index l1) = fst (excel_column_to_index l2) ->
        upper l1 = upper l2)
  /\ (forall l : string,
        Forall (fun c => is_ascii7 c = true) (chars l) ->
        Exists (fun c => isalpha c = false) (chars l) ->
        excel_column_to_index l = (None, [ShowError "Column Conversion Error"])).
Proof.
  split; [| split; [| split; [| split; [| split]]]]; try reflexivity.
  - intros l Hne Hl. exists (horner 0 (chars (upper l)) - 1).
    split; [now apply excel_column_to_index_letters |].
    split.
    + assert (1 <= horner 0 (chars (upper l))).
      { apply horner_pos; [now apply letters_upper |].
        rewrite chars_upper. intros E. apply map_eq_nil in E.
        apply Hne. apply chars_inj. exact E. }
      lia.
    + rewrite horner_base26. lia.
  - intros l1 l2 H1 H2 E.
    rewrite (excel_column_to_index_letters l1 H1) in E.
    rewrite (excel_column_to_index_letters l2 H2) in E.
    simpl in E. injection E as E.
    apply chars_inj. apply horner_inj; try (now apply letters_upper). lia.
  - intros l _ Hbad. unfold excel_column_to_index.
    rewrite chars_upper. now rewrite (column_loop_rejects _ Hbad).
Qed.

(** ** DateNormalizer *)

Lemma try_formats_first (c : Cell) (pre : list string) :
  (forall f, In f pre -> exists e, to_datetime (Some f) c = Raised e) ->
  forall (fmt : string) (post : list string) (d : DateTime),
  to_datetime (Some fmt) c = Ok d ->
  try_formats (pre ++ fmt :: post) c = Some d.
Proof.
  induction pre as [| f pre IH]; intros Hpre fmt post d Hok; simpl.
  - now rewrite Hok.
  - destruct (Hpre f (or_introl eq_refl)) as [e He]. rewrite He.
    apply IH; [| assumption]. intros g Hg. apply Hpre. now right.
Qed.

Lemma try_formats_none (c : Cell) (fmts : list string) :
  (forall f, In f fmts -> exists e, to_datetime (Some f) c = Raised e) ->
  try_formats fmts c = None.
Proof.
  induction fmts as [| f fmts IH]; intros H; simpl.
  - reflexivity.
  - destruct (H f (or_introl eq_refl)) as [e He]. rewrite He.
    apply IH. intros g Hg. apply H. now right.
Qed.

(** Every attempt of [safe_date_parse] on the cell raises: each of the four
    formats, and the permissive parse. *)
Definition unparsable (c : Cell) : Prop :=
  (forall f, In f formats -> exists e, to_datetime (Some f) c = Raised e)
  /\ exists e, to_datetime None c = Raised e.

(** After the loop and the permissive parse: a date without a line printed,
    or NaT, with at most the one warning. *)
Lemma safe_date_parse_shape (c : Cell) :
  snd (safe_date_parse c) = []
  \/ safe_date_parse c = (NaT, [parse_warning]).
Proof.
  unfold safe_date_parse.
  destruct (isna c || is_sentinel c); [now left |].
  destruct (try_formats formats c); [now left |].
  destruct (to_datetime None c); [now left | now right].
Qed.

(** C3.  [safe_date_parse] is total: on every cell it returns a date or NaT
    and prints at most one warning, in which case the value is NaT.  An empty
    cell, and a text that after [strip] and [upper] is WIP, NA, N/A or empty,
    give NaT with nothing printed.  A text that is no sentinel and on which
    every attempt raises (the four formats and the permissive parse), such
    as "not-a-date", gives NaT after exactly one warning. *)
Theorem safe_date_parse_never_raises :
  (forall c : Cell,
      exists (d : DateTime) (ev : list Event),
        safe_date_parse c = (d, ev)
        /\ (ev = [] \/ (d = NaT /\ ev = [parse_warning])))
  /\ safe_date_parse CNull = (NaT, [])
  /\ (forall s : string,
        In (upper (strip s)) ["WIP"; "NA"; "N/A"; ""] ->
        safe_date_parse (CStr s) = (NaT, []))
  /\ (forall s : string,
        ~ In (upper (strip s)) ["WIP"; "NA"; "N/A"; ""] ->
        unparsable (CStr s) ->
        safe_date_parse (CStr s) = (NaT, [parse_warning]))
  /\ (unparsable (CStr "not-a-date") ->
      safe_date_parse (CStr "not-a-date") = (NaT, [parse_warning])).
Proof.
  assert (Hin : forall s, str_in (upper (strip s)) sentinels = true
                          <-> In (upper (strip s)) ["WIP"; "NA"; "N/A"; ""]).
  { intros s. unfold str_in, sentinels. rewrite existsb_exists. split.
    - intros [x [Hx Hs]]. apply String.eqb_eq in Hs. now subst x.
    - intros H. exists (upper (strip s)). split; [assumption | apply String.eqb_refl]. }
  assert (Hbad : forall s : string,
             ~ In (upper (strip s)) ["WIP"; "NA"; "N/A"; ""] ->
             unparsable (CStr s) ->
             safe_date_parse (CStr s) = (NaT, [parse_warning])).
  { intros s Hs [Hraise [e He]]. unfold safe_date_parse. cbn [isna is_sentinel orb].
    destruct (str_in (upper (strip s)) sentinels) eqn:E.
    - exfalso. apply Hs. now apply Hin.
    - rewrite (try_formats_none _ _ Hraise). now rewrite He. }
  split; [| split; [| split; [| split]]].
  - intros c. destruct (safe_date_parse c) as [d ev] eqn:E.
    exists d, ev. split; [reflexivity |].
    destruct (safe_date_parse_shape c) as [H | H]; rewrite E in H.
    + now left.
    + right. now inversion H.
  - reflexivity.
  - intros s Hs. unfold safe_date_parse. cbn [isna is_sentinel orb].
    apply Hin in Hs. now rewrite Hs.
  - exact Hbad.
  - apply Hbad. vm_compute. intuition discriminate.
Qed.

(** C4.  On a cell that is neither empty nor a sentinel the formats are
    tried in the order %Y-%m-%d, %m/%d/%Y, %d-%m-%Y, %Y/%m/%d: the result is
    that of the first format on which [to_datetime] does not raise, whatever
    the later formats would give, and only when all four raise is it that of
    the permissive parse ([NaT] with a warning when that raises too).  So
    "01/02/2024" is read as %m/%d/%Y when, and only because, %Y-%m-%d raises
    on it: had %Y-%m-%d returned, that value would be the result. *)
Theorem safe_date_parse_format_order :
  formats = ["%Y-%m-%d"; "%m/%d/%Y"; "%d-%m-%Y"; "%Y/%m/%d"]
  /\ (forall c : Cell,
        isna c = false -> is_sentinel c = false ->
        (forall (pre : list string) (fmt : string) (post : list string) (d : DateTime),
            formats = pre ++ fmt :: post ->
            (forall f, In f pre -> exists e, to_datetime (Some f) c = Raised e) ->
            to_datetime (Some fmt) c = Ok d ->
            safe_date_parse c = (d, []))
        /\ ((forall f, In f formats -> exists e, to_datetime (Some f) c = Raised e) ->
            safe_date_parse c =
              match to_datetime None c with
              | Ok d => (d, [])
              | Raised _ => (NaT, [parse_warning])
              end))
  /\ (forall (d : DateTime) (e : Exn),
        to_datetime (Some "%Y-%m-%d") (CStr "01/02/2024") = Raised e ->
        to_datetime (Some "%m/%d/%Y") (CStr "01/02/2024") = Ok d ->
        safe_date_parse (CStr "01/02/2024") = (d, []))
  /\ (forall d0 : DateTime,
        to_datetime (Some "%Y-%m-%d") (CStr "01/02/2024") = Ok d0 ->
        safe_date_parse (CStr "01/02/2024") = (d0, [])).
Proof.
  split; [reflexivity |]. split; [| split].
  - intros c Hna Hsent. split.
    + intros pre fmt post d Hsplit Hpre Hok.
      unfold safe_date_parse. rewrite Hna, Hsent. cbn [orb].
      rewrite Hsplit. now rewrite (try_formats_first c pre Hpre fmt post d Hok).
    + intros Hall. unfold safe_date_parse. rewrite Hna, Hsent. cbn [orb].
      now rewrite (try_formats_none c formats Hall).
  - intros d e Hiso Hmdy. unfold safe_date_parse.
    change (isna (CStr "01/02/2024") || is_sentinel (CStr "01/02/2024")) with false.
    cbv iota. unfold formats, try_formats. now rewrite Hiso, Hmdy.
  - intros d0 Hiso. unfold safe_date_parse.
    change (isna (CStr "01/02/2024") || is_sentinel (CStr "01/02/2024")) with false.
    cbv iota. unfold formats, try_formats. now rewrite Hiso.
Qed.

(** ** ProcessExtractor *)

Lemma enumerate_from_In (l : list (list Cell)) :
  forall (s i : nat) (r : list Cell),
    In (i, r) (combine (seq s (List.length l)) l)
    <-> (s <= i)%nat /\ nth_error l (i - s) = Some r.
Proof.
  induction l as [| x l IH]; intros s i r; simpl.
  - split; [contradiction |]. intros [_ H]. destruct (i - s)%nat; discriminate.
  - rewrite IH. split.
    + intros [E | [Hle Hn]].
      * inversion E; subst. rewrite Nat.sub_diag. auto.
      * split; [lia |]. replace (i - s)%nat with (S (i - S s)) by lia. exact Hn.
    + intros [Hle Hn]. destruct (Nat.eq_dec s i) as [-> | Hne].
      * left. rewrite Nat.sub_diag in Hn. simpl in Hn. congruence.
      * right. split; [lia |].
        replace (i - s)%nat with (S (i - S s)) in Hn by lia. exact Hn.
Qed.

Lemma enumerate_In (l : list (list Cell)) (i : nat) (r : list Cell) :
  In (i, r) (enumerate l) <-> nth_error l i = Some r.
Proof.
  unfold enumerate. rewrite enumerate_from_In, Nat.sub_0_r.
  split; [tauto | split; [lia | assumption]].
Qed.

Lemma caught_rows (w : string) (m : result (list Row) * list Event) :
  fst (caught w m) = frame_rows m.
Proof. destruct m as [[df | e] ev]; reflexivity. Qed.

(** The derived columns are there for every row of the frame, or the
    statements that compute them raised, on a frame that has rows. *)
Lemma derived_cases (p : Process) (derive : Row -> Row) (df : list Row) :
  derived p derive df = Ok (map derive df)
  \/ (df <> [] /\ exists e, derive_raises p df = Some e
                            /\ derived p derive df = Raised e).
Proof.
  unfold derived. destruct df as [| r l]; [now left |]. cbn [nonempty].
  destruct (derive_raises p (r :: l)) as [e |]; [right | now left].
  split; [discriminate | now exists e].
Qed.

Lemma derived_rows (p : Process) (derive : Row -> Row) (df : list Row)
      (ev : list Event) (row : Row) :
  In row (frame_rows (derived p derive df, ev)) -> In row (map derive df).
Proof.
  unfold frame_rows. cbn [fst].
  destruct (derived_cases p derive df) as [-> | (_ & e & _ & ->)];
    [trivial | contradiction].
Qed.

Lemma derived_not_raised (p : Process) (derive : Row -> Row) (df : list Row)
      (ev : list Event) :
  ~ frame_raised (derived p derive df, ev) ->
  derived p derive df = Ok (map derive df).
Proof.
  intros H. destruct (derived_cases p derive df) as [E | (_ & e & _ & E)];
    [exact E |]. exfalso. apply H. now exists e.
Qed.

(** What a filled frame is, for any selection and derivation steps: the raw
    rows with both required cells, each selected and derived. *)
Section Frames.
Variables (select : nat * list Cell -> Row) (derive : Row -> Row).
Variables (c_name c_total : nat).
Hypothesis select_index : forall i r, row_index (select (i, r)) = i.
Hypothesis select_name : forall i r, Name (select (i, r)) = cell_at r c_name.
Hypothesis select_total : forall i r, TotalRec (select (i, r)) = cell_at r c_total.
Hypothesis derive_index : forall x, row_index (derive x) = row_index x.

(** The frame after [dropna], and with the derived columns. *)
Definition frame_kept (input_df : DataFrame) : list Row :=
  filter has_required (map select (enumerate (rows input_df))).

Definition frame_of (input_df : DataFrame) : list Row :=
  map derive (frame_kept input_df).

Lemma frame_of_In (input_df : DataFrame) (row : Row) :
  In row (frame_of input_df) <->
  exists i r, nth_error (rows input_df) i = Some r
              /\ isna (cell_at r c_name) = false
              /\ isna (cell_at r c_total) = false
              /\ row = derive (select (i, r)).
Proof.
  unfold frame_of, frame_kept. rewrite in_map_iff. split.
  - intros [x [Hx Hin]]. apply filter_In in Hin. destruct Hin as [Hin Hreq].
    apply in_map_iff in Hin. destruct Hin as [[i r] [Hs Hin]]. subst x.
    apply enumerate_In in Hin. exists i, r.
    unfold has_required in Hreq. rewrite select_name, select_total in Hreq.
    apply andb_true_iff in Hreq. destruct Hreq as [H1 H2].
    apply negb_true_iff in H1. apply negb_true_iff in H2. auto.
  - intros (i & r & Hn & H1 & H2 & ->). exists (select (i, r)). split; [reflexivity |].
    apply filter_In. split.
    + apply in_map. now apply enumerate_In.
    + unfold has_required. now rewrite select_name, select_total, H1, H2.
Qed.

Lemma frame_of_kept (input_df : DataFrame) (i : nat) (r : list Cell) :
  nth_error (rows input_df) i = Some r ->
  (exists row, In row (frame_of input_df) /\ row_index row = i)
  <-> isna (cell_at r c_name) = false /\ isna (cell_at r c_total) = false.
Proof.
  intros Hn. split.
  - intros [row [Hin Hi]]. apply frame_of_In in Hin.
    destruct Hin as (j & r' & Hn' & H1 & H2 & ->).
    rewrite derive_index, select_index in Hi. subst j.
    rewrite Hn in Hn'. inversion Hn'; subst. auto.
  - intros [H1 H2]. exists (derive (select (i, r))). split.
    + apply frame_of_In. exists i, r. auto.
    + now rewrite derive_index, select_index.
Qed.
End Frames.

Lemma iloc_position_inside (n : nat) (j : nat) :
  (j < n)%nat -> iloc_position n (Z.of_nat j) = Ok j.
Proof.
  intros H. unfold iloc_position.
  replace (0 <=? Z.of_nat j) with true by (symmetry; apply Z.leb_le; lia).
  replace (Z.of_nat j <? Z.of_nat n) with true by (symmetry; apply Z.ltb_lt; lia).
  simpl. now rewrite Nat2Z.id.
Qed.

Lemma iloc_columns_inside (n : nat) (js : list nat) :
  Forall (fun j => (j < n)%nat) js ->
  iloc_columns n (map Z.of_nat js) = Ok js.
Proof.
  induction 1 as [| j js Hj _ IH]; simpl.
  - reflexivity.
  - now rewrite (iloc_position_inside n j Hj), IH.
Qed.

(** With the columns of the tool and a table that has them, each block is
    its filled frame. *)
Lemma process_key_default (input_df : DataFrame) :
  (14 <= ncols input_df)%nat ->
  fst (key_frame (cols_Key default_columns) input_df)
  = derived Key key_derive (frame_kept (key_select 9 10 11 12 13) input_df).
Proof.
  intros H. unfold key_frame.
  change (resolve_columns (cols_Key default_columns))
    with ([Some 9; Some 10; Some 11; Some 12; Some 13], @nil Event).
  cbv beta iota.
  change (all_some [Some 9; Some 10; Some 11; Some 12; Some 13])
    with (Some (map Z.of_nat [9; 10; 11; 12; 13]%nat)).
  cbv beta iota.
  rewrite iloc_columns_inside by (repeat constructor; lia).
  reflexivity.
Qed.

Lemma process_qc_default (input_df : DataFrame) :
  (24 <= ncols input_df)%nat ->
  fst (qc_frame (cols_QC default_columns) input_df)
  = derived QC qc_derive (frame_kept (qc_select 20 21 22 23) input_df).
Proof.
  intros H. unfold qc_frame.
  change (resolve_columns (cols_QC default_columns))
    with ([Some 20; Some 21; Some 22; Some 23], @nil Event).
  cbv beta iota.
  change (all_some [Some 20; Some 21; Some 22; Some 23])
    with (Some (map Z.of_nat [20; 21; 22; 23]%nat)).
  cbv beta iota.
  rewrite iloc_columns_inside by (repeat constructor; lia).
  reflexivity.
Qed.

Lemma process_final_default (input_df : DataFrame) :
  (29 <= ncols input_df)%nat ->
  fst (final_frame (cols_Final default_columns) input_df)
  = derived Final final_derive
      (frame_kept (final_select 23 24 25 26 27 28) input_df).
Proof.
  intros H. unfold final_frame.
  change (resolve_columns (cols_Final default_columns))
    with ([Some 23; Some 24; Some 25; Some 26; Some 27; Some 28], @nil Event).
  cbv beta iota.
  change (all_some [Some 23; Some 24; Some 25; Some 26; Some 27; Some 28])
    with (Some (map Z.of_nat [23; 24; 25; 26; 27; 28]%nat)).
  cbv beta iota.
  rewrite iloc_columns_inside by (repeat constructor; lia).
  reflexivity.
Qed.

(** The contract of one extractor on a table: which raw rows are kept, and
    what a kept row holds.  [anchor] is the date the duration is counted to. *)
Definition extracted (c_name c_out c_anchor c_total : nat)
           (anchor : Row -> DateTime) (input_df : DataFrame) (out : list Row) : Prop :=
  (forall i r, nth_error (rows input_df) i = Some r ->
     ((exists row, In row out /\ row_index row = i)
      <-> isna (cell_at r c_name) = false /\ isna (cell_at r c_total) = false))
  /\ (forall row, In row out ->
        exists r, nth_error (rows input_df) (row_index row) = Some r
          /\ Name row = cell_at r c_name
          /\ TotalRec row = cell_at r c_total
          /\ Outdate row = fst (safe_date_parse (cell_at r c_out))
          /\ anchor row = fst (safe_date_parse (cell_at r c_anchor))
          /\ ProcessingDays row =
               match anchor row, Outdate row with
               | Some a, Some o => Some ((a - o) / Calendar.ns_per_day)
               | _, _ => None
               end
          /\ (Outdate row = NaT -> ProcessingDays row = None)).

(** C2 (as amended).  On a table that has the columns of an extractor
    (through N for Key, X for QC, AC for Final) and on which the [try] of
    the block does not raise, a raw row is kept exactly when its name cell
    and its Total Rec. cell are both present; a kept row carries those two
    cells and the parsed dates, its Processing Days is the floor of
    (anchor - Outdate) in days, with Indate the anchor for Key and QC and
    Shipment Date for Final, and it is missing when Outdate (or the anchor)
    is.  A block whose [try] raises, on the selection of its columns or on
    the date arithmetic of its derived columns, leaves an empty table,
    whatever its rows hold. *)
Theorem extractors_keep_and_derive (input_df : DataFrame) :
  ((14 <= ncols input_df)%nat ->
   ~ frame_raised (key_frame (cols_Key default_columns) input_df) ->
   extracted 9 10 12 13 Indate input_df
     (fst (process_key (cols_Key default_columns) input_df)))
  /\ ((24 <= ncols input_df)%nat ->
      ~ frame_raised (qc_frame (cols_QC default_columns) input_df) ->
      extracted 20 21 22 23 Indate input_df
        (fst (process_qc (cols_QC default_columns) input_df)))
  /\ ((29 <= ncols input_df)%nat ->
      ~ frame_raised (final_frame (cols_Final default_columns) input_df) ->
      extracted 24 25 28 23 ShipmentDate input_df
        (fst (process_final (cols_Final default_columns) input_df)))
  /\ (forall cols : list string,
        (frame_raised (key_frame cols input_df) ->
         process_key cols input_df
         = ([], snd (key_frame cols input_df) ++ [ShowWarning "Key Data Warning"]))
        /\ (frame_raised (qc_frame cols input_df) ->
            process_qc cols input_df
            = ([], snd (qc_frame cols input_df) ++ [ShowWarning "QC Data Warning"]))
        /\ (frame_raised (final_frame cols input_df) ->
            process_final cols input_df
            = ([], snd (final_frame cols input_df)
                     ++ [ShowWarning "Final Data Warning"]))).
Proof.
  split; [| split; [| split]].
  - intros Hw Hnr. unfold process_key. rewrite caught_rows. unfold frame_rows.
    pose proof (process_key_default input_df Hw) as E.
    rewrite E, (derived_not_raised _ _ _ [])
      by (intros [e He]; apply Hnr; exists e; rewrite E; exact He).
    fold (frame_of (key_select 9 10 11 12 13) key_derive input_df). split.
    + intros i r Hn. apply frame_of_kept; auto.
    + intros row Hin.
      apply (frame_of_In (key_select 9 10 11 12 13) key_derive 9%nat 13%nat) in Hin; auto.
      destruct Hin as (i & r & Hn & _ & _ & ->). exists r. simpl.
      repeat split; try assumption; try reflexivity.
      intros E0. unfold days_between. rewrite E0. now destruct (parse_cell r 12).
  - intros Hw Hnr. unfold process_qc. rewrite caught_rows. unfold frame_rows.
    pose proof (process_qc_default input_df Hw) as E.
    rewrite E, (derived_not_raised _ _ _ [])
      by (intros [e He]; apply Hnr; exists e; rewrite E; exact He).
    fold (frame_of (qc_select 20 21 22 23) qc_derive input_df). split.
    + intros i r Hn. apply frame_of_kept; auto.
    + intros row Hin.
      apply (frame_of_In (qc_select 20 21 22 23) qc_derive 20%nat 23%nat) in Hin; auto.
      destruct Hin as (i & r & Hn & _ & _ & ->). exists r. simpl.
      repeat split; try assumption; try reflexivity.
      intros E0. unfold days_between. rewrite E0. now destruct (parse_cell r 22).
  - intros Hw Hnr. unfold process_final. rewrite caught_rows. unfold frame_rows.
    pose proof (process_final_default input_df Hw) as E.
    rewrite E, (derived_not_raised _ _ _ [])
      by (intros [e He]; apply Hnr; exists e; rewrite E; exact He).
    fold (frame_of (final_select 23 24 25 26 27 28) final_derive input_df). split.
    + intros i r Hn. apply frame_of_kept; auto.
    + intros row Hin.
      apply (frame_of_In (final_select 23 24 25 26 27 28) final_derive 24%nat 23%nat) in Hin; auto.
      destruct Hin as (i & r & Hn & _ & _ & ->). exists r. simpl.
      repeat split; try assumption; try reflexivity.
      intros E0. unfold days_between. rewrite E0. now destruct (parse_cell r 28).
  - intros cols. unfold process_key, process_qc, process_final, frame_raised.
    repeat split; intros [e He].
    + destruct (key_frame cols input_df) as [m ev]. simpl in *. now subst m.
    + destruct (qc_frame cols input_df) as [m ev]. simpl in *. now subst m.
    + destruct (final_frame cols input_df) as [m ev]. simpl in *. now subst m.
Qed.

(** Whatever the column labels, a row of a process table went through the
    derivation step of its block. *)
Lemma process_key_derived (cols : list string) (input_df : DataFrame) (row : Row) :
  In row (fst (process_key cols input_df)) ->
  exists x, row = key_derive x /\ has_required x = true.
Proof.
  tidy.
  unfold process_key. rewrite caught_rows. unfold key_frame.
  destruct (resolve_columns cols) as [kc ev].
  destruct (all_some kc) as [idx |]; [| intros H; now destruct H].
  destruct (iloc_columns (ncols input_df) idx)
    as [[| c0 [| c1 [| c2 [| c3 [| c4 [| c5 l]]]]]] | e]; try (intros H; now destruct H).
  intros H. apply derived_rows in H.
  apply in_map_iff in H. destruct H as [x [Hx Hin]].
  apply filter_In in Hin. exists x. split; [now symmetry | tauto].
Qed.

Lemma process_qc_derived (cols : list string) (input_df : DataFrame) (row : Row) :
  In row (fst (process_qc cols input_df)) ->
  exists x, row = qc_derive x /\ has_required x = true.
Proof.
  tidy.
  unfold process_qc. rewrite caught_rows. unfold qc_frame.
  destruct (resolve_columns cols) as [kc ev].
  destruct (all_some kc) as [idx |]; [| intros H; now destruct H].
  destruct (iloc_columns (ncols input_df) idx)
    as [[| c0 [| c1 [| c2 [| c3 [| c4 l]]]]] | e]; try (intros H; now destruct H).
  intros H. apply derived_rows in H.
  apply in_map_iff in H. destruct H as [x [Hx Hin]].
  apply filter_In in Hin. exists x. split; [now symmetry | tauto].
Qed.

Lemma process_final_derived (cols : list string) (input_df : DataFrame) (row : Row) :
  In row (fst (process_final cols input_df)) ->
  exists x, row = final_derive x /\ has_required x = true.
Proof.
  tidy.
  unfold process_final. rewrite caught_rows. unfold final_frame.
  destruct (resolve_columns cols) as [kc ev].
  destruct (all_some kc) as [idx |]; [| intros H; now destruct H].
  destruct (iloc_columns (ncols input_df) idx)
    as [[| c0 [| c1 [| c2 [| c3 [| c4 [| c5 [| c6 l]]]]]]] | e]; try (intros H; now destruct H).
  intros H. apply derived_rows in H.
  apply in_map_iff in H. destruct H as [x [Hx Hin]].
  apply filter_In in Hin. exists x. split; [now symmetry | tauto].
Qed.

(** C9.  Every row of the Key table has an On Time Status, which is
    'On Time' or 'Delayed': 'On Time' exactly when Indate and Duedate are both
    present with Indate <= Duedate, and 'Delayed' as soon as one of the two
    is missing. *)
Theorem key_on_time_status_two_valued
        (cols : list string) (input_df : DataFrame) (row : Row) :
  In row (fst (process_key cols input_df)) ->
  (OnTimeStatus row = Some "On Time" \/ OnTimeStatus row = Some "Delayed")
  /\ OnTimeStatus row <> None
  /\ (Indate row = NaT \/ Duedate row = NaT -> OnTimeStatus row = Some "Delayed")
  /\ (forall i d : Z,
        Indate row = Some i -> Duedate row = Some d ->
        (i <= d -> OnTimeStatus row = Some "On Time")
        /\ (d < i -> OnTimeStatus row = Some "Delayed")).
Proof.
  intros Hin. destruct (process_key_derived cols input_df row Hin) as [x [-> _]].
  simpl. repeat split.
  - destruct (date_le (Indate x) (Duedate x)); auto.
  - discriminate.
  - intros [E | E]; rewrite E; [reflexivity |].
    unfold date_le. now destruct (Indate x).
  - intros Hle. rewrite H, H0. simpl.
    now replace (i <=? d) with true by (symmetry; apply Z.leb_le; lia).
  - intros Hlt. rewrite H, H0. simpl.
    now replace (i <=? d) with false by (symmetry; apply Z.leb_gt; lia).
Qed.

(** ** Sorting and grouping *)

Section SortingFacts.
Context {A : Type} (leb : A -> A -> bool).

Lemma insert_by_perm (x : A) (l : list A) :
  Permutation (insert_by leb x l) (x :: l).
Proof.
  induction l as [| y t IH]; simpl.
  - apply Permutation_refl.
  - destruct (leb x y).
    + apply Permutation_refl.
    + eapply Permutation_trans; [apply perm_skip, IH | apply perm_swap].
Qed.

Lemma sort_by_perm (l : list A) : Permutation (sort_by leb l) l.
Proof.
  induction l as [| x l IH]; simpl.
  - constructor.
  - eapply Permutation_trans; [apply insert_by_perm | now apply perm_skip].
Qed.

Variable R : A -> A -> Prop.
Hypothesis leb_R : forall a b, leb a b = true -> R a b.
Hypothesis leb_total : forall a b, leb a b = false -> R b a.
Hypothesis R_trans : forall a b c, R a b -> R b c -> R a c.

Lemma insert_by_sorted (x : A) (l : list A) :
  StronglySorted R l -> StronglySorted R (insert_by leb x l).
Proof.
  induction 1 as [| y t Ht IH Hy]; simpl.
  - repeat constructor.
  - destruct (leb x y) eqn:E.
    + constructor; [now constructor |].
      constructor; [now apply leb_R |].
      eapply Forall_impl; [| exact Hy]. intros z Hz.
      eapply R_trans; [apply leb_R; exact E | exact Hz].
    + constructor; [exact IH |].
      apply Forall_forall. intros z Hz.
      apply (Permutation_in _ (insert_by_perm x t)) in Hz.
      destruct Hz as [<- | Hz]; [now apply leb_total |].
      rewrite Forall_forall in Hy. now apply Hy.
Qed.

Lemma sort_by_sorted (l : list A) : StronglySorted R (sort_by leb l).
Proof.
  induction l as [| x l IH]; simpl; [constructor | now apply insert_by_sorted].
Qed.
End SortingFacts.

Section GroupingFacts.
Context {K : Type} (K_eq_dec : forall a b : K, {a = b} + {a <> b})
        (K_leb : K -> K -> bool).

Lemma group_keys_In (ks : list K) (k : K) :
  In k (group_keys K_eq_dec K_leb ks) <-> In k ks.
Proof.
  unfold group_keys. rewrite <- (nodup_In K_eq_dec ks k). split; intros H.
  - exact (Permutation_in _ (sort_by_perm K_leb _) H).
  - exact (Permutation_in _ (Permutation_sym (sort_by_perm K_leb _)) H).
Qed.

Lemma group_keys_NoDup (ks : list K) : NoDup (group_keys K_eq_dec K_leb ks).
Proof.
  unfold group_keys.
  apply (Permutation_NoDup (Permutation_sym (sort_by_perm K_leb _))).
  apply NoDup_nodup.
Qed.

End GroupingFacts.


(** ** Aggregator: the sums on tables of numbers *)

Definition row_total (r : Row) : Z := total_value (TotalRec r).

(** The absolute values of the Total Rec. of a table, added up. *)
Definition magnitude (df : list Row) : Z :=
  sum_Z (map (fun r => Z.abs (row_total r)) df).

(** What is known of the sums of the library: a sum of integers is exact as
    long as the absolute values of its terms add up to less than 2^53,
    whether the column holds 64-bit integers, floats or Python integers. *)
Hypothesis int_sum_exact :
  forall (site : Site) (zs : list Z),
    sum_Z (map Z.abs zs) < 2 ^ 53 -> int_sum site zs = sum_Z zs.

Lemma all_ok_map {A B : Type} (f : A -> result B) (g : A -> B) (l : list A) :
  (forall a, In a l -> f a = Ok (g a)) -> all_ok (map f l) = Ok (map g l).
Proof.
  induction l as [| a l IH]; intros H; simpl; [reflexivity |].
  rewrite (H a) by now left. rewrite IH; [reflexivity |].
  intros b Hb. apply H. now right.
Qed.

Lemma all_ok_keys {A K : Type} (key : A -> K) (f : K -> result A) (ks : list K) :
  (forall k a, f k = Ok a -> key a = k) ->
  forall l, all_ok (map f ks) = Ok l -> map key l = ks.
Proof.
  intros Hf. induction ks as [| k ks IH]; simpl; intros l E.
  - now inversion E.
  - destruct (f k) as [a | e] eqn:Ea; [| discriminate].
    destruct (all_ok (map f ks)) as [others | e]; [| discriminate].
    inversion E; subst. simpl. now rewrite (Hf k a Ea), (IH others).
Qed.

Lemma all_ok_raised {A B : Type} (f : A -> result B) (l : list A) :
  forall e, all_ok (map f l) = Raised e -> exists a e', In a l /\ f a = Raised e'.
Proof.
  induction l as [| a l IH]; simpl; intros e; [discriminate |].
  destruct (f a) as [b | e'] eqn:Ea.
  - destruct (all_ok (map f l)) as [others | e'']; [discriminate |].
    intros _. destruct (IH e'' eq_refl) as (a' & e' & Hin & Hr).
    exists a', e'. auto.
  - intros _. exists a, e'. auto.
Qed.

Lemma all_numbers_numeric (cells : list Cell) :
  forallb is_numeric cells = true -> all_numbers cells = Some (map total_value cells).
Proof.
  induction cells as [| c cells IH]; simpl; [reflexivity |].
  intros H. apply andb_true_iff in H. destruct H as [Hc H].
  destruct c; try discriminate. simpl. now rewrite (IH H).
Qed.

Lemma series_sum_exact (site : Site) (cells : list Cell) :
  forallb is_numeric cells = true ->
  sum_Z (map Z.abs (map total_value cells)) < 2 ^ 53 ->
  series_sum site cells = Ok (sum_Z (map total_value cells)).
Proof.
  intros Hn Hb. unfold series_sum. rewrite (all_numbers_numeric cells Hn).
  now rewrite int_sum_exact.
Qed.

Lemma sum_Z_cons (x : Z) (l : list Z) : sum_Z (x :: l) = x + sum_Z l.
Proof. reflexivity. Qed.

Lemma sum_abs_nonneg (zs : list Z) : 0 <= sum_Z (map Z.abs zs).
Proof. induction zs as [| z zs IH]; simpl; lia. Qed.

Section KeyedSums.
Context {K : Type} (K_eq_dec : forall a b : K, {a = b} + {a <> b}).

Lemma group_of_snd {V W : Type} (h : V -> W) (k : K) (kvs : list (K * V)) :
  group_of K_eq_dec k (map (fun kv => (fst kv, h (snd kv))) kvs)
  = map h (group_of K_eq_dec k kvs).
Proof.
  unfold group_of. induction kvs as [| [k' v] kvs IH]; simpl; [reflexivity |].
  destruct (K_eq_dec k' k); simpl; now rewrite IH.
Qed.

Lemma group_of_numeric (k : K) (kcs : list (K * Cell)) :
  forallb is_numeric (map snd kcs) = true ->
  forallb is_numeric (group_of K_eq_dec k kcs) = true.
Proof.
  unfold group_of. induction kcs as [| [k' c] kcs IH]; simpl; [reflexivity |].
  intros H. apply andb_true_iff in H. destruct H as [Hc H].
  destruct (K_eq_dec k' k); simpl; [rewrite Hc |]; now apply IH.
Qed.

Lemma group_of_bound (k : K) (kcs : list (K * Cell)) :
  sum_Z (map Z.abs (map total_value (group_of K_eq_dec k kcs)))
  <= sum_Z (map Z.abs (map total_value (map snd kcs))).
Proof.
  unfold group_of. induction kcs as [| [k' c] kcs IH]; simpl; [lia |].
  destruct (K_eq_dec k' k); simpl; lia.
Qed.

Lemma group_sum_exact (site : Site) (k : K) (kcs : list (K * Cell)) :
  forallb is_numeric (map snd kcs) = true ->
  sum_Z (map Z.abs (map total_value (map snd kcs))) < 2 ^ 53 ->
  series_sum site (group_of K_eq_dec k kcs)
  = Ok (sum_Z (map total_value (group_of K_eq_dec k kcs))).
Proof.
  intros Hn Hb. apply series_sum_exact; [now apply group_of_numeric |].
  pose proof (group_of_bound k kcs). lia.
Qed.

(** The cells of a keyed list that takes at most the Total Rec. of each
    row. *)
Lemma keyed_cells (f : Row -> list (K * Cell)) (df : list Row) :
  (forall r, f r = [] \/ exists k, f r = [(k, TotalRec r)]) ->
  numeric_table df = true ->
  forallb is_numeric (map snd (flat_map f df)) = true
  /\ sum_Z (map Z.abs (map total_value (map snd (flat_map f df)))) <= magnitude df.
Proof.
  intros Hf. unfold numeric_table, magnitude.
  induction df as [| r df IH]; simpl; [intros _; split; [reflexivity | lia] |].
  intros H. apply andb_true_iff in H. destruct H as [Hr H].
  destruct (IH H) as [IH1 IH2].
  pose proof (Z.abs_nonneg (total_value (TotalRec r))) as Hpos.
  destruct (Hf r) as [-> | [k ->]]; simpl.
  - split; [exact IH1 |]. unfold row_total, sum_Z in *. simpl in *. lia.
  - rewrite Hr. split; [exact IH1 |]. unfold row_total, sum_Z in *. simpl in *. lia.
Qed.
End KeyedSums.

Lemma map_flat_map {A B C : Type} (g : B -> C) (f : A -> list B) (l : list A) :
  map g (flat_map f l) = flat_map (fun a => map g (f a)) l.
Proof.
  induction l as [| a l IH]; simpl; [reflexivity |]. now rewrite map_app, IH.
Qed.

Lemma numeric_table_app (a b : list Row) :
  numeric_table (a ++ b) = numeric_table a && numeric_table b.
Proof. apply forallb_app. Qed.

Lemma magnitude_app (a b : list Row) : magnitude (a ++ b) = magnitude a + magnitude b.
Proof.
  unfold magnitude. rewrite map_app.
  induction (map (fun r => Z.abs (row_total r)) a) as [| x l IH]; simpl; lia.
Qed.

Lemma magnitude_nonneg (df : list Row) : 0 <= magnitude df.
Proof. unfold magnitude. induction df as [| r df IH]; simpl; lia. Qed.

(** On a table of numbers whose sums are exact the three [groupby]s return
    the tables of numbers. *)
Lemma personnel_sums_exact (tables : list Row) :
  numeric_table tables = true -> magnitude tables < 2 ^ 53 ->
  personnel_sums tables = Ok (groupby_name_process (personnel_projection tables)).
Proof.
  intros Hn Hb. unfold personnel_sums, groupby_name_process.
  set (f := fun r : Row => if isna (Name r) then []
                           else [((Name r, RowProcess r), TotalRec r)]).
  set (keyed := flat_map f tables).
  assert (E : map (fun r => (personnel_key r, p_TotalRec r))
                (filter (fun r => negb (isna (p_Name r))) (personnel_projection tables))
              = map (fun kc => (fst kc, total_value (snd kc))) keyed).
  { unfold keyed, f, personnel_projection.
    induction tables as [| r l IH]; simpl; [reflexivity |].
    simpl in Hn. apply andb_true_iff in Hn. destruct Hn as [_ Hn].
    assert (Hb' : magnitude l < 2 ^ 53).
    { unfold magnitude in *. simpl in Hb. pose proof (Z.abs_nonneg (row_total r)). lia. }
    destruct (isna (Name r)); simpl; rewrite (IH Hn Hb'); reflexivity. }
  rewrite E. rewrite !map_map. cbn [fst snd].
  destruct (keyed_cells f tables) as [Hk1 Hk2]; [| exact Hn |].
  { intros r. unfold f. destruct (isna (Name r)); [now left | right; eexists; reflexivity]. }
  fold keyed in Hk1, Hk2.
  apply all_ok_map. intros k _.
  rewrite (group_sum_exact name_process_eq_dec AtPersonnel k keyed Hk1) by lia.
  rewrite <- (group_of_snd name_process_eq_dec total_value k keyed).
  reflexivity.
Qed.

Lemma period_personnel_sums_exact (period : Row -> DateTime) (p : Process)
      (df : list Row) :
  numeric_table df = true -> magnitude df < 2 ^ 53 ->
  period_personnel_sums period p df = Ok (period_personnel period p df).
Proof.
  intros Hn Hb. unfold period_personnel_sums, period_personnel.
  set (f := fun r : Row =>
              match period r with
              | Some w => if isna (Name r) then [] else [((w, Name r), TotalRec r)]
              | None => []
              end).
  set (keyed := flat_map f df).
  assert (E : flat_map (fun r =>
                          match period r with
                          | Some w =>
                              if isna (Name r) then []
                              else [((w, Name r), total_value (TotalRec r))]
                          | None => []
                          end) df
              = map (fun kc => (fst kc, total_value (snd kc))) keyed).
  { unfold keyed. rewrite map_flat_map. apply flat_map_ext. intros r. unfold f.
    destruct (period r); [| reflexivity]. now destruct (isna (Name r)). }
  rewrite E. rewrite !map_map. cbn [fst snd].
  destruct (keyed_cells f df) as [Hk1 Hk2]; [| exact Hn |].
  { intros r. unfold f. destruct (period r); [| now left].
    destruct (isna (Name r)); [now left | right; eexists; reflexivity]. }
  fold keyed in Hk1, Hk2.
  apply all_ok_map. intros k _.
  rewrite (group_sum_exact period_name_eq_dec (AtFrame p) k keyed Hk1) by lia.
  rewrite <- (group_of_snd period_name_eq_dec total_value k keyed).
  reflexivity.
Qed.

Lemma period_stats_sums_exact (period : Row -> DateTime) (p : Process)
      (df : list Row) :
  numeric_table df = true -> magnitude df < 2 ^ 53 ->
  period_stats_sums period p df = Ok (period_stats period df).
Proof.
  intros Hn Hb. unfold period_stats_sums, period_stats.
  set (f := fun r : Row =>
              match period r with
              | Some w => [((w, RowProcess r), r)]
              | None => []
              end).
  set (keyed := flat_map f df).
  set (cells := map (fun kr : Z * Process * Row => (fst kr, TotalRec (snd kr))) keyed).
  destruct (keyed_cells (fun r => map (fun kr : Z * Process * Row =>
                                         (fst kr, TotalRec (snd kr))) (f r)) df)
    as [Hk1 Hk2]; [| exact Hn |].
  { intros r. unfold f. destruct (period r); [| now left].
    right; eexists; reflexivity. }
  rewrite <- map_flat_map in Hk1, Hk2. fold keyed in Hk1, Hk2. fold cells in Hk1, Hk2.
  apply all_ok_map. intros k _. cbv zeta.
  rewrite <- (group_of_snd period_process_eq_dec TotalRec k keyed). fold cells.
  rewrite (group_sum_exact period_process_eq_dec (AtFrame p) k cells Hk1) by lia.
  unfold cells. rewrite (group_of_snd period_process_eq_dec TotalRec k keyed).
  rewrite map_map. reflexivity.
Qed.

(** The keys of an aggregation are those of its groups, whatever the sums. *)
Lemma personnel_sums_keys (tables : list Row) (groups : list PersonnelRow) :
  personnel_sums tables = Ok groups ->
  map personnel_key groups
  = map personnel_key (groupby_name_process (personnel_projection tables)).
Proof.
  unfold personnel_sums, groupby_name_process. intros E.
  apply (all_ok_keys personnel_key) in E.
  - rewrite E. rewrite map_map. cbn [personnel_key p_Name p_Process].
    rewrite (map_ext _ (fun k => k)) by (now intros [a b]). rewrite map_id.
    f_equal. unfold personnel_projection. clear E.
    induction tables as [| r l IH]; simpl; [reflexivity |].
    destruct (isna (Name r)); simpl; [| f_equal]; exact IH.
  - intros [n p] a. destruct (series_sum _ _); [| discriminate].
    intros H. now inversion H.
Qed.

(** ** Aggregator: the personnel report *)






Lemma number_from_In (l : list PersonnelRow) :
  forall n row, In row (number_from n l) ->
    exists r, In r l /\ pr_Name row = p_Name r /\ pr_Process row = p_Process r
              /\ pr_TotalRec row = p_TotalRec r.
Proof.
  induction l as [| r l IH]; intros n row; simpl; [contradiction |].
  intros [<- | H].
  - exists r. simpl. auto.
  - destruct (IH _ _ H) as [r' [Hr' Hf]]. exists r'. auto.
Qed.


Lemma number_from_sorted (l : list PersonnelRow) :
  StronglySorted (fun a b => p_TotalRec b <= p_TotalRec a) l ->
  forall n, StronglySorted (fun a b => pr_TotalRec b <= pr_TotalRec a) (number_from n l).
Proof.
  induction 1 as [| r l Hl IH Hr]; intros n; simpl; constructor.
  - apply IH.
  - apply Forall_forall. intros row Hrow.
    destruct (number_from_In _ _ _ Hrow) as [r' [Hin (_ & _ & ->)]].
    rewrite Forall_forall in Hr. simpl. now apply Hr.
Qed.

(** What is known of the library sort: it permutes the rows and leaves the
    totals in descending order. *)
Hypothesis sort_values_desc_perm :
  forall l, Permutation (sort_values_desc l) l.
Hypothesis sort_values_desc_sorted :
  forall l, StronglySorted (fun a b => p_TotalRec b <= p_TotalRec a)
                           (sort_values_desc l).

(** The three process tables of a run, and what follows them. *)
Lemma aggregate_tables_results (key_df qc_df final_df : list Row)
      (res : Results) (ev : list Event) :
  aggregate_tables key_df qc_df final_df = (Some res, ev) ->
  res_Key res = key_df /\ res_QC res = qc_df /\ res_Final res = final_df.
Proof.
  unfold aggregate_tables.
  destruct (personnel_parts Week _ _ _); [| discriminate].
  destruct (personnel_parts Month _ _ _); [| discriminate].
  destruct (nonempty key_df || nonempty qc_df || nonempty final_df).
  - destruct (personnel_try _), (period_personnel_try _ _ _),
             (period_personnel_try _ _ _), (period_report_try _ _ _ _ _ _ _),
             (period_report_try _ _ _ _ _ _ _).
    intros E. inversion E; subst. now repeat split.
  - intros E. inversion E; subst. now repeat split.
Qed.

Lemma process_input_data_aggregates (cols : Columns) (input_df : DataFrame)
      (res : Results) (ev : list Event) :
  process_input_data_with cols input_df = (Some res, ev) ->
  df_empty input_df = false
  /\ res_Key res = fst (process_key (cols_Key cols) input_df)
  /\ res_QC res = fst (process_qc (cols_QC cols) input_df)
  /\ res_Final res = fst (process_final (cols_Final cols) input_df)
  /\ exists ev',
       aggregate_tables (res_Key res) (res_QC res) (res_Final res) = (Some res, ev')
       /\ ev = snd (process_key (cols_Key cols) input_df)
                 ++ snd (process_qc (cols_QC cols) input_df)
                 ++ snd (process_final (cols_Final cols) input_df) ++ ev'.
Proof.
  unfold process_input_data_with. destruct (df_empty input_df); [discriminate |].
  destruct (process_key _ _) as [k ek], (process_qc _ _) as [q eq'],
           (process_final _ _) as [f ef].
  destruct (aggregate_tables k q f) as [r ev'] eqn:Ea.
  intros E. inversion E; subst. cbn [fst snd].
  destruct (aggregate_tables_results k q f res ev' Ea) as (-> & -> & ->).
  split; [reflexivity |]. repeat (split; [reflexivity |]).
  exists ev'. now split.
Qed.

(** The records of the three tables all have a name: [dropna] saw to it. *)
Lemma process_tables_named (cols : Columns) (input_df : DataFrame)
      (res : Results) (ev : list Event) :
  process_input_data_with cols input_df = (Some res, ev) ->
  Forall (fun r => isna (Name r) = false)
         (res_Key res ++ res_QC res ++ res_Final res).
Proof.
  intros E.
  destruct (process_input_data_aggregates cols input_df res ev E)
    as (_ & Ek & Eq & Ef & _).
  apply Forall_forall. intros r Hr.
  assert (Hreq : exists x, Name r = Name x /\ has_required x = true).
  { rewrite !in_app_iff in Hr. destruct Hr as [Hr | [Hr | Hr]].
    - rewrite Ek in Hr.
      destruct (process_key_derived _ _ _ Hr) as [x [-> Hx]]. now exists x.
    - rewrite Eq in Hr.
      destruct (process_qc_derived _ _ _ Hr) as [x [-> Hx]]. now exists x.
    - rewrite Ef in Hr.
      destruct (process_final_derived _ _ _ Hr) as [x [-> Hx]]. now exists x. }
  destruct Hreq as [x [-> Hx]]. unfold has_required in Hx.
  apply andb_true_iff in Hx. destruct Hx as [Hx _]. now apply negb_true_iff in Hx.
Qed.

Lemma nonempty_app {A : Type} (a b : list A) :
  nonempty (a ++ b) = nonempty a || nonempty b.
Proof. destruct a, b; reflexivity. Qed.

Lemma nonempty_true {A : Type} (l : list A) : nonempty l = true <-> l <> [].
Proof. destruct l; simpl; split; congruence. Qed.

(** On tables of numbers whose sums are exact nothing raises, and the
    personnel reports are those of the tables of numbers. *)
Lemma personnel_try_exact (tables : list Row) :
  numeric_table tables = true -> magnitude tables < 2 ^ 53 ->
  personnel_try tables = (personnel_report (personnel_projection tables), []).
Proof.
  intros Hn Hb. unfold personnel_try, block_raises.
  now rewrite (personnel_sums_exact tables Hn Hb), Hn.
Qed.

Lemma tables_exact (key_df qc_df final_df : list Row) :
  numeric_table (key_df ++ qc_df ++ final_df) = true ->
  magnitude (key_df ++ qc_df ++ final_df) < 2 ^ 53 ->
  (numeric_table key_df = true /\ magnitude key_df < 2 ^ 53)
  /\ (numeric_table qc_df = true /\ magnitude qc_df < 2 ^ 53)
  /\ (numeric_table final_df = true /\ magnitude final_df < 2 ^ 53).
Proof.
  rewrite !numeric_table_app, !magnitude_app, !andb_true_iff.
  pose proof (magnitude_nonneg key_df). pose proof (magnitude_nonneg qc_df).
  pose proof (magnitude_nonneg final_df). intros (? & ? & ?) ?.
  repeat split; try assumption; lia.
Qed.

Lemma personnel_parts_exact (period : Row -> DateTime)
      (key_df qc_df final_df : list Row) :
  numeric_table (key_df ++ qc_df ++ final_df) = true ->
  magnitude (key_df ++ qc_df ++ final_df) < 2 ^ 53 ->
  personnel_parts period key_df qc_df final_df
  = Ok (period_personnel period Key key_df ++ period_personnel period QC qc_df
          ++ period_personnel period Final final_df).
Proof.
  intros Hn Hb.
  destruct (tables_exact _ _ _ Hn Hb) as ((Hk & Bk) & (Hq & Bq) & (Hf & Bf)).
  unfold personnel_parts.
  now rewrite !period_personnel_sums_exact.
Qed.

Lemma aggregate_tables_exact (key_df qc_df final_df : list Row)
      (res : Results) (ev : list Event) :
  aggregate_tables key_df qc_df final_df = (Some res, ev) ->
  key_df ++ qc_df ++ final_df <> [] ->
  numeric_table (key_df ++ qc_df ++ final_df) = true ->
  magnitude (key_df ++ qc_df ++ final_df) < 2 ^ 53 ->
  res_Personnel res
  = Some (personnel_report (personnel_projection (key_df ++ qc_df ++ final_df)))
  /\ res_PersonnelWeekly res = Some (period_personnel_report Week key_df qc_df final_df)
  /\ res_PersonnelMonthly res
     = Some (period_personnel_report Month key_df qc_df final_df)
  /\ res_Weekly res
     = fst (period_report_try "weekly" "Weekly Report Warning" "Week" Week
                              key_df qc_df final_df)
  /\ res_Monthly res
     = fst (period_report_try "monthly" "Monthly Report Warning" "Month" Month
                              key_df qc_df final_df)
  /\ ev = snd (period_report_try "weekly" "Weekly Report Warning" "Week" Week
                                 key_df qc_df final_df)
            ++ snd (period_report_try "monthly" "Monthly Report Warning" "Month" Month
                                      key_df qc_df final_df).
Proof.
  intros E Hne Hn Hb. unfold aggregate_tables in E.
  rewrite !personnel_parts_exact in E by assumption.
  apply nonempty_true in Hne. rewrite !nonempty_app, orb_assoc in Hne.
  rewrite Hne in E.
  rewrite (personnel_try_exact _ Hn Hb) in E.
  unfold period_personnel_try, block_raises in E. rewrite Hn in E.
  destruct (period_report_try "weekly" _ _ _ _ _ _) as [wr ew].
  destruct (period_report_try "monthly" _ _ _ _ _ _) as [mr em].
  inversion E; subst. cbn. now repeat split.
Qed.





(** ** Aggregator: records without a period *)

Definition has_period (period : Row -> DateTime) (r : Row) : bool :=
  match period r with Some _ => true | None => false end.

(** The records of a table that have a period. *)
Definition with_period (period : Row -> DateTime) (df : list Row) : list Row :=
  filter (has_period period) df.





Lemma sum_Z_app (a b : list Z) : sum_Z (a ++ b) = sum_Z a + sum_Z b.
Proof. induction a as [| x a IH]; simpl; [reflexivity | rewrite IH; lia]. Qed.


(** ** WorkbookAssembler *)

(** [df is not None and not df.empty] *)
Definition table_present {A : Type} (df : option (list A)) : bool :=
  match df with Some l => nonempty l | None => false end.

Definition report_present (df : option PeriodReport) : bool :=
  match df with Some rep => nonempty (report_rows rep) | None => false end.

(** The eight sheet names in creation order, each with the test that guards
    its creation. *)
Definition sheet_plan (processed_data : Results) : list (string * bool) :=
  [("Key Process", nonempty (res_Key processed_data));
   ("QC Process", nonempty (res_QC processed_data));
   ("Final Process", nonempty (res_Final processed_data));
   ("Weekly Report", report_present (res_Weekly processed_data));
   ("Monthly Report", report_present (res_Monthly processed_data));
   ("Personnel Performance", table_present (res_Personnel processed_data));
   ("Personnel Weekly", table_present (res_PersonnelWeekly processed_data));
   ("Personnel Monthly", table_present (res_PersonnelMonthly processed_data))].

Lemma sheet_if_titles {A : Type} (df : option (list A)) (mk : list A -> Sheet)
      (name : string) :
  (forall l, title (mk l) = name) ->
  map title (sheet_if df mk) = if table_present df then [name] else [].
Proof.
  intros H. destruct df as [[| r l] |]; simpl; try reflexivity. now rewrite H.
Qed.

Lemma report_if_titles (df : option PeriodReport) (mk : PeriodReport -> Sheet)
      (name : string) :
  (forall rep, title (mk rep) = name) ->
  map title (report_if df mk) = if report_present df then [name] else [].
Proof.
  intros H. destruct df as [rep |]; simpl; try reflexivity.
  destruct (nonempty (report_rows rep)); simpl; try reflexivity. now rewrite H.
Qed.

Lemma build_workbook_titles (processed_data : Results) :
  map title (build_workbook processed_data)
  = map fst (filter snd (sheet_plan processed_data)).
Proof.
  unfold build_workbook. rewrite !map_app.
  rewrite (sheet_if_titles _ key_sheet "Key Process") by reflexivity.
  rewrite (sheet_if_titles _ qc_sheet "QC Process") by reflexivity.
  rewrite (sheet_if_titles _ final_sheet "Final Process") by reflexivity.
  rewrite (report_if_titles _ (report_sheet "Weekly") "Weekly Report") by reflexivity.
  rewrite (report_if_titles _ (report_sheet "Monthly") "Monthly Report") by reflexivity.
  rewrite (sheet_if_titles _ personnel_sheet "Personnel Performance") by reflexivity.
  rewrite (sheet_if_titles _ (period_personnel_sheet "Personnel Weekly" "Week" "%Y-%m-%d")
             "Personnel Weekly") by reflexivity.
  rewrite (sheet_if_titles _ (period_personnel_sheet "Personnel Monthly" "Month" "%Y-%m")
             "Personnel Monthly") by reflexivity.
  unfold sheet_plan. cbn [table_present].
  destruct (nonempty (res_Key processed_data)),
           (nonempty (res_QC processed_data)),
           (nonempty (res_Final processed_data)),
           (report_present (res_Weekly processed_data)),
           (report_present (res_Monthly processed_data)),
           (table_present (res_Personnel processed_data)),
           (table_present (res_PersonnelWeekly processed_data)),
           (table_present (res_PersonnelMonthly processed_data)); reflexivity.
Qed.

Lemma filter_length_le {A : Type} (f : A -> bool) (l : list A) :
  (List.length (filter f l) <= List.length l)%nat.
Proof.
  induction l as [| a l IH]; simpl; [lia |]. destruct (f a); simpl; lia.
Qed.

Lemma plan_filter_NoDup (l : list (string * bool)) :
  NoDup (map fst l) -> NoDup (map fst (filter snd l)).
Proof.
  tidy.
  induction l as [| [n b] l IH]; simpl; intros H; [constructor |].
  inversion_clear H as [| ? ? Hn Hl]. destruct b; simpl; [| now apply IH].
  constructor; [| now apply IH].
  intros Hin. apply Hn. apply in_map_iff in Hin. destruct Hin as [x [Hx Hf]].
  apply filter_In in Hf. apply in_map_iff. exists x. tauto.
Qed.

Lemma plan_filter_In (l : list (string * bool)) (name : string) (present : bool) :
  NoDup (map fst l) -> In (name, present) l ->
  (In name (map fst (filter snd l)) <-> present = true).
Proof.
  intros Hnd Hin. split.
  - intros H. apply in_map_iff in H. destruct H as [[n b] [Hn Hf]].
    apply filter_In in Hf. destruct Hf as [Hf Hb]. simpl in *. subst n b.
    destruct present; [reflexivity |]. exfalso.
    revert Hnd Hin Hf. clear. induction l as [| [n b] l IH]; simpl; [contradiction |].
    intros Hnd. inversion_clear Hnd as [| ? ? Hn Hl].
    intros [E1 | H1] [E2 | H2].
    + congruence.
    + inversion E1; subst. apply Hn. apply in_map_iff. now exists (name, true).
    + inversion E2; subst. apply Hn. apply in_map_iff. now exists (name, false).
    + now apply IH.
  - intros ->. apply in_map_iff. exists (name, true). split; [reflexivity |].
    apply filter_In. auto.
Qed.

Lemma sheet_plan_names (processed_data : Results) :
  map fst (sheet_plan processed_data)
  = ["Key Process"; "QC Process"; "Final Process"; "Weekly Report";
     "Monthly Report"; "Personnel Performance"; "Personnel Weekly";
     "Personnel Monthly"].
Proof. reflexivity. Qed.

Lemma sheet_plan_NoDup (processed_data : Results) :
  NoDup (map fst (sheet_plan processed_data)).
Proof.
  rewrite sheet_plan_names.
  repeat (constructor; [simpl; intuition discriminate |]). constructor.
Qed.

(** C8.  For every processed dataset the workbook is built, and its sheets
    are, in this order, those of Key Process, QC Process, Final Process,
    Weekly Report, Monthly Report, Personnel Performance, Personnel Weekly,
    Personnel Monthly whose table is there and not empty: a name is among the
    sheet titles exactly when its table is, no title occurs twice, and there
    are at most eight sheets. *)
Theorem save_reports_sheet_order (processed_data : Results) :
  save_reports (Some processed_data) = (Some (build_workbook processed_data), [])
  /\ map title (build_workbook processed_data)
     = map fst (filter snd (sheet_plan processed_data))
  /\ map fst (sheet_plan processed_data)
     = ["Key Process"; "QC Process"; "Final Process"; "Weekly Report";
        "Monthly Report"; "Personnel Performance"; "Personnel Weekly";
        "Personnel Monthly"]
  /\ (forall (name : string) (present : bool),
        In (name, present) (sheet_plan processed_data) ->
        (In name (map title (build_workbook processed_data)) <-> present = true))
  /\ NoDup (map title (build_workbook processed_data))
  /\ (List.length (build_workbook processed_data) <= 8)%nat.
Proof.
  split; [reflexivity |]. split; [apply build_workbook_titles |].
  split; [reflexivity |]. rewrite build_workbook_titles.
  split; [| split].
  - intros name present Hin.
    apply plan_filter_In; [apply sheet_plan_NoDup | exact Hin].
  - apply plan_filter_NoDup, sheet_plan_NoDup.
  - rewrite <- (length_map title), build_workbook_titles, length_map.
    etransitivity; [apply filter_length_le | reflexivity].
Qed.

(** ** The warnings of the process blocks *)










(** ** Aggregator: the period pivot *)

Fixpoint lookup_column (column : string) (names : list string) (vals : list Q)
  : option Q :=
  match names, vals with
  | n :: ns, v :: vs =>
      if String.eqb n column then Some v else lookup_column column ns vs
  | _, _ => None
  end.

(** The cell of a report at a period and a column title; [None] when the
    report has no such row or no such column. *)
Definition report_value (rep : PeriodReport) (w : Z) (column : string) : option Q :=
  match find (fun wr => fst wr =? w) (report_rows rep) with
  | Some wr => lookup_column column (value_columns rep) (snd wr)
  | None => None
  end.

(** Some record of the tables is of process [p] and falls in period [w]. *)
Definition has_data (tables : list Row) (period : Row -> DateTime)
           (w : Z) (p : Process) : Prop :=
  exists r, In r tables /\ period r = Some w /\ RowProcess r = p.

Definition stat_key (s : PeriodStat) : Z * Process := (ps_Period s, ps_Process s).

Lemma column_title_eq (m : Metric) (p : Process) :
  column_title m p = (metric_name m ++ " " ++ process_name p)%string.
Proof. destruct m, p; reflexivity. Qed.

Lemma column_title_inj (m m' : Metric) (p p' : Process) :
  column_title m p = column_title m' p' -> (m, p) = (m', p').
Proof. destruct m, p, m', p'; intros H; try reflexivity; discriminate H. Qed.

Lemma NoDup_map_inj_in {A B : Type} (f : A -> B) (l : list A) :
  (forall x y, In x l -> In y l -> f x = f y -> x = y) ->
  NoDup l -> NoDup (map f l).
Proof.
  intros Hinj H. induction H as [| a l Ha Hl IH]; simpl; constructor.
  - intros Hin. apply in_map_iff in Hin. destruct Hin as [x [Hx Hxl]].
    assert (x = a) by (apply Hinj; simpl; auto). now subst x.
  - apply IH. intros x y Hx Hy. apply Hinj; simpl; auto.
Qed.

Lemma pivot_columns_In (procs : list Process) (m : Metric) (p : Process) :
  In (m, p) (map (pair MProcessingDays) procs ++ map (pair MTotalRec) procs)
  <-> In p procs.
Proof.
  rewrite in_app_iff, !in_map_iff. split.
  - intros [[x [E H]] | [x [E H]]]; inversion E; now subst.
  - intros H. destruct m; [left | right]; now exists p.
Qed.

Lemma pivot_columns_NoDup (procs : list Process) :
  NoDup procs ->
  NoDup (map (pair MProcessingDays) procs ++ map (pair MTotalRec) procs).
Proof.
  intros H. apply NoDup_app.
  - apply NoDup_map_inj_in; [| exact H]. intros x y _ _ E. now inversion E.
  - apply NoDup_map_inj_in; [| exact H]. intros x y _ _ E. now inversion E.
  - intros [m p] H1 H2. apply in_map_iff in H1. apply in_map_iff in H2.
    destruct H1 as [x [E1 _]], H2 as [y [E2 _]]. congruence.
Qed.

Lemma lookup_column_map (g : Metric * Process -> Q) (cols : list (Metric * Process))
      (m : Metric) (p : Process) :
  In (m, p) cols ->
  lookup_column (column_title m p)
    (map (fun mp => column_title (fst mp) (snd mp)) cols) (map g cols)
  = Some (g (m, p)).
Proof.
  induction cols as [| [m0 p0] cols IH]; simpl; [contradiction |].
  intros Hin. destruct (String.eqb (column_title m0 p0) (column_title m p)) eqn:E.
  - apply String.eqb_eq in E. apply column_title_inj in E. now rewrite E.
  - destruct Hin as [Hin | Hin]; [| now apply IH].
    inversion Hin; subst. now rewrite String.eqb_refl in E.
Qed.

Lemma lookup_column_absent (g : Metric * Process -> Q) (cols : list (Metric * Process))
      (m : Metric) (p : Process) :
  ~ In (m, p) cols ->
  lookup_column (column_title m p)
    (map (fun mp => column_title (fst mp) (snd mp)) cols) (map g cols)
  = None.
Proof.
  tidy.
  induction cols as [| [m0 p0] cols IH]; simpl; [reflexivity |].
  intros Hin. destruct (String.eqb (column_title m0 p0) (column_title m p)) eqn:E.
  - apply String.eqb_eq in E. apply column_title_inj in E.
    exfalso. apply Hin. now left.
  - apply IH. tauto.
Qed.

Lemma find_period_row (g : Z -> list Q) (periods : list Z) (w : Z) :
  In w periods ->
  find (fun wr => fst wr =? w) (map (fun w' => (w', g w')) periods) = Some (w, g w).
Proof.
  induction periods as [| w0 periods IH]; simpl; [contradiction |].
  intros Hin. destruct (w0 =? w) eqn:E.
  - apply Z.eqb_eq in E. now subst.
  - destruct Hin as [-> | Hin]; [now rewrite Z.eqb_refl in E | now apply IH].
Qed.

Lemma period_stats_keys (period : Row -> DateTime) (df : list Row) (w : Z) (p : Process) :
  In (w, p) (map stat_key (period_stats period df)) <-> has_data df period w p.
Proof.
  unfold period_stats. rewrite map_map. cbn [stat_key ps_Period ps_Process].
  rewrite (map_ext _ (fun k => k)) by (now intros [a b]).
  rewrite map_id, group_keys_In, in_map_iff. unfold has_data. split.
  - intros [[k r] [Ek Hin]]. simpl in Ek. subst k.
    apply in_flat_map in Hin. destruct Hin as [r' [Hr' Hin]].
    destruct (period r') as [w' |] eqn:Ew; [| contradiction].
    destruct Hin as [Hin | []]. inversion Hin; subst. exists r. auto.
  - intros [r (Hin & Ew & Ep)]. exists ((w, p), r). split; [reflexivity |].
    apply in_flat_map. exists r. split; [exact Hin |]. rewrite Ew, Ep. now left.
Qed.

Lemma pivot_cell_fill (stats : list PeriodStat) (w : Z) (m : Metric) (p : Process) :
  ~ In (w, p) (map stat_key stats) -> pivot_cell stats w m p = 0%Q.
Proof.
  intros Hno. unfold pivot_cell.
  destruct (filter _ stats) as [| s l] eqn:E; [reflexivity |].
  exfalso. apply Hno.
  assert (Hs : In s (filter (fun s => (ps_Period s =? w)
                                       && (if Process_eq_dec (ps_Process s) p
                                           then true else false)) stats))
    by (rewrite E; now left).
  apply filter_In in Hs. destruct Hs as [Hs Hm].
  apply andb_true_iff in Hm. destruct Hm as [Hw Hp].
  apply Z.eqb_eq in Hw. destruct (Process_eq_dec (ps_Process s) p); [| discriminate].
  apply in_map_iff. exists s. unfold stat_key. split; [congruence | exact Hs].
Qed.

(** The pivot of any statistics, [D w p] telling whether they have an entry
    for period [w] and process [p]. *)
Lemma pivot_table_structure (label : string) (stats : list PeriodStat)
      (D : Z -> Process -> Prop) :
  (forall w p, In (w, p) (map stat_key stats) <-> D w p) ->
  let rep := pivot_table label stats in
  NoDup (value_columns rep)
  /\ (forall m p, In (column_title m p) (value_columns rep) <-> exists w, D w p)
  /\ NoDup (map fst (report_rows rep))
  /\ (forall w, In w (map fst (report_rows rep)) <-> exists p, D w p)
  /\ (forall w m p,
        (exists p', D w p') -> (exists w', D w' p) ->
        (exists v, report_value rep w (column_title m p) = Some v)
        /\ (~ D w p -> report_value rep w (column_title m p) = Some 0%Q))
  /\ (forall w m p,
        ~ (exists w', D w' p) -> report_value rep w (column_title m p) = None).
Proof.
  intros Hkeys rep.
  set (periods := group_keys Z.eq_dec Z.leb (map ps_Period stats)).
  set (procs := group_keys Process_eq_dec process_leb (map ps_Process stats)).
  set (columns := map (pair MProcessingDays) procs ++ map (pair MTotalRec) procs).
  assert (Hprocs : forall p, In p procs <-> exists w, D w p).
  { intros p. unfold procs. rewrite group_keys_In, in_map_iff. split.
    - intros [s [<- Hs]]. exists (ps_Period s). apply Hkeys.
      apply in_map_iff. now exists s.
    - intros [w H]. apply Hkeys in H. apply in_map_iff in H.
      destruct H as [s [E Hs]]. exists s. inversion E. auto. }
  assert (Hperiods : forall w, In w periods <-> exists p, D w p).
  { intros w. unfold periods. rewrite group_keys_In, in_map_iff. split.
    - intros [s [<- Hs]]. exists (ps_Process s). apply Hkeys.
      apply in_map_iff. now exists s.
    - intros [p H]. apply Hkeys in H. apply in_map_iff in H.
      destruct H as [s [E Hs]]. exists s. inversion E. auto. }
  assert (Hvalue : forall w m p,
             In w periods ->
             report_value rep w (column_title m p)
             = lookup_column (column_title m p)
                 (map (fun mp => column_title (fst mp) (snd mp)) columns)
                 (map (fun mp => pivot_cell stats w (fst mp) (snd mp)) columns)).
  { intros w m p Hw. unfold report_value, rep, pivot_table.
    fold periods. fold procs. fold columns. cbn [report_rows value_columns].
    now rewrite (find_period_row _ periods w Hw). }
  assert (Hrows : map fst (report_rows rep) = periods).
  { unfold rep, pivot_table. fold periods.
    cbn [report_rows]. rewrite map_map. cbn [fst]. apply map_id. }
  split; [| split; [| split; [| split; [| split]]]].
  - unfold rep, pivot_table. fold procs. fold columns.
    cbn [value_columns]. apply NoDup_map_inj_in.
    + intros [m p] [m' p'] _ _ E. now apply column_title_inj.
    + apply pivot_columns_NoDup. apply group_keys_NoDup.
  - intros m p. rewrite <- Hprocs, <- (pivot_columns_In procs m p). fold columns.
    unfold rep, pivot_table. fold procs. fold columns.
    cbn [value_columns]. rewrite in_map_iff. split.
    + intros [[m' p'] [E H]]. simpl in E. apply column_title_inj in E. now rewrite <- E.
    + intros H. now exists (m, p).
  - rewrite Hrows. apply group_keys_NoDup.
  - intros w. rewrite Hrows. apply Hperiods.
  - intros w m p Hw Hp. apply Hperiods in Hw. apply Hprocs in Hp.
    apply (pivot_columns_In procs m p) in Hp. fold columns in Hp.
    rewrite (Hvalue w m p Hw).
    rewrite (lookup_column_map (fun mp => pivot_cell stats w (fst mp) (snd mp))
               columns m p Hp).
    split; [eexists; reflexivity |].
    intros Hno. cbn [fst snd]. f_equal. apply pivot_cell_fill.
    intros H. apply Hno. now apply Hkeys.
  - intros w m p Hno. unfold report_value.
    destruct (find _ (report_rows rep)) as [[w' vals] |] eqn:E; [| reflexivity].
    assert (Hin : In (w', vals) (report_rows rep)) by (apply (find_some _ _ E)).
    unfold rep, pivot_table in Hin |- *.
    fold periods in Hin. fold procs in Hin |- *.
    fold columns in Hin |- *. cbn [report_rows value_columns] in Hin |- *.
    apply in_map_iff in Hin. destruct Hin as [w0 [E0 _]]. inversion E0; subst.
    cbn [snd]. apply lookup_column_absent.
    intros H. apply Hno. apply Hprocs. now apply (pivot_columns_In procs m p).
Qed.

(** The groups of the aggregation of a process table are those of its
    records that have a period, whatever the sums. *)
Lemma period_stats_sums_keys (period : Row -> DateTime) (p : Process)
      (df : list Row) (stats : list PeriodStat) :
  period_stats_sums period p df = Ok stats ->
  map stat_key stats = map stat_key (period_stats period df).
Proof.
  unfold period_stats_sums, period_stats. intros E.
  apply (all_ok_keys stat_key) in E.
  - rewrite E, map_map. cbn [stat_key ps_Period ps_Process].
    rewrite (map_ext _ (fun k => k)) by (now intros [a b]). now rewrite map_id.
  - intros [w p'] a. cbv zeta. destruct (series_sum _ _); [| discriminate].
    intros H. now inversion H.
Qed.

(** A table of numbers is aggregated without an exception. *)
Lemma period_stats_sums_numeric (period : Row -> DateTime) (p : Process)
      (df : list Row) :
  numeric_table df = true -> exists stats, period_stats_sums period p df = Ok stats.
Proof.
  intros Hn. unfold period_stats_sums.
  set (f := fun r : Row =>
              match period r with
              | Some w => [((w, RowProcess r), r)]
              | None => []
              end).
  set (keyed := flat_map f df).
  set (cells := map (fun kr : Z * Process * Row => (fst kr, TotalRec (snd kr))) keyed).
  destruct (keyed_cells (fun r => map (fun kr : Z * Process * Row =>
                                         (fst kr, TotalRec (snd kr))) (f r)) df)
    as [Hk1 _]; [| exact Hn |].
  { intros r. unfold f. destruct (period r); [| now left].
    right; eexists; reflexivity. }
  rewrite <- map_flat_map in Hk1. fold keyed in Hk1. fold cells in Hk1.
  eexists. apply all_ok_map with
    (g := fun k =>
            let members := group_of period_process_eq_dec k keyed in
            {| ps_Period := fst k; ps_Process := snd k;
               ps_TotalRec := int_sum (AtFrame p) (map total_value (map TotalRec members));
               ps_Days := days_mean (present_days (map ProcessingDays members)) |}).
  intros k _. cbv zeta. unfold series_sum.
  rewrite all_numbers_numeric; [reflexivity |].
  rewrite <- (group_of_snd period_process_eq_dec TotalRec k keyed). fold cells.
  now apply group_of_numeric.
Qed.

Lemma aggregated_numeric (period : Row -> DateTime) (p : Process) (df : list Row) :
  numeric_table df = true -> aggregated period p df = df.
Proof.
  intros Hn. unfold aggregated.
  destruct (period_stats_sums_numeric period p df Hn) as [stats ->]. reflexivity.
Qed.

Lemma aggregate_keys (what : string) (period : Row -> DateTime) (p : Process)
      (df : list Row) (w : Z) (p' : Process) :
  In (w, p') (map stat_key (entry (fst (aggregate what period p df))))
  <-> has_data (aggregated period p df) period w p'.
Proof.
  unfold aggregate, aggregated.
  destruct df as [| r0 df'] eqn:Edf.
  - simpl. split; [contradiction | now intros [r [[] _]]].
  - cbn [nonempty]. rewrite <- Edf.
    destruct (period_stats_sums period p df) as [stats | e] eqn:E; cbn [fst entry].
    + rewrite (period_stats_sums_keys period p df stats E). apply period_stats_keys.
    + simpl. split; [contradiction | now intros [r [[] _]]].
Qed.

Lemma has_data_app (a b : list Row) (period : Row -> DateTime) (w : Z) (p : Process) :
  has_data (a ++ b) period w p <-> has_data a period w p \/ has_data b period w p.
Proof.
  tidy.
  unfold has_data. split.
  - intros [r [H H']]. apply in_app_iff in H.
    destruct H as [H | H]; [left | right]; exists r; tauto.
  - intros [[r [H H']] | [r [H H']]]; exists r; rewrite in_app_iff; tauto.
Qed.

(** The statistics that reach the pivot. *)
Definition pivot_input (what : string) (period : Row -> DateTime)
           (key_df qc_df final_df : list Row) : list PeriodStat :=
  entry (fst (aggregate what period Key key_df))
    ++ entry (fst (aggregate what period QC qc_df))
    ++ entry (fst (aggregate what period Final final_df)).

Lemma period_report_try_rows (what block label : string) (period : Row -> DateTime)
      (key_df qc_df final_df : list Row) (rep : PeriodReport) (ev : list Event) :
  period_report_try what block label period key_df qc_df final_df = (Some rep, ev) ->
  report_rows rep <> [] ->
  rep = pivot_table label (pivot_input what period key_df qc_df final_df)
  /\ pivot_raises block (key_df ++ qc_df ++ final_df)
                  (pivot_input what period key_df qc_df final_df) = None.
Proof.
  unfold period_report_try, pivot_input.
  destruct (aggregate what period Key key_df) as [k ek].
  destruct (aggregate what period QC qc_df) as [q eq'].
  destruct (aggregate what period Final final_df) as [f ef].
  cbn [fst].
  destruct (has_entry k || has_entry q || has_entry f); [| discriminate].
  destruct (pivot_raises _ _ _);
    intros E Hr; inversion E; subst; [now contradiction Hr | now split].
Qed.

(** C6 (as amended).  A weekly or monthly process report that has rows is
    the pivot of the aggregations of the process tables, a table whose
    aggregation raised being left out.  Its columns are named
    "<Metric> <Process>" (so "Total Rec. Key"), one for each metric and each
    process that has a record in some period, none twice and none for a
    process without such a record; there is exactly one row per period in
    which some process has a record; every row has a value in every column;
    and that value is 0 where the process of the column has no record in the
    period of the row.  No table is left out when the Total Rec. are
    numbers. *)
Theorem period_report_pivot (what block label : string) (period : Row -> DateTime)
        (key_df qc_df final_df : list Row) (rep : PeriodReport) (ev : list Event) :
  period_report_try what block label period key_df qc_df final_df = (Some rep, ev) ->
  report_rows rep <> [] ->
  let tables := aggregated period Key key_df ++ aggregated period QC qc_df
                  ++ aggregated period Final final_df in
  (forall m p, column_title m p = (metric_name m ++ " " ++ process_name p)%string)
  /\ column_title MTotalRec Key = "Total Rec. Key"
  /\ NoDup (value_columns rep)
  /\ (forall m p,
        In (column_title m p) (value_columns rep)
        <-> exists w, has_data tables period w p)
  /\ NoDup (map fst (report_rows rep))
  /\ (forall w,
        In w (map fst (report_rows rep)) <-> exists p, has_data tables period w p)
  /\ (forall w m p,
        (exists p', has_data tables period w p') ->
        (exists w', has_data tables period w' p) ->
        (exists v, report_value rep w (column_title m p) = Some v)
        /\ (~ has_data tables period w p ->
            report_value rep w (column_title m p) = Some 0%Q))
  /\ (forall w m p,
        ~ (exists w', has_data tables period w' p) ->
        report_value rep w (column_title m p) = None)
  /\ (numeric_table (key_df ++ qc_df ++ final_df) = true ->
      tables = key_df ++ qc_df ++ final_df).
Proof.
  intros E Hrows tables.
  destruct (period_report_try_rows _ _ _ _ _ _ _ _ _ E Hrows) as [-> _].
  assert (Hkeys : forall w p,
             In (w, p) (map stat_key (pivot_input what period key_df qc_df final_df))
             <-> has_data tables period w p).
  { intros w p. unfold pivot_input, tables.
    rewrite !map_app, !in_app_iff, !aggregate_keys, !has_data_app. reflexivity. }
  destruct (pivot_table_structure label _ _ Hkeys) as (H1 & H2 & H3 & H4 & H5 & H6).
  split; [exact column_title_eq |]. split; [reflexivity |].
  repeat (split; [assumption |]).
  intros Hn. unfold tables. rewrite !numeric_table_app, !andb_true_iff in Hn.
  destruct Hn as (Hk & Hq & Hf). now rewrite !aggregated_numeric.
Qed.

(** * Further properties of the pipeline *)

(** ** Column selection: when a process block raises *)

(** The zero-based index of a label, when it has one. *)
Definition column_index (label : string) : option Z :=
  fst (excel_column_to_index label).

(** The position is one [iloc] accepts on a frame of [n] columns. *)
Definition in_frame (n : nat) (i : Z) : Prop :=
  - Z.of_nat n <= i < Z.of_nat n.

Lemma resolve_columns_indices (cols : list string) :
  fst (resolve_columns cols) = map column_index cols.
Proof.
  induction cols as [| col rest IH]; simpl; [reflexivity |].
  unfold column_index at 1.
  destruct (excel_column_to_index col) as [i ev], (resolve_columns rest) as [o evs].
  simpl in *. now rewrite IH.
Qed.

Lemma all_some_spec (l : list (option Z)) (idx : list Z) :
  all_some l = Some idx <-> l = map Some idx.
Proof.
  revert idx. induction l as [| [i |] l IH]; intros idx; simpl.
  - split; [intros E; inversion E; reflexivity | destruct idx; [reflexivity | discriminate]].
  - destruct (all_some l) as [js |] eqn:E; simpl.
    + split.
      * intros H. inversion H; subst. simpl. f_equal. now apply IH.
      * destruct idx as [| j idx]; simpl; [discriminate |].
        intros H. inversion H; subst.
        assert (Some js = Some idx) as Hj by (now apply IH). now inversion Hj.
    + split; [discriminate |]. destruct idx as [| j idx]; simpl; [discriminate |].
      intros H. inversion H; subst.
      assert (None = Some idx) by (now apply IH). discriminate.
  - split; [discriminate | destruct idx; discriminate].
Qed.

Lemma iloc_position_spec (n : nat) (i : Z) :
  (in_frame n i ->
   exists j, iloc_position n i = Ok j /\ (j < n)%nat
             /\ Z.of_nat j = (if 0 <=? i then i else Z.of_nat n + i))
  /\ (~ in_frame n i -> iloc_position n i = Raised IndexError).
Proof.
  unfold in_frame, iloc_position. split.
  - intros H. destruct (0 <=? i) eqn:E0.
    + apply Z.leb_le in E0.
      replace (i <? Z.of_nat n) with true by (symmetry; apply Z.ltb_lt; lia).
      simpl. exists (Z.to_nat i). split; [reflexivity |]. lia.
    + apply Z.leb_gt in E0. simpl.
      replace (- Z.of_nat n <=? i) with true by (symmetry; apply Z.leb_le; lia).
      replace (i <? 0) with true by (symmetry; apply Z.ltb_lt; lia).
      simpl. exists (Z.to_nat (Z.of_nat n + i)). split; [reflexivity |]. lia.
  - intros H.
    destruct (Z.leb_spec 0 i), (Z.ltb_spec i (Z.of_nat n)),
             (Z.leb_spec (- Z.of_nat n) i), (Z.ltb_spec i 0);
      simpl; try reflexivity; lia.
Qed.

Lemma iloc_columns_ok (n : nat) (idx : list Z) :
  Forall (in_frame n) idx ->
  exists js, iloc_columns n idx = Ok js
             /\ List.length js = List.length idx
             /\ Forall (fun j => (j < n)%nat) js.
Proof.
  induction 1 as [| i idx Hi _ IH]; simpl.
  - exists []. repeat split. constructor.
  - destruct (proj1 (iloc_position_spec n i) Hi) as [j (Ej & Hj & _)].
    destruct IH as [js (Ejs & Hl & Hf)]. rewrite Ej, Ejs.
    exists (j :: js). simpl. repeat split; [congruence | now constructor].
Qed.

Lemma iloc_columns_raises (n : nat) (idx : list Z) :
  ~ Forall (in_frame n) idx -> iloc_columns n idx = Raised IndexError.
Proof.
  induction idx as [| i idx IH]; intros H; simpl.
  - exfalso. apply H. constructor.
  - destruct (Z_le_dec (- Z.of_nat n) i) as [H1 | H1];
      [destruct (Z_lt_dec i (Z.of_nat n)) as [H2 | H2] |].
    + destruct (proj1 (iloc_position_spec n i) (conj H1 H2)) as [j (Ej & _)].
      rewrite Ej, IH; [reflexivity |]. intros Hf. apply H. constructor; [split |]; assumption.
    + rewrite (proj2 (iloc_position_spec n i)); [reflexivity | unfold in_frame; lia].
    + rewrite (proj2 (iloc_position_spec n i)); [reflexivity | unfold in_frame; lia].
Qed.

(** The labels are all column labels, of positions inside the frame. *)
Definition selectable (n : nat) (cols : list string) : Prop :=
  Forall (fun label => exists i, column_index label = Some i /\ in_frame n i) cols.

(** The first two steps of a process block: the positions the labels select,
    or the exception. *)
Definition select_positions (cols : list string) (n : nat) : result (list nat) :=
  match all_some (fst (resolve_columns cols)) with
  | None => Raised ValueError
  | Some idx => iloc_columns n idx
  end.

Lemma select_positions_spec (cols : list string) (n : nat) :
  (selectable n cols ->
   exists js, select_positions cols n = Ok js
              /\ List.length js = List.length cols
              /\ Forall (fun j => (j < n)%nat) js)
  /\ (~ selectable n cols -> exists e, select_positions cols n = Raised e).
Proof.
  unfold select_positions, selectable. rewrite resolve_columns_indices. split.
  - intros H.
    assert (Hidx : exists idx, map column_index cols = map Some idx
                               /\ Forall (in_frame n) idx).
    { induction H as [| label cols [i [Ei Hi]] _ [idx [E Hf]]].
      - exists []. split; [reflexivity | constructor].
      - exists (i :: idx). simpl. rewrite Ei, E. split; [reflexivity | now constructor]. }
    destruct Hidx as [idx [E Hf]].
    rewrite (proj2 (all_some_spec _ idx) E).
    destruct (iloc_columns_ok n idx Hf) as [js (Ejs & Hl & Hb)].
    exists js. split; [exact Ejs |]. split; [| exact Hb].
    rewrite Hl. rewrite <- (length_map Some idx), <- E. apply length_map.
  - intros H. destruct (all_some (map column_index cols)) as [idx |] eqn:E.
    + apply all_some_spec in E. exists IndexError. apply iloc_columns_raises.
      intros Hf. apply H. clear H. revert idx E Hf.
      induction cols as [| label cols IH]; intros idx E Hf; [constructor |].
      destruct idx as [| i idx]; [discriminate |]. simpl in E. inversion E.
      inversion_clear Hf. constructor; [now exists i | now apply (IH idx)].
    + now exists ValueError.
Qed.

Lemma key_frame_selects (cols : list string) (input_df : DataFrame) :
  fst (key_frame cols input_df) =
    match select_positions cols (ncols input_df) with
    | Ok [c0; c1; c2; c3; c4] =>
        derived Key key_derive (frame_kept (key_select c0 c1 c2 c3 c4) input_df)
    | Ok _ => Raised ValueError
    | Raised e => Raised e
    end.
Proof.
  unfold key_frame, select_positions.
  destruct (resolve_columns cols) as [kc ev]. simpl.
  destruct (all_some kc) as [idx |]; [| reflexivity].
  destruct (iloc_columns (ncols input_df) idx)
    as [[| c0 [| c1 [| c2 [| c3 [| c4 [| c5 l]]]]]] | e]; reflexivity.
Qed.

Lemma qc_frame_selects (cols : list string) (input_df : DataFrame) :
  fst (qc_frame cols input_df) =
    match select_positions cols (ncols input_df) with
    | Ok [c0; c1; c2; c3] =>
        derived QC qc_derive (frame_kept (qc_select c0 c1 c2 c3) input_df)
    | Ok _ => Raised ValueError
    | Raised e => Raised e
    end.
Proof.
  unfold qc_frame, select_positions.
  destruct (resolve_columns cols) as [kc ev]. simpl.
  destruct (all_some kc) as [idx |]; [| reflexivity].
  destruct (iloc_columns (ncols input_df) idx)
    as [[| c0 [| c1 [| c2 [| c3 [| c4 l]]]]] | e]; reflexivity.
Qed.

Lemma final_frame_selects (cols : list string) (input_df : DataFrame) :
  fst (final_frame cols input_df) =
    match select_positions cols (ncols input_df) with
    | Ok [c0; c1; c2; c3; c4; c5] =>
        derived Final final_derive
          (frame_kept (final_select c0 c1 c2 c3 c4 c5) input_df)
    | Ok _ => Raised ValueError
    | Raised e => Raised e
    end.
Proof.
  unfold final_frame, select_positions.
  destruct (resolve_columns cols) as [kc ev]. simpl.
  destruct (all_some kc) as [idx |]; [| reflexivity].
  destruct (iloc_columns (ncols input_df) idx)
    as [[| c0 [| c1 [| c2 [| c3 [| c4 [| c5 [| c6 l]]]]]]] | e]; reflexivity.
Qed.

Lemma selectable_dec (n : nat) (cols : list string) :
  selectable n cols \/ ~ selectable n cols.
Proof.
  unfold selectable. induction cols as [| label cols IH].
  - left. constructor.
  - assert (Hl : (exists i, column_index label = Some i /\ in_frame n i)
                 \/ ~ (exists i, column_index label = Some i /\ in_frame n i)).
    { destruct (column_index label) as [i |].
      - destruct (Z_le_dec (- Z.of_nat n) i) as [H1 | H1];
          [destruct (Z_lt_dec i (Z.of_nat n)) as [H2 | H2] |].
        + left. exists i. unfold in_frame. auto.
        + right. intros [j [Ej Hj]]. inversion Ej; subst. unfold in_frame in Hj. lia.
        + right. intros [j [Ej Hj]]. inversion Ej; subst. unfold in_frame in Hj. lia.
      - right. intros [j [Ej _]]. discriminate. }
    destruct Hl as [Hl | Hl], IH as [IH | IH].
    + left. now constructor.
    + right. intros H. inversion_clear H. now apply IH.
    + right. intros H. inversion_clear H. now apply Hl.
    + right. intros H. inversion_clear H. now apply Hl.
Qed.

(** The date arithmetic of the derived columns raises on a frame: the frame
    has rows and the library raises on it. *)
Definition derive_fails (p : Process) (df : list Row) : Prop :=
  df <> [] /\ derive_raises p df <> None.

Lemma derived_raised_iff (p : Process) (derive : Row -> Row) (df : list Row) :
  (exists e, derived p derive df = Raised e) <-> derive_fails p df.
Proof.
  unfold derived, derive_fails. destruct df as [| r l]; cbn [nonempty].
  - split; [intros [e He]; discriminate | intros [H _]; congruence].
  - destruct (derive_raises p (r :: l)) as [e |]; split.
    + intros _. split; discriminate.
    + intros _. now exists e.
    + intros [e He]. discriminate.
    + intros [_ H]. congruence.
Qed.

(** X1.  The [try] of a process block raises in exactly two cases.  Either
    its labels cannot be selected as given: some label is no column label,
    or the position of a label is outside the table (positions from -ncols
    to ncols - 1 are inside, the negative ones counted from the end), or the
    number of labels is not the number of column names of the block (5 for
    Key, 4 for QC, 6 for Final).  Or the labels are selected, the frame has
    rows left after [dropna], and the date arithmetic of the derived columns
    raises on it. *)
Theorem block_raises_iff_not_selectable (input_df : DataFrame) (cols : list string) :
  (frame_raised (key_frame cols input_df)
   <-> ~ (selectable (ncols input_df) cols /\ List.length cols = 5%nat)
       \/ exists c0 c1 c2 c3 c4,
            select_positions cols (ncols input_df) = Ok [c0; c1; c2; c3; c4]
            /\ derive_fails Key (frame_kept (key_select c0 c1 c2 c3 c4) input_df))
  /\ (frame_raised (qc_frame cols input_df)
      <-> ~ (selectable (ncols input_df) cols /\ List.length cols = 4%nat)
          \/ exists c0 c1 c2 c3,
               select_positions cols (ncols input_df) = Ok [c0; c1; c2; c3]
               /\ derive_fails QC (frame_kept (qc_select c0 c1 c2 c3) input_df))
  /\ (frame_raised (final_frame cols input_df)
      <-> ~ (selectable (ncols input_df) cols /\ List.length cols = 6%nat)
          \/ exists c0 c1 c2 c3 c4 c5,
               select_positions cols (ncols input_df) = Ok [c0; c1; c2; c3; c4; c5]
               /\ derive_fails Final
                    (frame_kept (final_select c0 c1 c2 c3 c4 c5) input_df)).
Proof.
  unfold frame_raised.
  rewrite key_frame_selects, qc_frame_selects, final_frame_selects.
  destruct (select_positions_spec cols (ncols input_df)) as [Hok Hbad].
  destruct (selectable_dec (ncols input_df) cols) as [Hs | Hs].
  - destruct (Hok Hs) as [js (E & Hl & _)]. rewrite E. clear Hok Hbad.
    assert (Hmis : forall n : nat,
               List.length js <> n ->
               ~ (selectable (ncols input_df) cols /\ List.length cols = n)).
    { intros n Hn [_ Hlen]. apply Hn. congruence. }
    split; [| split].
    + destruct js as [| c0 [| c1 [| c2 [| c3 [| c4 [| c5 l]]]]]];
        try (split; [intros _; left; apply Hmis; discriminate
                    | intros _; now exists ValueError]).
      rewrite derived_raised_iff. split.
      * intros H. right. now exists c0, c1, c2, c3, c4.
      * intros [H | (d0 & d1 & d2 & d3 & d4 & Ed & H)].
        -- exfalso. apply H. split; [exact Hs | now rewrite <- Hl].
        -- now inversion Ed; subst.
    + destruct js as [| c0 [| c1 [| c2 [| c3 [| c4 l]]]]];
        try (split; [intros _; left; apply Hmis; discriminate
                    | intros _; now exists ValueError]).
      rewrite derived_raised_iff. split.
      * intros H. right. now exists c0, c1, c2, c3.
      * intros [H | (d0 & d1 & d2 & d3 & Ed & H)].
        -- exfalso. apply H. split; [exact Hs | now rewrite <- Hl].
        -- now inversion Ed; subst.
    + destruct js as [| c0 [| c1 [| c2 [| c3 [| c4 [| c5 [| c6 l]]]]]]];
        try (split; [intros _; left; apply Hmis; discriminate
                    | intros _; now exists ValueError]).
      rewrite derived_raised_iff. split.
      * intros H. right. now exists c0, c1, c2, c3, c4, c5.
      * intros [H | (d0 & d1 & d2 & d3 & d4 & d5 & Ed & H)].
        -- exfalso. apply H. split; [exact Hs | now rewrite <- Hl].
        -- now inversion Ed; subst.
  - destruct (Hbad Hs) as [e ->].
    repeat split; intros H; try (now exists e); left; intros [H' _]; now apply Hs.
Qed.

(** ** Invariants of the process tables *)

Lemma enumerate_indices (l : list (list Cell)) :
  forall s, map fst (combine (seq s (List.length l)) l) = seq s (List.length l).
Proof.
  induction l as [| x l IH]; intros s; simpl; [reflexivity | now rewrite IH].
Qed.

Lemma seq_increasing (n : nat) : forall s, StronglySorted lt (seq s n).
Proof.
  induction n as [| n IH]; intros s; simpl; constructor.
  - apply IH.
  - apply Forall_forall. intros x Hx. apply in_seq in Hx. lia.
Qed.

Lemma filter_increasing {A : Type} (key : A -> nat) (f : A -> bool) (l : list A) :
  StronglySorted lt (map key l) -> StronglySorted lt (map key (filter f l)).
Proof.
  induction l as [| a l IH]; simpl; intros H; [constructor |].
  inversion_clear H as [| ? ? Hl Ha]. destruct (f a); simpl; [| now apply IH].
  constructor; [now apply IH |].
  rewrite Forall_forall in *. intros x Hx. apply Ha.
  apply in_map_iff in Hx. destruct Hx as [y [<- Hy]]. apply filter_In in Hy.
  apply in_map. tauto.
Qed.

Lemma frame_of_indices (select : nat * list Cell -> Row) (derive : Row -> Row)
      (input_df : DataFrame) :
  (forall i r, row_index (select (i, r)) = i) ->
  (forall x, row_index (derive x) = row_index x) ->
  StronglySorted lt (map row_index (frame_of select derive input_df))
  /\ Forall (fun row => (row_index row < List.length (rows input_df))%nat)
            (frame_of select derive input_df).
Proof.
  intros Hs Hd. unfold frame_of, enumerate.
  assert (E : forall l : list (nat * list Cell),
             map row_index (map derive (filter has_required (map select l)))
             = map fst (filter (fun ir => has_required (select ir)) l)).
  { induction l as [| [i r] l IH]; simpl; [reflexivity |].
    destruct (has_required (select (i, r))); simpl; [| exact IH].
    now rewrite Hd, Hs, IH. }
  assert (Hsorted : StronglySorted lt
                      (map row_index
                         (map derive
                            (filter has_required
                               (map select
                                  (combine (seq 0 (List.length (rows input_df)))
                                           (rows input_df))))))).
  { rewrite E. apply filter_increasing. rewrite enumerate_indices. apply seq_increasing. }
  split; [exact Hsorted |].
  apply Forall_forall. intros row Hrow.
  assert (Hin : In (row_index row)
                   (map fst (filter (fun ir => has_required (select ir))
                                    (combine (seq 0 (List.length (rows input_df)))
                                             (rows input_df))))).
  { rewrite <- E. now apply in_map. }
  apply in_map_iff in Hin. destruct Hin as [[i r] [Ei Hin]]. simpl in Ei. subst i.
  apply filter_In in Hin. destruct Hin as [Hin _].
  apply (in_map fst) in Hin. rewrite enumerate_indices in Hin. simpl in Hin.
  apply in_seq in Hin. lia.
Qed.

(** What every row of a process table satisfies, and the order of the rows. *)
Definition table_invariant (p : Process) (input_df : DataFrame) (table : list Row)
  : Prop :=
  Forall (fun row => isna (Name row) = false /\ isna (TotalRec row) = false
                     /\ RowProcess row = p
                     /\ (row_index row < List.length (rows input_df))%nat) table
  /\ StronglySorted lt (map row_index table).

Lemma frame_rows_invariant (p : Process) (input_df : DataFrame)
      (select : nat * list Cell -> Row) (derive : Row -> Row) :
  (forall i r, row_index (select (i, r)) = i) ->
  (forall x, row_index (derive x) = row_index x) ->
  (forall x, Name (derive x) = Name x /\ TotalRec (derive x) = TotalRec x
             /\ RowProcess (derive x) = p) ->
  table_invariant p input_df (frame_of select derive input_df).
Proof.
  intros Hs Hd Hf. destruct (frame_of_indices select derive input_df Hs Hd) as [H1 H2].
  split; [| exact H1].
  rewrite Forall_forall in *. intros row Hrow.
  specialize (H2 row Hrow). unfold frame_of in Hrow.
  apply in_map_iff in Hrow. destruct Hrow as [x [<- Hx]].
  apply filter_In in Hx. destruct Hx as [_ Hreq].
  unfold has_required in Hreq. apply andb_true_iff in Hreq. destruct Hreq as [Hn Ht].
  apply negb_true_iff in Hn. apply negb_true_iff in Ht.
  destruct (Hf x) as (-> & -> & ->). repeat split; assumption.
Qed.

Lemma empty_table_invariant (p : Process) (input_df : DataFrame) :
  table_invariant p input_df [].
Proof. split; constructor. Qed.

(** X2.  Whatever the column labels and the table, each process table holds
    only rows whose name and Total Rec. are present, tagged with its own
    process; the rows come in the order of the raw table, each raw row at
    most once (the index labels increase strictly and are positions of the
    raw table). *)
Theorem process_tables_invariant (cols : Columns) (input_df : DataFrame) :
  table_invariant Key input_df (fst (process_key (cols_Key cols) input_df))
  /\ table_invariant QC input_df (fst (process_qc (cols_QC cols) input_df))
  /\ table_invariant Final input_df (fst (process_final (cols_Final cols) input_df)).
Proof.
  unfold process_key, process_qc, process_final. rewrite !caught_rows.
  unfold frame_rows.
  rewrite key_frame_selects, qc_frame_selects, final_frame_selects.
  split; [| split].
  - destruct (select_positions (cols_Key cols) (ncols input_df))
      as [[| c0 [| c1 [| c2 [| c3 [| c4 [| c5 l]]]]]] | e];
      try apply empty_table_invariant.
    destruct (derived_cases Key key_derive
                (frame_kept (key_select c0 c1 c2 c3 c4) input_df))
      as [-> | (_ & e & _ & ->)]; [| apply empty_table_invariant].
    apply frame_rows_invariant; intros; try reflexivity. now repeat split.
  - destruct (select_positions (cols_QC cols) (ncols input_df))
      as [[| c0 [| c1 [| c2 [| c3 [| c4 l]]]]] | e];
      try apply empty_table_invariant.
    destruct (derived_cases QC qc_derive
                (frame_kept (qc_select c0 c1 c2 c3) input_df))
      as [-> | (_ & e & _ & ->)]; [| apply empty_table_invariant].
    apply frame_rows_invariant; intros; try reflexivity. now repeat split.
  - destruct (select_positions (cols_Final cols) (ncols input_df))
      as [[| c0 [| c1 [| c2 [| c3 [| c4 [| c5 [| c6 l]]]]]]] | e];
      try apply empty_table_invariant.
    destruct (derived_cases Final final_derive
                (frame_kept (final_select c0 c1 c2 c3 c4 c5) input_df))
      as [-> | (_ & e & _ & ->)]; [| apply empty_table_invariant].
    apply frame_rows_invariant; intros; try reflexivity. now repeat split.
Qed.

(** X3.  With the columns of the tool the QC block and the Final block read
    Total Rec. from the same raw cell (column X): a QC row and a Final row
    that come from the same raw row have the same Total Rec. *)
Theorem qc_and_final_share_total (input_df : DataFrame) (a b : Row) :
  (29 <= ncols input_df)%nat ->
  In a (fst (process_qc (cols_QC default_columns) input_df)) ->
  In b (fst (process_final (cols_Final default_columns) input_df)) ->
  row_index a = row_index b ->
  TotalRec a = TotalRec b.
Proof.
  intros Hw Ha Hb E.
  unfold process_qc in Ha. unfold process_final in Hb.
  rewrite caught_rows in Ha, Hb. unfold frame_rows in Ha, Hb.
  rewrite (process_qc_default input_df) in Ha by lia.
  rewrite (process_final_default input_df Hw) in Hb.
  apply (derived_rows _ _ _ []) in Ha. apply (derived_rows _ _ _ []) in Hb.
  apply (frame_of_In (qc_select 20 21 22 23) qc_derive 20%nat 23%nat) in Ha; auto.
  apply (frame_of_In (final_select 23 24 25 26 27 28) final_derive 24%nat 23%nat) in Hb; auto.
  destruct Ha as (i & r & Hr & _ & _ & ->), Hb as (j & r' & Hr' & _ & _ & ->).
  simpl in E. subst j. rewrite Hr in Hr'. inversion Hr'; subst. reflexivity.
Qed.

(** ** The week of a record *)

Lemma week_start_bounds (t : Z) :
  Calendar.week_start t <= t < Calendar.week_start t + 7 * Calendar.ns_per_day
  /\ Calendar.week_start t mod Calendar.ns_per_day = 0
  /\ (Calendar.week_start t / Calendar.ns_per_day + 3) mod 7 = 0.
Proof.
  unfold Calendar.week_start.
  set (D := Calendar.ns_per_day). assert (HD : 0 < D) by (unfold D; reflexivity).
  set (day := t / D).
  pose proof (Z.div_mod t D ltac:(lia)) as Ht.
  pose proof (Z.mod_pos_bound t D HD) as Hm. fold day in Ht.
  pose proof (Z.mod_pos_bound (day + 3) 7 ltac:(lia)) as Hw.
  set (m := (day + 3) mod 7) in *.
  split; [| split].
  - nia.
  - apply Z.mod_mul. lia.
  - rewrite Z.div_mul by lia. unfold m.
    replace (day - (day + 3) mod 7 + 3) with ((day + 3) - (day + 3) mod 7) by lia.
    rewrite (Z.div_mod (day + 3) 7) at 1 by lia.
    replace (7 * ((day + 3) / 7) + (day + 3) mod 7 - (day + 3) mod 7)
      with (((day + 3) / 7) * 7) by lia.
    apply Z.mod_mul. lia.
Qed.

(** X4.  A row of a process table whose anchor date is present has a Week,
    which is the midnight that opens a Monday, not after the anchor and less
    than seven days before it.  The anchor is Indate for Key and QC and
    Shipment Date for Final. *)
Theorem week_is_monday_of_anchor (cols : Columns) (input_df : DataFrame) :
  let monday_of (t : Z) (week : DateTime) :=
    exists w, week = Some w
              /\ w <= t < w + 7 * Calendar.ns_per_day
              /\ w mod Calendar.ns_per_day = 0
              /\ (w / Calendar.ns_per_day + 3) mod 7 = 0 in
  (forall row t, In row (fst (process_key (cols_Key cols) input_df)) ->
                 Indate row = Some t -> monday_of t (Week row))
  /\ (forall row t, In row (fst (process_qc (cols_QC cols) input_df)) ->
                    Indate row = Some t -> monday_of t (Week row))
  /\ (forall row t, In row (fst (process_final (cols_Final cols) input_df)) ->
                    ShipmentDate row = Some t -> monday_of t (Week row)).
Proof.
  intros monday_of. unfold monday_of. split; [| split]; intros row t Hin Ht.
  - destruct (process_key_derived _ _ _ Hin) as [x [-> _]]. simpl in *.
    rewrite Ht. simpl. eexists. split; [reflexivity | apply week_start_bounds].
  - destruct (process_qc_derived _ _ _ Hin) as [x [-> _]]. simpl in *.
    rewrite Ht. simpl. eexists. split; [reflexivity | apply week_start_bounds].
  - destruct (process_final_derived _ _ _ Hin) as [x [-> _]]. simpl in *.
    rewrite Ht. simpl. eexists. split; [reflexivity | apply week_start_bounds].
Qed.

(** ** What a run reports *)

















(** ** Sums over groups *)

Lemma sum_Z_perm (l l' : list Z) : Permutation l l' -> sum_Z l = sum_Z l'.
Proof.
  induction 1; unfold sum_Z in *; simpl; lia.
Qed.

Section GroupSums.
Context {K : Type} (K_eq_dec : forall a b : K, {a = b} + {a <> b}).

Lemma group_of_cons (k k0 : K) (v0 : Z) (kvs : list (K * Z)) :
  sum_Z (group_of K_eq_dec k ((k0, v0) :: kvs))
  = (if K_eq_dec k0 k then v0 else 0) + sum_Z (group_of K_eq_dec k kvs).
Proof.
  unfold group_of. simpl. destruct (K_eq_dec k0 k); simpl; lia.
Qed.

Lemma sum_indicator (ks : list K) (k0 : K) (v0 : Z) :
  NoDup ks -> In k0 ks ->
  sum_Z (map (fun k => if K_eq_dec k0 k then v0 else 0) ks) = v0.
Proof.
  induction 1 as [| k ks Hk Hnd IH]; simpl; [contradiction |].
  intros [-> | Hin].
  - destruct (K_eq_dec k0 k0); [| congruence].
    assert (E : sum_Z (map (fun k => if K_eq_dec k0 k then v0 else 0) ks) = 0).
    { clear IH Hnd. induction ks as [| k ks IH]; simpl; [reflexivity |].
      destruct (K_eq_dec k0 k) as [<- | _]; [exfalso; apply Hk; now left |].
      rewrite IH; [reflexivity |]. intros H. apply Hk. now right. }
    rewrite E. lia.
  - destruct (K_eq_dec k0 k) as [<- | _]; [contradiction |].
    rewrite (IH Hin). lia.
Qed.

Lemma sum_Z_map_add {A : Type} (f g : A -> Z) (l : list A) :
  sum_Z (map (fun a => f a + g a) l) = sum_Z (map f l) + sum_Z (map g l).
Proof. induction l as [| a l IH]; simpl; [reflexivity | rewrite IH; lia]. Qed.

(** Summing the groups of all keys gives the sum of the whole column. *)
Lemma groups_sum (ks : list K) (kvs : list (K * Z)) :
  NoDup ks -> (forall kv, In kv kvs -> In (fst kv) ks) ->
  sum_Z (map (fun k => sum_Z (group_of K_eq_dec k kvs)) ks) = sum_Z (map snd kvs).
Proof.
  intros Hnd. induction kvs as [| [k0 v0] kvs IH]; intros Hin.
  - clear Hnd Hin. simpl. induction ks as [| k ks IHk]; simpl; [reflexivity |].
    unfold sum_Z in *. simpl. rewrite IHk. reflexivity.
  - rewrite (map_ext _ (fun k => (if K_eq_dec k0 k then v0 else 0)
                                  + sum_Z (group_of K_eq_dec k kvs)))
      by (intros k; apply group_of_cons).
    rewrite sum_Z_map_add, sum_indicator; [| exact Hnd | apply (Hin (k0, v0)); now left].
    rewrite IH by (intros kv H; apply Hin; now right). reflexivity.
Qed.

Lemma group_keys_sum (K_leb : K -> K -> bool) (kvs : list (K * Z)) :
  sum_Z (map (fun k => sum_Z (group_of K_eq_dec k kvs))
             (group_keys K_eq_dec K_leb (map fst kvs)))
  = sum_Z (map snd kvs).
Proof.
  apply groups_sum.
  - apply group_keys_NoDup.
  - intros kv H. apply group_keys_In. now apply in_map.
Qed.
End GroupSums.

(** ** Aggregator: totals are kept *)




(** ** Aggregator: the weekly and monthly personnel reports *)

(** The records of a table that fall in period [w] under the name [n]. *)
Definition records_of (period : Row -> DateTime) (df : list Row) (w : Z) (n : Cell)
  : list Row :=
  filter (fun r => match period r with
                   | Some w' =>
                       if period_name_eq_dec (w', Name r) (w, n) then true else false
                   | None => false
                   end) df.


(** The order of [sort_values([period, 'Total Rec.'], ascending=[True, False])]. *)
Definition period_then_total (a b : PeriodPersonnelRow) : Prop :=
  pp_Period a < pp_Period b
  \/ (pp_Period a = pp_Period b /\ pp_TotalRec b <= pp_TotalRec a).

Definition period_name_pairs (period : Row -> DateTime) (df : list Row)
  : list ((Z * Cell) * Z) :=
  flat_map (fun r =>
              match period r with
              | Some w =>
                  if isna (Name r) then []
                  else [((w, Name r), total_value (TotalRec r))]
              | None => []
              end) df.

Lemma period_personnel_unfold (period : Row -> DateTime) (p : Process) (df : list Row) :
  period_personnel period p df
  = map (fun k => {| pp_Period := fst k; pp_Name := snd k;
                     pp_TotalRec :=
                       sum_Z (group_of period_name_eq_dec k (period_name_pairs period df));
                     pp_Process := p |})
        (group_keys period_name_eq_dec period_name_leb
                    (map fst (period_name_pairs period df))).
Proof. reflexivity. Qed.

Lemma period_name_pairs_keys (period : Row -> DateTime) (df : list Row) (w : Z) (n : Cell) :
  In (w, n) (map fst (period_name_pairs period df))
  <-> exists r, In r df /\ period r = Some w /\ Name r = n /\ isna n = false.
Proof.
  unfold period_name_pairs. rewrite in_map_iff. split.
  - intros [[k v] [Ek Hin]]. simpl in Ek. subst k.
    apply in_flat_map in Hin. destruct Hin as [r [Hr Hin]].
    destruct (period r) as [w' |] eqn:Ew; [| contradiction].
    destruct (isna (Name r)) eqn:En; [contradiction |].
    destruct Hin as [Hin | []]. inversion Hin; subst. exists r. auto.
  - intros [r (Hr & Ew & En & Hn)]. exists ((w, n), total_value (TotalRec r)).
    split; [reflexivity |]. apply in_flat_map. exists r. split; [exact Hr |].
    rewrite Ew. subst n. rewrite Hn. now left.
Qed.

Lemma period_name_pairs_group (period : Row -> DateTime) (df : list Row) (w : Z) (n : Cell) :
  isna n = false ->
  group_of period_name_eq_dec (w, n) (period_name_pairs period df)
  = map row_total (records_of period df w n).
Proof.
  intros Hn. unfold group_of, period_name_pairs, records_of.
  induction df as [| r df IH]; [reflexivity |].
  cbn [flat_map filter]. rewrite filter_app, map_app, IH.
  destruct (period r) as [w' |]; [| reflexivity].
  destruct (isna (Name r)) eqn:En; cbn [filter map app fst snd].
  - destruct (period_name_eq_dec (w', Name r) (w, n)) as [E | _]; [| reflexivity].
    inversion E; subst. congruence.
  - destruct (period_name_eq_dec (w', Name r) (w, n)); reflexivity.
Qed.

Lemma period_name_pairs_sum (period : Row -> DateTime) (df : list Row) :
  sum_Z (map snd (period_name_pairs period df))
  = sum_Z (map row_total
             (filter (fun r => has_period period r && negb (isna (Name r))) df)).
Proof.
  unfold period_name_pairs, has_period.
  induction df as [| r df IH]; simpl; [reflexivity |].
  destruct (period r); simpl; [| exact IH].
  destruct (isna (Name r)); simpl; [exact IH |].
  unfold sum_Z in *. simpl. now rewrite IH.
Qed.

Lemma period_total_leb_sorted (l : list PeriodPersonnelRow) :
  StronglySorted period_then_total (sort_by period_total_leb l).
Proof.
  apply sort_by_sorted; unfold period_total_leb, period_then_total.
  - intros a b H. apply orb_true_iff in H. destruct H as [H | H].
    + apply Z.ltb_lt in H. now left.
    + apply andb_true_iff in H. destruct H as [H1 H2].
      apply Z.eqb_eq in H1. apply Z.leb_le in H2. now right.
  - intros a b H. apply orb_false_iff in H. destruct H as [H1 H2].
    apply Z.ltb_ge in H1. apply andb_false_iff in H2.
    destruct H2 as [H2 | H2]; [apply Z.eqb_neq in H2 | apply Z.leb_gt in H2]; lia.
  - intros a b c. lia.
Qed.

(** The groups of one table of numbers. *)
Lemma period_personnel_rows (period : Row -> DateTime) (p : Process) (df : list Row) :
  NoDup (map (fun row => (pp_Period row, pp_Name row)) (period_personnel period p df))
  /\ (forall row, In row (period_personnel period p df) ->
        pp_Process row = p
        /\ isna (pp_Name row) = false
        /\ records_of period df (pp_Period row) (pp_Name row) <> []
        /\ pp_TotalRec row
           = sum_Z (map row_total
                      (records_of period df (pp_Period row) (pp_Name row))))
  /\ (forall r w, In r df -> period r = Some w -> isna (Name r) = false ->
        exists row, In row (period_personnel period p df)
                    /\ pp_Period row = w /\ pp_Name row = Name r).
Proof.
  rewrite period_personnel_unfold. split; [| split].
  - rewrite map_map. cbn [pp_Period pp_Name].
    rewrite (map_ext _ (fun k => k)) by (now intros [a b]).
    rewrite map_id. apply group_keys_NoDup.
  - intros row Hrow. apply in_map_iff in Hrow. destruct Hrow as [[w n] [<- Hk]].
    cbn [pp_Period pp_Name pp_Process pp_TotalRec fst snd].
    apply group_keys_In in Hk. apply period_name_pairs_keys in Hk.
    destruct Hk as [r (Hr & Ew & En & Hn)].
    split; [reflexivity |]. split; [exact Hn |]. split.
    + assert (Hin : In r (records_of period df w n)).
      { unfold records_of. apply filter_In. split; [exact Hr |]. rewrite Ew, En.
        now destruct (period_name_eq_dec (w, n) (w, n)). }
      intros E. rewrite E in Hin. contradiction.
    + now rewrite period_name_pairs_group.
  - intros r w Hr Ew Hn.
    exists {| pp_Period := w; pp_Name := Name r;
              pp_TotalRec := sum_Z (group_of period_name_eq_dec (w, Name r)
                                      (period_name_pairs period df));
              pp_Process := p |}.
    split; [| split; reflexivity].
    apply in_map_iff. exists (w, Name r). split; [reflexivity |].
    apply group_keys_In. apply period_name_pairs_keys. exists r. auto.
Qed.

(** The table of a process in the results. *)
Definition table_of (res : Results) (p : Process) : list Row :=
  match p with
  | Key => res_Key res
  | QC => res_QC res
  | Final => res_Final res
  end.

Definition group_key (row : PeriodPersonnelRow) : Z * Cell * Process :=
  (pp_Period row, pp_Name row, pp_Process row).

(** What a weekly (or monthly) personnel report holds, given the period of
    a record. *)
Definition period_groups (period : Row -> DateTime) (res : Results)
           (rep : list PeriodPersonnelRow) : Prop :=
  StronglySorted period_then_total rep
  /\ NoDup (map group_key rep)
  /\ (forall row, In row rep ->
        let records := records_of period (table_of res (pp_Process row))
                                  (pp_Period row) (pp_Name row) in
        records <> [] /\ pp_TotalRec row = sum_Z (map row_total records))
  /\ (forall p r w, In r (table_of res p) -> period r = Some w ->
        exists row, In row rep /\ group_key row = (w, Name r, p)).

Lemma group_key_NoDup (period : Row -> DateTime) (key_df qc_df final_df : list Row) :
  NoDup (map group_key
           (period_personnel period Key key_df ++ period_personnel period QC qc_df
              ++ period_personnel period Final final_df)).
Proof.
  assert (Hpart : forall p df,
             NoDup (map group_key (period_personnel period p df))
             /\ Forall (fun k => snd k = p)
                       (map group_key (period_personnel period p df))).
  { intros p df. destruct (period_personnel_rows period p df) as (Hnd & Hrows & _).
    split.
    - apply NoDup_map_inj_in.
      + intros x y Hx Hy E. unfold group_key in E. inversion E as [[E1 E2 E3]].
        assert (Hxy : (pp_Period x, pp_Name x) = (pp_Period y, pp_Name y)) by congruence.
        clear E E1 E2 E3. revert x y Hx Hy Hxy.
        rewrite period_personnel_unfold.
        intros x y Hx Hy Hxy. apply in_map_iff in Hx. apply in_map_iff in Hy.
        destruct Hx as [[w n] [<- _]], Hy as [[w' n'] [<- _]].
        cbn [pp_Period pp_Name fst snd] in Hxy. now inversion Hxy.
      + rewrite period_personnel_unfold. apply NoDup_map_inj_in.
        * intros [w n] [w' n'] _ _ E. now inversion E.
        * apply group_keys_NoDup.
    - apply Forall_map. apply Forall_forall. intros row Hrow.
      destruct (Hrows row Hrow) as [Hp _]. exact Hp. }
  destruct (Hpart Key key_df) as [Nk Fk], (Hpart QC qc_df) as [Nq Fq],
           (Hpart Final final_df) as [Nf Ff].
  rewrite !map_app. rewrite Forall_forall in Fk, Fq, Ff.
  apply NoDup_app; [exact Nk | apply NoDup_app; [exact Nq | exact Nf |] |].
  - intros k Hq Hf'. specialize (Fq k Hq). specialize (Ff k Hf'). congruence.
  - intros k Hk Hqf. specialize (Fk k Hk). apply in_app_iff in Hqf.
    destruct Hqf as [H | H]; [specialize (Fq k H) | specialize (Ff k H)]; congruence.
Qed.

Lemma period_personnel_report_groups (period : Row -> DateTime) (res : Results) :
  Forall (fun r => isna (Name r) = false)
         (res_Key res ++ res_QC res ++ res_Final res) ->
  period_groups period res
    (period_personnel_report period (res_Key res) (res_QC res) (res_Final res)).
Proof.
  intros Hnamed. unfold period_personnel_report.
  set (parts := period_personnel period Key (res_Key res)
                  ++ period_personnel period QC (res_QC res)
                  ++ period_personnel period Final (res_Final res)).
  pose proof (sort_by_perm period_total_leb parts) as HP.
  assert (Hin : forall row, In row parts ->
                  In row (period_personnel period (pp_Process row)
                                           (table_of res (pp_Process row)))).
  { intros row Hrow. unfold parts in Hrow. rewrite !in_app_iff in Hrow.
    destruct Hrow as [H | [H | H]].
    - destruct (period_personnel_rows period Key (res_Key res)) as (_ & Hr & _).
      destruct (Hr row H) as [-> _]. exact H.
    - destruct (period_personnel_rows period QC (res_QC res)) as (_ & Hr & _).
      destruct (Hr row H) as [-> _]. exact H.
    - destruct (period_personnel_rows period Final (res_Final res)) as (_ & Hr & _).
      destruct (Hr row H) as [-> _]. exact H. }
  split; [apply period_total_leb_sorted |]. split; [| split].
  - apply (Permutation_NoDup (Permutation_sym (Permutation_map group_key HP))).
    apply group_key_NoDup.
  - intros row Hrow. apply (Permutation_in _ HP) in Hrow. apply Hin in Hrow.
    destruct (period_personnel_rows period (pp_Process row)
                (table_of res (pp_Process row))) as (_ & Hr & _).
    destruct (Hr row Hrow) as (_ & _ & H1 & H2). now split.
  - intros p r w Hr Ew.
    assert (Hn : isna (Name r) = false).
    { rewrite Forall_forall in Hnamed. apply Hnamed.
      rewrite !in_app_iff. destruct p; simpl in Hr; tauto. }
    destruct (period_personnel_rows period p (table_of res p)) as (_ & Hrows & Hex).
    destruct (Hex r w Hr Ew Hn) as (row & Hrow & E1 & E2).
    exists row. split.
    + apply (Permutation_in _ (Permutation_sym HP)). unfold parts.
      rewrite !in_app_iff. destruct p; simpl in Hrow; tauto.
    + destruct (Hrows row Hrow) as [E3 _]. unfold group_key. congruence.
Qed.

(** X7.  When the Total Rec. of the records of a run are numbers, the
    absolute values of which add up to less than 2^53, the weekly and the
    monthly personnel report list the (period, name) groups of the three
    tables, each tagged with its process and none twice, by ascending period
    and, within a period, descending total; the total of a group is the sum
    of Total Rec. over its records, and every record that has a period is in
    a group. *)
Theorem period_personnel_report_sorted
        (cols : Columns) (input_df : DataFrame) (res : Results) (ev : list Event) :
  process_input_data_with cols input_df = (Some res, ev) ->
  let tables := res_Key res ++ res_QC res ++ res_Final res in
  tables <> [] ->
  numeric_table tables = true ->
  magnitude tables < 2 ^ 53 ->
  exists weekly monthly : list PeriodPersonnelRow,
    res_PersonnelWeekly res = Some weekly
    /\ res_PersonnelMonthly res = Some monthly
    /\ period_groups Week res weekly
    /\ period_groups Month res monthly.
Proof.
  intros E tables Hne Hn Hb.
  pose proof (process_tables_named cols input_df res ev E) as Hnamed.
  destruct (process_input_data_aggregates cols input_df res ev E)
    as (_ & _ & _ & _ & ev' & Ea & _).
  destruct (aggregate_tables_exact _ _ _ res ev' Ea Hne Hn Hb) as (_ & Hw & Hm & _).
  eexists. eexists. split; [exact Hw |]. split; [exact Hm |].
  split; now apply period_personnel_report_groups.
Qed.

Lemma period_personnel_report_total (period : Row -> DateTime)
      (key_df qc_df final_df : list Row) :
  sum_Z (map pp_TotalRec (period_personnel_report period key_df qc_df final_df))
  = sum_Z (map row_total
             (filter (fun r => has_period period r && negb (isna (Name r)))
                     (key_df ++ qc_df ++ final_df))).
Proof.
  unfold period_personnel_report.
  rewrite (sum_Z_perm _ _ (Permutation_map pp_TotalRec (sort_by_perm period_total_leb _))).
  rewrite !filter_app, !map_app, !sum_Z_app.
  assert (H : forall p df,
             sum_Z (map pp_TotalRec (period_personnel period p df))
             = sum_Z (map row_total
                        (filter (fun r => has_period period r && negb (isna (Name r))) df))).
  { intros p df. rewrite period_personnel_unfold, map_map. cbn [pp_TotalRec].
    rewrite group_keys_sum. apply period_name_pairs_sum. }
  now rewrite !H.
Qed.

(** X8.  When the Total Rec. of the records of a run are numbers, the
    absolute values of which add up to less than 2^53, the totals of the
    weekly personnel report add up to the Total Rec. of the records of the
    three tables that have a Week, and those of the monthly report to the
    Total Rec. of the records that have a Month. *)
Theorem period_personnel_report_keeps_total
        (cols : Columns) (input_df : DataFrame) (res : Results) (ev : list Event) :
  process_input_data_with cols input_df = (Some res, ev) ->
  let tables := res_Key res ++ res_QC res ++ res_Final res in
  tables <> [] ->
  numeric_table tables = true ->
  magnitude tables < 2 ^ 53 ->
  exists weekly monthly : list PeriodPersonnelRow,
    res_PersonnelWeekly res = Some weekly
    /\ res_PersonnelMonthly res = Some monthly
    /\ sum_Z (map pp_TotalRec weekly)
       = sum_Z (map row_total (with_period Week tables))
    /\ sum_Z (map pp_TotalRec monthly)
       = sum_Z (map row_total (with_period Month tables)).
Proof.
  intros E tables Hne Hn Hb.
  pose proof (process_tables_named cols input_df res ev E) as Hnamed.
  destruct (process_input_data_aggregates cols input_df res ev E)
    as (_ & _ & _ & _ & ev' & Ea & _).
  destruct (aggregate_tables_exact _ _ _ res ev' Ea Hne Hn Hb) as (_ & Hw & Hm & _).
  assert (Hf : forall period,
             filter (fun r => has_period period r && negb (isna (Name r))) tables
             = with_period period tables).
  { intros period. unfold with_period. apply filter_ext_in. intros r Hr.
    rewrite Forall_forall in Hnamed. rewrite (Hnamed r Hr). apply andb_true_r. }
  eexists. eexists. split; [exact Hw |]. split; [exact Hm |].
  rewrite !period_personnel_report_total. fold tables. now rewrite !Hf.
Qed.

(** ** Aggregator: the values of the process reports *)

(** The records of process [p] that fall in period [w]. *)
Definition process_records (period : Row -> DateTime) (df : list Row)
           (w : Z) (p : Process) : list Row :=
  filter (fun r => match period r with
                   | Some w' =>
                       if period_process_eq_dec (w', RowProcess r) (w, p)
                       then true else false
                   | None => false
                   end) df.

Definition period_process_pairs (period : Row -> DateTime) (df : list Row)
  : list ((Z * Process) * Row) :=
  flat_map (fun r =>
              match period r with
              | Some w => [((w, RowProcess r), r)]
              | None => []
              end) df.

Definition stat_matches (w : Z) (p : Process) (s : PeriodStat) : bool :=
  (ps_Period s =? w) && (if Process_eq_dec (ps_Process s) p then true else false).

Lemma period_process_pairs_group (period : Row -> DateTime) (df : list Row)
      (w : Z) (p : Process) :
  group_of period_process_eq_dec (w, p) (period_process_pairs period df)
  = process_records period df w p.
Proof.
  unfold group_of, period_process_pairs, process_records.
  induction df as [| r df IH]; [reflexivity |].
  cbn [flat_map filter]. rewrite filter_app, map_app, IH.
  destruct (period r) as [w' |]; [| reflexivity].
  cbn [filter map app fst snd].
  destruct (period_process_eq_dec (w', RowProcess r) (w, p)); reflexivity.
Qed.

Lemma filter_key_NoDup {K : Type} (dec : forall a b : K, {a = b} + {a <> b})
      (f : K -> bool) (k0 : K) (ks : list K) :
  NoDup ks -> (forall k, f k = true <-> k = k0) ->
  filter f ks = if in_dec dec k0 ks then [k0] else [].
Proof.
  intros Hnd Hf. induction Hnd as [| k ks Hk Hnd IH]; simpl; [reflexivity |].
  destruct (f k) eqn:E.
  - apply Hf in E. subst k. destruct (dec k0 k0); [| congruence].
    rewrite IH. destruct (in_dec dec k0 ks); [contradiction | reflexivity].
  - rewrite IH. destruct (dec k k0) as [-> | Hne].
    + assert (f k0 = true) by (now apply Hf). congruence.
    + destruct (in_dec dec k0 ks); reflexivity.
Qed.

(** The summed records of the statistics of a table that match a period and
    a process are the summed records of that period and process. *)
Lemma period_stats_total (period : Row -> DateTime) (df : list Row) (w : Z) (p : Process) :
  sum_Z (map ps_TotalRec (filter (stat_matches w p) (period_stats period df)))
  = sum_Z (map row_total (process_records period df w p)).
Proof.
  unfold period_stats. fold (period_process_pairs period df).
  set (ks := group_keys period_process_eq_dec period_process_leb
                        (map fst (period_process_pairs period df))).
  set (mk := fun k : Z * Process =>
               {| ps_Period := fst k; ps_Process := snd k;
                  ps_TotalRec :=
                    sum_Z (map (fun r => total_value (TotalRec r))
                               (group_of period_process_eq_dec k
                                         (period_process_pairs period df)));
                  ps_Days :=
                    days_mean (present_days
                            (map ProcessingDays
                                 (group_of period_process_eq_dec k
                                           (period_process_pairs period df)))) |}).
  assert (E : filter (stat_matches w p) (map mk ks)
              = map mk (filter (fun k => stat_matches w p (mk k)) ks)).
  { clear. induction ks as [| k ks IH]; simpl; [reflexivity |].
    destruct (stat_matches w p (mk k)); simpl; now rewrite IH. }
  rewrite E.
  rewrite (filter_key_NoDup period_process_eq_dec _ (w, p) ks).
  - destruct (in_dec period_process_eq_dec (w, p) ks) as [Hin | Hnin].
    + cbn [map]. unfold mk at 1. cbn [ps_TotalRec].
      rewrite period_process_pairs_group. unfold sum_Z at 1. simpl. fold sum_Z.
      unfold row_total. lia.
    + cbn [map]. assert (Hnone : process_records period df w p = []).
      { destruct (process_records period df w p) as [| r l] eqn:Er; [reflexivity |].
        exfalso. apply Hnin. unfold ks. apply group_keys_In.
        assert (Hr : In r (process_records period df w p)) by (rewrite Er; now left).
        unfold process_records in Hr. apply filter_In in Hr. destruct Hr as [Hr Hm].
        destruct (period r) as [w' |] eqn:Ew; [| discriminate].
        destruct (period_process_eq_dec (w', RowProcess r) (w, p)) as [Ek | _];
          [| discriminate].
        apply in_map_iff. exists ((w, p), r). split; [reflexivity |].
        unfold period_process_pairs. apply in_flat_map. exists r. split; [exact Hr |].
        rewrite Ew. inversion Ek; subst. now left. }
      now rewrite Hnone.
  - apply group_keys_NoDup.
  - intros [w' p']. unfold stat_matches, mk. cbn [ps_Period ps_Process fst snd].
    split.
    + intros H. apply andb_true_iff in H. destruct H as [H1 H2].
      apply Z.eqb_eq in H1. destruct (Process_eq_dec p' p); [| discriminate]. congruence.
    + intros H. inversion H; subst. rewrite Z.eqb_refl.
      now destruct (Process_eq_dec p p).
Qed.

Lemma sum_Q_inject (zs : list Z) :
  Qeq (sum_Q (map inject_Z zs)) (inject_Z (sum_Z zs)).
Proof.
  induction zs as [| z zs IH]; [reflexivity |].
  cbn [map]. unfold sum_Q at 1. cbn [fold_right]. fold (sum_Q (map inject_Z zs)).
  etransitivity; [apply Qred_correct |].
  rewrite IH. change (sum_Z (z :: zs)) with (z + sum_Z zs).
  rewrite inject_Z_plus. reflexivity.
Qed.

Lemma pivot_cell_total (stats : list PeriodStat) (w : Z) (p : Process) :
  Qeq (pivot_cell stats w MTotalRec p)
      (inject_Z (sum_Z (map ps_TotalRec (filter (stat_matches w p) stats)))).
Proof.
  unfold pivot_cell. fold (stat_matches w p).
  change (fun s : PeriodStat =>
            (ps_Period s =? w) && (if Process_eq_dec (ps_Process s) p then true else false))
    with (stat_matches w p).
  destruct (filter (stat_matches w p) stats) as [| s l] eqn:E; [reflexivity |].
  rewrite <- sum_Q_inject, map_map. reflexivity.
Qed.

Lemma report_value_cell (label : string) (stats : list PeriodStat)
      (w : Z) (m : Metric) (p : Process) :
  In w (map ps_Period stats) -> In p (map ps_Process stats) ->
  report_value (pivot_table label stats) w (column_title m p)
  = Some (pivot_cell stats w m p).
Proof.
  intros Hw Hp. unfold report_value, pivot_table. cbn [report_rows value_columns].
  rewrite (find_period_row _ _ w) by (now apply group_keys_In). cbn [snd].
  rewrite (lookup_column_map (fun mp => pivot_cell stats w (fst mp) (snd mp)) _ m p).
  - reflexivity.
  - apply pivot_columns_In. now apply group_keys_In.
Qed.

(** On tables of numbers whose sums are exact each aggregation of the loop
    succeeds, and the report of tables that have a record with a period is
    the pivot of the tables of numbers. *)
Lemma aggregate_exact (what : string) (period : Row -> DateTime) (p : Process)
      (df : list Row) :
  numeric_table df = true -> magnitude df < 2 ^ 53 ->
  aggregate what period p df
  = (if nonempty df then Some (period_stats period df) else None, []).
Proof.
  intros Hn Hb. unfold aggregate. rewrite (period_stats_sums_exact period p df Hn Hb).
  now destruct (nonempty df).
Qed.

Lemma entry_exact (period : Row -> DateTime) (df : list Row) :
  entry (if nonempty df then Some (period_stats period df) else None)
  = period_stats period df.
Proof. now destruct df. Qed.

Lemma has_entry_exact (period : Row -> DateTime) (df : list Row) :
  has_entry (if nonempty df then Some (period_stats period df) else None)
  = nonempty df.
Proof. now destruct df. Qed.

Lemma period_stats_dated (period : Row -> DateTime) (df : list Row) (r : Row) :
  In r df -> period r <> NaT -> period_stats period df <> [].
Proof.
  intros Hr Hp E. destruct (period r) as [w |] eqn:Ew; [| now apply Hp].
  assert (H : In (w, RowProcess r) (map stat_key (period_stats period df))).
  { apply period_stats_keys. exists r. auto. }
  rewrite E in H. contradiction.
Qed.

Lemma period_report_try_dated (what block label : string) (period : Row -> DateTime)
      (key_df qc_df final_df : list Row) :
  numeric_table (key_df ++ qc_df ++ final_df) = true ->
  magnitude (key_df ++ qc_df ++ final_df) < 2 ^ 53 ->
  (exists r, In r (key_df ++ qc_df ++ final_df) /\ period r <> NaT) ->
  period_report_try what block label period key_df qc_df final_df
  = (Some (period_report label period key_df qc_df final_df), []).
Proof.
  intros Hn Hb [r [Hr Hp]].
  destruct (tables_exact _ _ _ Hn Hb) as ((Hk & Bk) & (Hq & Bq) & (Hf & Bf)).
  unfold period_report_try. rewrite !aggregate_exact by assumption.
  assert (Hstats : nonempty (period_stats period key_df ++ period_stats period qc_df
                               ++ period_stats period final_df) = true).
  { apply nonempty_true. intros E. apply app_eq_nil in E. destruct E as [E1 E].
    apply app_eq_nil in E. destruct E as [E2 E3]. rewrite !in_app_iff in Hr.
    destruct Hr as [H | [H | H]];
      eapply period_stats_dated; try exact H; eassumption. }
  assert (Hraises : pivot_raises block (key_df ++ qc_df ++ final_df)
                      (period_stats period key_df ++ period_stats period qc_df
                         ++ period_stats period final_df) = None).
  { unfold pivot_raises, block_raises. now rewrite Hstats, Hn. }
  cbv beta iota. rewrite !entry_exact, !has_entry_exact, Hraises.
  assert (Hne : nonempty key_df || nonempty qc_df || nonempty final_df = true).
  { rewrite <- orb_assoc, <- !nonempty_app. apply nonempty_true.
    intros E. rewrite E in Hr. contradiction. }
  now rewrite Hne.
Qed.

Lemma period_report_total (label : string) (period : Row -> DateTime)
      (key_df qc_df final_df : list Row) (w : Z) (p : Process) :
  (exists p', has_data (key_df ++ qc_df ++ final_df) period w p') ->
  (exists w', has_data (key_df ++ qc_df ++ final_df) period w' p) ->
  exists v : Q,
    report_value (period_report label period key_df qc_df final_df) w
                 (column_title MTotalRec p) = Some v
    /\ Qeq v (inject_Z (sum_Z (map row_total
                                   (process_records period
                                      (key_df ++ qc_df ++ final_df) w p)))).
Proof.
  intros [p' Hw] [w' Hp]. unfold period_report.
  set (stats := period_stats period key_df ++ period_stats period qc_df
                  ++ period_stats period final_df).
  assert (Hkeys : forall w p, has_data (key_df ++ qc_df ++ final_df) period w p ->
                              In (w, p) (map stat_key stats)).
  { intros w0 p0 [r (Hr & Ew & Ep)]. unfold stats. rewrite !map_app, !in_app_iff.
    rewrite !period_stats_keys. unfold has_data. rewrite !in_app_iff in Hr.
    destruct Hr as [Hr | [Hr | Hr]]; [left | right; left | right; right]; exists r; auto. }
  assert (Hin_w : In w (map ps_Period stats)).
  { apply Hkeys in Hw. apply in_map_iff in Hw. destruct Hw as [s [E Hs]].
    apply in_map_iff. exists s. inversion E. auto. }
  assert (Hin_p : In p (map ps_Process stats)).
  { apply Hkeys in Hp. apply in_map_iff in Hp. destruct Hp as [s [E Hs]].
    apply in_map_iff. exists s. inversion E. auto. }
  exists (pivot_cell stats w MTotalRec p).
  split; [now apply report_value_cell |].
  rewrite pivot_cell_total. unfold stats, process_records.
  rewrite !filter_app, !map_app, !sum_Z_app.
  rewrite !period_stats_total. unfold process_records. reflexivity.
Qed.

(** X9.  When the Total Rec. of the three process tables are numbers, the
    absolute values of which add up to less than 2^53, the weekly (or
    monthly) process report is there without a warning as soon as a record
    has a period, and its Total Rec. value of a process in a period is the
    sum of Total Rec. over the records of that process in that period, for
    every period of the report and every process that has columns. *)
Theorem period_report_total_is_sum (what block label : string)
        (period : Row -> DateTime) (key_df qc_df final_df : list Row)
        (w : Z) (p : Process) :
  let tables := key_df ++ qc_df ++ final_df in
  numeric_table tables = true ->
  magnitude tables < 2 ^ 53 ->
  (exists p', has_data tables period w p') ->
  (exists w', has_data tables period w' p) ->
  exists (rep : PeriodReport) (v : Q),
    period_report_try what block label period key_df qc_df final_df = (Some rep, [])
    /\ report_value rep w (column_title MTotalRec p) = Some v
    /\ Qeq v (inject_Z (sum_Z (map row_total (process_records period tables w p)))).
Proof.
  intros tables Hn Hb Hw Hp.
  destruct (period_report_total label period key_df qc_df final_df w p Hw Hp)
    as (v & Hv & Hq).
  exists (period_report label period key_df qc_df final_df), v.
  split; [| now split].
  apply period_report_try_dated; try assumption.
  destruct Hw as [p' [r (Hr & Ew & _)]]. exists r. split; [exact Hr |].
  rewrite Ew. discriminate.
Qed.

(** * Charts

    [add_production_chart], [add_personnel_chart] and
    [add_personnel_trend_chart], with the worksheet as a [Sheet]: a chart is
    its type, titles, the two cell ranges it reads and the cell it is
    anchored at.  Each function ends in [except Exception], which prints a
    warning; what the function added to the worksheet before the exception
    stays there. *)

(** [Reference(ws, min_col, min_row, max_col, max_row)]; a bound that is not
    given is the lower one. *)
Record Reference : Type := {
  ref_min_col : Z;
  ref_max_col : Z;
  ref_min_row : Z;
  ref_max_row : Z
}.

Record Chart : Type := {
  chart_type : string;
  chart_title : string;
  x_axis_title : string;
  y_axis_title : string;
  chart_data : Reference;
  titles_from_data : bool;
  chart_cats : Reference;
  anchor_column : string;
  anchor_row : Z
}.

(** [ws.max_row]: the header row and the data rows. *)
Definition ws_max_row (ws : Sheet) : Z := 1 + Z.of_nat (List.length (body ws)).

(** [sub in s] *)
Fixpoint contains (sub s : string) : bool :=
  String.prefix sub s
  || match s with
     | EmptyString => false
     | String _ rest => contains sub rest
     end.

Definition add_production_chart (ws : Sheet) (df : PeriodReport) (report_type : string)
  : option Chart :=
  if nonempty (report_rows df) then
    let record_cols := filter (contains "Total Rec") (value_columns df) in
    if nonempty record_cols then
      let data_start_col := 2 in
      let data_end_col := Z.of_nat (List.length record_cols) + 1 in
      Some {| chart_type := "col";
              chart_title := (report_type ++ " Production Volume")%string;
              x_axis_title := report_type;
              y_axis_title := "Records";
              chart_data := {| ref_min_col := data_start_col;
                               ref_max_col := data_end_col;
                               ref_min_row := 1;
                               ref_max_row := ws_max_row ws |};
              titles_from_data := true;
              chart_cats := {| ref_min_col := 1; ref_max_col := 1;
                               ref_min_row := 2;
                               ref_max_row := ws_max_row ws |};
              anchor_column := "H";
              anchor_row := ws_max_row ws + 2 |}
    else None
  else None.

Definition add_personnel_chart (ws : Sheet) (df : list PersonnelReportRow)
  : option Chart :=
  if nonempty df then
    let top_count := Z.min 15 (Z.of_nat (List.length df)) in
    Some {| chart_type := "bar";
            chart_title := "Top Performers by Total Records";
            x_axis_title := "Records";
            y_axis_title := "Personnel";
            chart_data := {| ref_min_col := 4; ref_max_col := 4;
                             ref_min_row := 2; ref_max_row := top_count + 1 |};
            titles_from_data := false;
            chart_cats := {| ref_min_col := 2; ref_max_col := 2;
                             ref_min_row := 2; ref_max_row := top_count + 1 |};
            anchor_column := "F";
            anchor_row := 2 |}
  else None.

Definition lower_char (c : ascii) : ascii :=
  if isupper c then ascii_of_N (N_of_ascii c + 32) else c.

(** [s.lower()] *)
Definition lower (s : string) : string :=
  string_of_list_ascii (map lower_char (chars s)).

(** [df.groupby('Name')['Total Rec.'].sum()], with the sums of the
    library. *)
Definition name_totals (period_type : string) (df : list PeriodPersonnelRow)
  : list (Cell * Z) :=
  let keyed :=
    map (fun r => (pp_Name r, pp_TotalRec r))
        (filter (fun r => negb (isna (pp_Name r))) df) in
  map (fun n => (n, int_sum (AtTrend period_type) (group_of Cell_eq_dec n keyed)))
      (group_keys Cell_eq_dec cell_leb (map fst keyed)).

(** [.nlargest(n).index]: the names of the [n] largest totals, the first of
    equal totals kept. *)
Definition nlargest_names (n : nat) (totals : list (Cell * Z)) : list Cell :=
  map fst (firstn n (sort_by (fun a b => snd b <=? snd a) totals)).

(** [df['Name'].isin(names)] on one row. *)
Definition name_isin (names : list Cell) (c : Cell) : bool :=
  existsb (fun n => if Cell_eq_dec n c then true else false) names.

(** One value of [pivot_table(index=period, columns='Name',
    values='Total Rec.', aggfunc='sum').fillna(0)]. *)
Definition trend_cell (filtered : list PeriodPersonnelRow) (w : Z) (n : Cell) : Q :=
  inject_Z (sum_Z (map pp_TotalRec
                      (filter (fun r => (pp_Period r =? w)
                                        && (if Cell_eq_dec (pp_Name r) n
                                            then true else false))
                              filtered))).

(** The rows of [dataframe_to_rows(pivot_data.reset_index(), index=False,
    header=True)]. *)
Definition trend_rows (key : string) (filtered : list PeriodPersonnelRow)
  : list (list Value) :=
  let periods := group_keys Z.eq_dec Z.leb (map pp_Period filtered) in
  let names := group_keys Cell_eq_dec cell_leb (map pp_Name filtered) in
  (VText key :: map VCell names)
  :: map (fun w => VDate (Some w) :: map (fun n => VFloat (trend_cell filtered w n)) names)
         periods.

Definition trend_warning : Event := Printed "Warning: Error adding trend chart".

(** [df[df['Name'].isin(top_names)]]: the rows of the five names with the
    largest totals. *)
Definition top_rows (period_type : string) (df : list PeriodPersonnelRow)
  : list PeriodPersonnelRow :=
  filter (fun r => name_isin (nlargest_names 5 (name_totals period_type df)) (pp_Name r))
         df.

(** The pivot on a key that is no column of the table.  [pivot_table]
    groups by the list of the two keys, [period_type.lower()] and 'Name'.
    When the table has exactly two rows the library takes that list for the
    labels of the two rows, and groups by them; what comes out, as the rows
    that [dataframe_to_rows] yields after [fillna(0)] and [reset_index()],
    or as an exception, is the library's.  With any other number of rows the
    library looks the key up among the columns and raises [KeyError]. *)
Variable label_pivot : string -> list PeriodPersonnelRow -> result (list (list Value)).

Definition trend_pivot (period_column : string) (period_type : string)
           (filtered : list PeriodPersonnelRow) : result (list (list Value)) :=
  if String.eqb (lower period_type) period_column
  then Ok (trend_rows (lower period_type) filtered)
  else if (List.length filtered =? 2)%nat
       then label_pivot (lower period_type) filtered
       else Raised KeyError.

(** [add_personnel_trend_chart(ws, df, period_type)] on a table whose
    columns are [period_column], 'Name', 'Total Rec.' and 'Process'.
    Returns the worksheet, the chart added and what was printed. *)
Definition add_personnel_trend_chart (ws : Sheet) (period_column : string)
           (df : list PeriodPersonnelRow) (period_type : string)
  : Sheet * option Chart * list Event :=
  if nonempty df then
    let top_names := nlargest_names 5 (name_totals period_type df) in
    let filtered := top_rows period_type df in
    if nonempty filtered then
      match trend_pivot period_column period_type filtered with
      | Ok pivot_rows =>
          let start_row := ws_max_row ws + 1 in
          let ws' := {| title := title ws; header := header ws;
                        body := body ws ++ pivot_rows |} in
          (ws',
           Some {| chart_type := "col";
                   chart_title := ("Top Performers Trend (" ++ period_type ++ ")")%string;
                   x_axis_title := period_type;
                   y_axis_title := "Records";
                   chart_data := {| ref_min_col := 2;
                                    ref_max_col := Z.of_nat (List.length top_names) + 1;
                                    ref_min_row := start_row;
                                    ref_max_row := ws_max_row ws' |};
                   titles_from_data := true;
                   chart_cats := {| ref_min_col := 1; ref_max_col := 1;
                                    ref_min_row := start_row + 1;
                                    ref_max_row := ws_max_row ws' |};
                   anchor_column := "H";
                   anchor_row := ws_max_row ws' + 2 |},
           [])
      | Raised _ => (ws, None, [trend_warning])
      end
    else (ws, None, [])
  else (ws, None, []).

(** A worksheet of the workbook with the charts added to it. *)
Record Worksheet : Type := {
  ws_sheet : Sheet;
  ws_charts : list Chart
}.

Definition charts_of (c : option Chart) : list Chart :=
  match c with Some ch => [ch] | None => [] end.

Definition plain {A : Type} (df : option (list A)) (mk : list A -> Sheet)
  : list Worksheet :=
  map (fun ws => {| ws_sheet := ws; ws_charts := [] |}) (sheet_if df mk).

Definition charted_report (df : option PeriodReport) (report_type : string)
  : list Worksheet :=
  match df with
  | Some rep =>
      if nonempty (report_rows rep) then
        let ws := report_sheet report_type rep in
        [{| ws_sheet := ws;
            ws_charts := charts_of (add_production_chart ws rep report_type) |}]
      else []
  | None => []
  end.

Definition charted_personnel (df : option (list PersonnelReportRow)) : list Worksheet :=
  match df with
  | Some (r :: l) =>
      let ws := personnel_sheet (r :: l) in
      [{| ws_sheet := ws; ws_charts := charts_of (add_personnel_chart ws (r :: l)) |}]
  | _ => []
  end.

Definition charted_trend (df : option (list PeriodPersonnelRow))
           (sheet_title period_column fmt period_type : string)
  : list Worksheet * list Event :=
  match df with
  | Some (r :: l) =>
      let ws := period_personnel_sheet sheet_title period_column fmt (r :: l) in
      let '(ws', chart, ev) :=
        add_personnel_trend_chart ws period_column (r :: l) period_type in
      ([{| ws_sheet := ws'; ws_charts := charts_of chart |}], ev)
  | _ => ([], [])
  end.

(** The worksheets of [save_reports] with their charts, and what the chart
    functions print. *)
Definition save_reports_charts (processed_data : Results)
  : list Worksheet * list Event :=
  let (weekly, ev_weekly) :=
    charted_trend (res_PersonnelWeekly processed_data)
                  "Personnel Weekly" "Week" "%Y-%m-%d" "Weekly" in
  let (monthly, ev_monthly) :=
    charted_trend (res_PersonnelMonthly processed_data)
                  "Personnel Monthly" "Month" "%Y-%m" "Monthly" in
  (plain (Some (res_Key processed_data)) key_sheet
     ++ plain (Some (res_QC processed_data)) qc_sheet
     ++ plain (Some (res_Final processed_data)) final_sheet
     ++ charted_report (res_Weekly processed_data) "Weekly"
     ++ charted_report (res_Monthly processed_data) "Monthly"
     ++ charted_personnel (res_Personnel processed_data)
     ++ weekly ++ monthly,
   ev_weekly ++ ev_monthly).

(** ** The production chart *)

Lemma contains_total_rec (m : Metric) (p : Process) :
  contains "Total Rec" (column_title m p)
  = match m with MTotalRec => true | MProcessingDays => false end.
Proof. destruct m, p; reflexivity. Qed.

Definition pivot_columns (procs : list Process) : list (Metric * Process) :=
  map (pair MProcessingDays) procs ++ map (pair MTotalRec) procs.

Definition pivot_title (mp : Metric * Process) : string :=
  column_title (fst mp) (snd mp).

Lemma record_cols_count (procs : list Process) :
  List.length (filter (contains "Total Rec") (map pivot_title (pivot_columns procs)))
  = List.length procs.
Proof.
  unfold pivot_columns. rewrite map_app, filter_app, length_app.
  assert (H1 : filter (contains "Total Rec")
                 (map pivot_title (map (pair MProcessingDays) procs)) = []).
  { induction procs as [| p procs IH]; [reflexivity |].
    cbn [map filter].
    change (pivot_title (MProcessingDays, p)) with (column_title MProcessingDays p).
    rewrite contains_total_rec. exact IH. }
  assert (H2 : filter (contains "Total Rec")
                 (map pivot_title (map (pair MTotalRec) procs))
               = map pivot_title (map (pair MTotalRec) procs)).
  { clear H1. induction procs as [| p procs IH]; [reflexivity |].
    cbn [map filter].
    change (pivot_title (MTotalRec, p)) with (column_title MTotalRec p).
    rewrite contains_total_rec. now rewrite IH. }
  rewrite H1, H2, !length_map. reflexivity.
Qed.

Lemma pivot_title_position (procs : list Process) (j : nat) (t : string) :
  nth_error (map pivot_title (pivot_columns procs)) j = Some t ->
  ((j < List.length procs)%nat <-> exists p, t = column_title MProcessingDays p).
Proof.
  unfold pivot_columns. rewrite map_app. intros H.
  destruct (Nat.lt_ge_cases j (List.length procs)) as [Hlt | Hge].
  - split; [intros _ | auto].
    rewrite nth_error_app1 in H by (now rewrite !length_map).
    apply nth_error_In in H. apply in_map_iff in H. destruct H as [mp [<- Hmp]].
    apply in_map_iff in Hmp. destruct Hmp as [p [<- _]]. now exists p.
  - split; [lia |]. intros [p ->]. exfalso.
    rewrite nth_error_app2 in H by (now rewrite !length_map).
    apply nth_error_In in H. apply in_map_iff in H. destruct H as [mp [E Hmp]].
    apply in_map_iff in Hmp. destruct Hmp as [p' [<- _]].
    unfold pivot_title in E. simpl in E. apply column_title_inj in E. discriminate E.
Qed.

(** X10.  On the sheet of a weekly or monthly report that has rows, the
    production chart is there, and its series are read from the columns 2 to
    k + 1 of the sheet, k being the number of process columns per metric and
    the rows being the whole sheet: those are exactly the "Processing Days"
    columns, the "Total Rec." columns lying to their right, outside of the
    range.  Its categories are column 1 from row 2 down, and it is anchored
    two rows under the table in column H. *)
Theorem production_chart_columns (label : string) (stats : list PeriodStat)
        (report_type : string) :
  report_rows (pivot_table label stats) <> [] ->
  exists ch : Chart,
    add_production_chart (report_sheet report_type (pivot_table label stats))
                         (pivot_table label stats) report_type = Some ch
    /\ ref_min_col (chart_data ch) = 2
    /\ 2 * (ref_max_col (chart_data ch) - 1)
       = Z.of_nat (List.length (value_columns (pivot_table label stats)))
    /\ (forall (j : nat) (t : string),
          nth_error (value_columns (pivot_table label stats)) j = Some t ->
          (ref_min_col (chart_data ch) <= Z.of_nat j + 2 <= ref_max_col (chart_data ch)
           <-> exists p, t = column_title MProcessingDays p))
    /\ ref_min_row (chart_data ch) = 1
    /\ ref_max_row (chart_data ch)
       = 1 + Z.of_nat (List.length (report_rows (pivot_table label stats)))
    /\ chart_cats ch
       = {| ref_min_col := 1; ref_max_col := 1; ref_min_row := 2;
            ref_max_row := ref_max_row (chart_data ch) |}
    /\ anchor_column ch = "H"
    /\ anchor_row ch = ref_max_row (chart_data ch) + 2.
Proof.
  intros Hrows. unfold add_production_chart.
  set (procs := group_keys Process_eq_dec process_leb (map ps_Process stats)).
  assert (Hcols : value_columns (pivot_table label stats)
                  = map pivot_title (pivot_columns procs)) by reflexivity.
  assert (Hprocs : procs <> []).
  { intros E. apply Hrows. unfold pivot_table. cbn [report_rows].
    assert (Hstats : stats = []).
    { destruct stats as [| s stats']; [reflexivity |]. exfalso.
      assert (Hin : In (ps_Process s) procs)
        by (apply group_keys_In; now left).
      rewrite E in Hin. contradiction. }
    rewrite Hstats. reflexivity. }
  destruct (report_rows (pivot_table label stats)) as [| r0 rs] eqn:Er; [congruence |].
  cbn [nonempty]. rewrite Hcols.
  pose proof (record_cols_count procs) as Hcount.
  destruct (filter (contains "Total Rec") (map pivot_title (pivot_columns procs)))
    as [| c cs] eqn:Ec.
  { simpl in Hcount. destruct procs; [congruence | discriminate]. }
  cbn [nonempty]. eexists. split; [reflexivity |].
  cbn [chart_data chart_cats anchor_column anchor_row ref_min_col ref_max_col
       ref_min_row ref_max_row].
  rewrite Hcount.
  assert (Hmax : ws_max_row (report_sheet report_type (pivot_table label stats))
                 = 1 + Z.of_nat (List.length (r0 :: rs))).
  { unfold ws_max_row, report_sheet. cbn [body]. now rewrite Er, length_map. }
  split; [reflexivity |]. split.
  { unfold pivot_columns. rewrite length_map, length_app, !length_map. lia. }
  split.
  { intros j t Hj. rewrite <- (pivot_title_position procs j t Hj). lia. }
  split; [reflexivity |]. split; [exact Hmax |].
  split; [reflexivity |]. split; reflexivity.
Qed.

(** ** The personnel chart *)

Lemma sorted_nth_desc (l : list PersonnelReportRow) :
  StronglySorted (fun a b => pr_TotalRec b <= pr_TotalRec a) l ->
  forall i j a b, (i < j)%nat -> nth_error l i = Some a -> nth_error l j = Some b ->
                  pr_TotalRec b <= pr_TotalRec a.
Proof.
  induction 1 as [| x l Hl IH Hx]; intros i j a b Hij Ha Hb.
  - destruct i; discriminate.
  - destruct j as [| j]; [lia |]. simpl in Hb. destruct i as [| i]; simpl in Ha.
    + inversion Ha; subst. rewrite Forall_forall in Hx. apply Hx.
      now apply nth_error_In in Hb.
    + apply (IH i j); [lia | assumption | assumption].
Qed.

(** X11.  On the Personnel Performance sheet of a report that has rows the
    personnel chart is there; it reads names (column 2) and totals (column 4)
    from the same rows, 2 to min(15, n) + 1, which are rows of the sheet; and
    as the report is in descending order, no row left out of the chart has a
    larger total than a row in it. *)
Theorem personnel_chart_top_rows (data : list PersonnelRow) :
  personnel_report data <> [] ->
  exists ch : Chart,
    add_personnel_chart (personnel_sheet (personnel_report data))
                        (personnel_report data) = Some ch
    /\ ref_min_col (chart_data ch) = 4 /\ ref_max_col (chart_data ch) = 4
    /\ ref_min_col (chart_cats ch) = 2 /\ ref_max_col (chart_cats ch) = 2
    /\ ref_min_row (chart_data ch) = 2 /\ ref_min_row (chart_cats ch) = 2
    /\ ref_max_row (chart_cats ch) = ref_max_row (chart_data ch)
    /\ 2 <= ref_max_row (chart_data ch) <= 16
    /\ ref_max_row (chart_data ch)
       <= ws_max_row (personnel_sheet (personnel_report data))
    /\ (forall (i j : nat) (a b : PersonnelReportRow),
          nth_error (personnel_report data) i = Some a ->
          nth_error (personnel_report data) j = Some b ->
          Z.of_nat i + 2 <= ref_max_row (chart_data ch) ->
          ref_max_row (chart_data ch) < Z.of_nat j + 2 ->
          pr_TotalRec b <= pr_TotalRec a).
Proof.
  intros Hne. unfold add_personnel_chart.
  assert (Hsorted : StronglySorted (fun a b => pr_TotalRec b <= pr_TotalRec a)
                                   (personnel_report data)).
  { unfold personnel_report. apply number_from_sorted. apply sort_values_desc_sorted. }
  destruct (personnel_report data) as [| r l] eqn:E; [congruence |].
  cbn [nonempty]. eexists. split; [reflexivity |].
  cbn [chart_data chart_cats ref_min_col ref_max_col ref_min_row ref_max_row].
  unfold ws_max_row, personnel_sheet. cbn [body]. rewrite length_map.
  repeat (split; [reflexivity |]).
  split; [simpl List.length; lia |]. split; [simpl List.length; lia |].
  intros i j a b Ha Hb Hi Hj.
  apply (sorted_nth_desc _ Hsorted i j a b); [lia | assumption | assumption].
Qed.

(** ** The trend chart *)

Lemma isupper_lower_char (c : ascii) : isupper (lower_char c) = false.
Proof. destruct c as [[] [] [] [] [] [] [] []]; reflexivity. Qed.

Lemma lower_differs (s column : string) (c : ascii) (rest : string) :
  column = String c rest -> isupper c = true -> lower s <> column.
Proof.
  intros -> Hc E. unfold lower in E. apply (f_equal chars) in E.
  rewrite chars_of_list in E. unfold chars in E. simpl in E.
  destruct (list_ascii_of_string s) as [| c0 cs]; simpl in E; [discriminate |].
  injection E as Ec _. rewrite <- Ec in Hc. rewrite isupper_lower_char in Hc.
  discriminate.
Qed.

Lemma firstn_subset {A : Type} (n : nat) (l : list A) (x : A) :
  In x (firstn n l) -> In x l.
Proof.
  intros H. rewrite <- (firstn_skipn n l). apply in_or_app. now left.
Qed.

(** Some row of the table has a name. *)
Definition has_named (df : list PeriodPersonnelRow) : bool :=
  existsb (fun r => negb (isna (pp_Name r))) df.

Lemma name_isin_In (names : list Cell) (c : Cell) :
  name_isin names c = true <-> In c names.
Proof.
  unfold name_isin. rewrite existsb_exists. split.
  - intros [n [Hn E]]. destruct (Cell_eq_dec n c); [now subst | discriminate].
  - intros H. exists c. split; [exact H |]. now destruct (Cell_eq_dec c c).
Qed.

Lemma name_totals_names (period_type : string) (df : list PeriodPersonnelRow)
      (n : Cell) :
  In n (map fst (name_totals period_type df))
  <-> exists r, In r df /\ pp_Name r = n /\ isna n = false.
Proof.
  unfold name_totals. rewrite map_map. cbn [fst]. rewrite map_id.
  rewrite group_keys_In, map_map. cbn [fst]. rewrite in_map_iff. split.
  - intros [r [E Hr]]. apply filter_In in Hr. destruct Hr as [Hr Hn].
    apply negb_true_iff in Hn. exists r. subst n. auto.
  - intros [r (Hr & E & Hn)]. exists r. split; [exact E |].
    apply filter_In. split; [exact Hr |]. subst n. now rewrite Hn.
Qed.

Lemma top_rows_named (period_type : string) (df : list PeriodPersonnelRow) :
  nonempty (top_rows period_type df) = has_named df.
Proof.
  unfold top_rows.
  set (top := nlargest_names 5 (name_totals period_type df)).
  assert (Htop : forall n, In n top -> In n (map fst (name_totals period_type df))).
  { intros n Hn. unfold top, nlargest_names in Hn.
    apply in_map_iff in Hn. destruct Hn as [kv [<- Hkv]].
    apply in_map. apply firstn_subset in Hkv.
    exact (Permutation_in _ (sort_by_perm _ _) Hkv). }
  destruct (has_named df) eqn:Hnamed.
  - unfold has_named in Hnamed. apply existsb_exists in Hnamed.
    destruct Hnamed as [r [Hr Hn]]. apply negb_true_iff in Hn.
    assert (Hkeys : In (pp_Name r) (map fst (name_totals period_type df)))
      by (apply name_totals_names; exists r; auto).
    apply in_map_iff in Hkeys. destruct Hkeys as [kv [_ Hkv]].
    apply (Permutation_in _ (Permutation_sym (sort_by_perm (fun a b => snd b <=? snd a) _)))
      in Hkv.
    assert (Hfirst : exists n0, In n0 top).
    { unfold top, nlargest_names.
      destruct (sort_by (fun a b => snd b <=? snd a) (name_totals period_type df))
        as [| s0 S]; [contradiction |].
      exists (fst s0). simpl. now left. }
    destruct Hfirst as [n0 Hn0].
    destruct (proj1 (name_totals_names period_type df n0) (Htop n0 Hn0))
      as [r0 (Hr0 & E0 & _)].
    assert (Hin : In r0 (filter (fun r => name_isin top (pp_Name r)) df)).
    { apply filter_In. split; [exact Hr0 |]. apply name_isin_In. now rewrite E0. }
    destruct (filter (fun r => name_isin top (pp_Name r)) df); [contradiction | reflexivity].
  - destruct (filter (fun r => name_isin top (pp_Name r)) df) as [| r l] eqn:E;
      [reflexivity |]. exfalso.
    assert (Hr : In r (filter (fun r => name_isin top (pp_Name r)) df))
      by (rewrite E; now left).
    apply filter_In in Hr. destruct Hr as [Hr Hn]. apply name_isin_In in Hn.
    apply Htop in Hn. apply name_totals_names in Hn.
    destruct Hn as [r' (_ & _ & Hn')].
    assert (Hex : has_named df = true).
    { unfold has_named. apply existsb_exists. exists r. split; [exact Hr |].
      now rewrite Hn'. }
    congruence.
Qed.

Lemma trend_pivot_capital (period_column period_type : string)
      (filtered : list PeriodPersonnelRow) (c : ascii) (rest : string) :
  period_column = String c rest -> isupper c = true ->
  trend_pivot period_column period_type filtered
  = if (List.length filtered =? 2)%nat then label_pivot (lower period_type) filtered
    else Raised KeyError.
Proof.
  intros Hcol Hc. unfold trend_pivot.
  pose proof (lower_differs period_type period_column c rest Hcol Hc) as Hne.
  apply String.eqb_neq in Hne. now rewrite Hne.
Qed.

Lemma trend_chart_skipped (ws : Sheet) (period_column : string)
      (df : list PeriodPersonnelRow) (period_type : string)
      (c : ascii) (rest : string) :
  period_column = String c rest -> isupper c = true ->
  List.length (top_rows period_type df) <> 2%nat ->
  add_personnel_trend_chart ws period_column df period_type
  = (ws, None, if has_named df then [trend_warning] else []).
Proof.
  intros Hcol Hc Hlen. unfold add_personnel_trend_chart.
  rewrite top_rows_named.
  rewrite (trend_pivot_capital period_column period_type _ c rest Hcol Hc).
  apply Nat.eqb_neq in Hlen. rewrite Hlen.
  destruct df as [| r l]; [reflexivity |]. cbn [nonempty].
  destruct (has_named (r :: l)); reflexivity.
Qed.

(** The worksheet and the chart of a trend chart that is added. *)
Definition with_trend (ws : Sheet) (period_type : string) (names : nat)
           (pivot_rows : list (list Value)) : Sheet * option Chart * list Event :=
  let ws' := {| title := title ws; header := header ws;
                body := body ws ++ pivot_rows |} in
  (ws',
   Some {| chart_type := "col";
           chart_title := ("Top Performers Trend (" ++ period_type ++ ")")%string;
           x_axis_title := period_type;
           y_axis_title := "Records";
           chart_data := {| ref_min_col := 2;
                            ref_max_col := Z.of_nat names + 1;
                            ref_min_row := ws_max_row ws + 1;
                            ref_max_row := ws_max_row ws' |};
           titles_from_data := true;
           chart_cats := {| ref_min_col := 1; ref_max_col := 1;
                            ref_min_row := ws_max_row ws + 1 + 1;
                            ref_max_row := ws_max_row ws' |};
           anchor_column := "H";
           anchor_row := ws_max_row ws' + 2 |},
   []).

(** X12.  On a table whose period column starts with a capital letter, as
    'Week' and 'Month' do, the pivot of the trend chart is indexed by the
    lower-cased report type, which is no column of the table.  Unless
    exactly two rows are left for the pivot, the trend chart is not added:
    the worksheet is left as it was, and the trend warning is printed
    exactly when some row of the table has a name.  When exactly two rows
    are left, the library groups them by the two keys taken as labels: if
    that raises, the warning is printed and nothing is added; otherwise the
    rows of that pivot are written under the table and the chart is added,
    reading the columns 2 to k + 1 of those rows, k being the number of
    names. *)
Theorem trend_chart_needs_two_rows (ws : Sheet) (period_column : string)
        (df : list PeriodPersonnelRow) (period_type : string)
        (c : ascii) (rest : string) :
  period_column = String c rest -> isupper c = true ->
  (forall s : string, lower s <> period_column)
  /\ (List.length (top_rows period_type df) <> 2%nat ->
      add_personnel_trend_chart ws period_column df period_type
      = (ws, None, if has_named df then [trend_warning] else []))
  /\ (List.length (top_rows period_type df) = 2%nat ->
      add_personnel_trend_chart ws period_column df period_type
      = match label_pivot (lower period_type) (top_rows period_type df) with
        | Ok pivot_rows =>
            with_trend ws period_type
              (List.length (nlargest_names 5 (name_totals period_type df))) pivot_rows
        | Raised _ => (ws, None, [trend_warning])
        end).
Proof.
  intros Hcol Hc. split; [| split].
  - intros s. exact (lower_differs s period_column c rest Hcol Hc).
  - now apply (trend_chart_skipped ws period_column df period_type c rest).
  - intros Hlen. unfold add_personnel_trend_chart.
    rewrite (trend_pivot_capital period_column period_type _ c rest Hcol Hc).
    rewrite Hlen. cbn [Nat.eqb].
    destruct df as [| r l]; [discriminate Hlen |]. cbn [nonempty].
    destruct (top_rows period_type (r :: l)) as [| r0 l0] eqn:Et; [discriminate Hlen |].
    cbn [nonempty].
    destruct (label_pivot (lower period_type) (r0 :: l0)); [| reflexivity].
    reflexivity.
Qed.

(** ** The workbook with its charts *)

(** What the trend chart prints for a periodic personnel table. *)
Definition trend_events (df : option (list PeriodPersonnelRow)) : list Event :=
  match df with
  | Some (r :: l) => if has_named (r :: l) then [trend_warning] else []
  | _ => []
  end.

(** The rows of a table of the results. *)
Definition table_rows {A : Type} (df : option (list A)) : list A :=
  match df with Some l => l | None => [] end.

Lemma plain_sheets {A : Type} (df : option (list A)) (mk : list A -> Sheet) :
  map ws_sheet (plain df mk) = sheet_if df mk
  /\ Forall (fun w => ws_charts w = []) (plain df mk).
Proof.
  unfold plain. split.
  - rewrite map_map. cbn [ws_sheet]. apply map_id.
  - apply Forall_map. apply Forall_forall. reflexivity.
Qed.

Lemma charted_report_sheets (df : option PeriodReport) (report_type : string) :
  map ws_sheet (charted_report df report_type)
  = report_if df (report_sheet report_type).
Proof.
  destruct df as [rep |]; simpl; [| reflexivity].
  destruct (nonempty (report_rows rep)); reflexivity.
Qed.

Lemma charted_personnel_sheets (df : option (list PersonnelReportRow)) :
  map ws_sheet (charted_personnel df) = sheet_if df personnel_sheet.
Proof. destruct df as [[| r l] |]; reflexivity. Qed.

Lemma charted_trend_plain (df : option (list PeriodPersonnelRow))
      (sheet_title period_column fmt period_type : string) (c : ascii) (rest : string) :
  period_column = String c rest -> isupper c = true ->
  List.length (top_rows period_type (table_rows df)) <> 2%nat ->
  charted_trend df sheet_title period_column fmt period_type
  = (plain df (period_personnel_sheet sheet_title period_column fmt), trend_events df).
Proof.
  intros Hcol Hc Hlen. destruct df as [[| r l] |]; try reflexivity.
  unfold charted_trend.
  rewrite (trend_chart_skipped _ period_column (r :: l) period_type c rest Hcol Hc Hlen).
  reflexivity.
Qed.

Lemma add_personnel_trend_chart_title (ws : Sheet) (period_column : string)
      (df : list PeriodPersonnelRow) (period_type : string) :
  title (fst (fst (add_personnel_trend_chart ws period_column df period_type)))
  = title ws.
Proof.
  unfold add_personnel_trend_chart.
  destruct (nonempty df); [| reflexivity].
  destruct (nonempty (top_rows period_type df)); [| reflexivity].
  destruct (trend_pivot period_column period_type (top_rows period_type df));
    reflexivity.
Qed.

Lemma charted_trend_titles (df : option (list PeriodPersonnelRow))
      (sheet_title period_column fmt period_type : string) :
  map (fun w => title (ws_sheet w))
      (fst (charted_trend df sheet_title period_column fmt period_type))
  = map title (sheet_if df (period_personnel_sheet sheet_title period_column fmt)).
Proof.
  destruct df as [[| r l] |]; try reflexivity.
  unfold charted_trend.
  pose proof (add_personnel_trend_chart_title
                (period_personnel_sheet sheet_title period_column fmt (r :: l))
                period_column (r :: l) period_type) as H.
  destruct (add_personnel_trend_chart _ period_column (r :: l) period_type)
    as [[ws' chart] ev].
  simpl in *. now rewrite H.
Qed.

(** X13.  With the charts, [save_reports] writes the sheets of the workbook
    under the same titles, in the same order.  When neither the Personnel
    Weekly nor the Personnel Monthly table leaves exactly two rows to the
    pivot of its trend chart, the sheets hold no other row: the trend chart
    adds nothing to the two sheets, which carry no chart, and prints its
    warning once for each of the two tables that has rows with a name; the
    process sheets carry no chart either. *)
Theorem save_reports_charts_sheets (processed_data : Results) :
  map (fun w => title (ws_sheet w)) (fst (save_reports_charts processed_data))
  = map title (build_workbook processed_data)
  /\ (List.length (top_rows "Weekly" (table_rows (res_PersonnelWeekly processed_data)))
      <> 2%nat ->
      List.length (top_rows "Monthly" (table_rows (res_PersonnelMonthly processed_data)))
      <> 2%nat ->
      map ws_sheet (fst (save_reports_charts processed_data))
      = build_workbook processed_data
      /\ snd (save_reports_charts processed_data)
         = trend_events (res_PersonnelWeekly processed_data)
             ++ trend_events (res_PersonnelMonthly processed_data)
      /\ (forall w : Worksheet,
            In w (fst (save_reports_charts processed_data)) ->
            ws_charts w <> [] ->
            In (title (ws_sheet w))
               ["Weekly Report"; "Monthly Report"; "Personnel Performance"])).
Proof.
  split.
  - unfold save_reports_charts.
    pose proof (charted_trend_titles (res_PersonnelWeekly processed_data)
                  "Personnel Weekly" "Week" "%Y-%m-%d" "Weekly") as Hw.
    pose proof (charted_trend_titles (res_PersonnelMonthly processed_data)
                  "Personnel Monthly" "Month" "%Y-%m" "Monthly") as Hm.
    destruct (charted_trend (res_PersonnelWeekly processed_data) _ _ _ _) as [weekly ew].
    destruct (charted_trend (res_PersonnelMonthly processed_data) _ _ _ _) as [monthly em].
    cbn [fst] in *. unfold build_workbook. rewrite !map_app, Hw, Hm.
    rewrite <- !(map_map ws_sheet title).
    rewrite !(proj1 (plain_sheets _ _)).
    now rewrite !charted_report_sheets, charted_personnel_sheets.
  - intros Lw Lm. unfold save_reports_charts.
    rewrite (charted_trend_plain _ "Personnel Weekly" "Week" "%Y-%m-%d" "Weekly"
               "W"%char "eek" eq_refl eq_refl Lw).
    rewrite (charted_trend_plain _ "Personnel Monthly" "Month" "%Y-%m" "Monthly"
               "M"%char "onth" eq_refl eq_refl Lm).
    cbn [fst snd]. split; [| split; [reflexivity |]].
    + unfold build_workbook. rewrite !map_app.
      rewrite !(proj1 (plain_sheets _ _)).
      now rewrite !charted_report_sheets, charted_personnel_sheets.
    + intros w Hin Hch. rewrite !in_app_iff in Hin.
      assert (Hplain : forall (A : Type) (df : option (list A)) (mk : list A -> Sheet),
                 In w (plain df mk) -> False).
      { intros A df mk H. pose proof (proj2 (plain_sheets df mk)) as Hf.
        rewrite Forall_forall in Hf. now apply Hch, Hf. }
      destruct Hin as [H | [H | [H | [H | [H | [H | [H | H]]]]]]];
        try (exfalso; now apply (Hplain _ _ _ H)).
      * unfold charted_report in H. destruct (res_Weekly processed_data) as [rep |];
          [| contradiction].
        destruct (nonempty (report_rows rep)); [| contradiction].
        destruct H as [<- | []]. simpl. now left.
      * unfold charted_report in H. destruct (res_Monthly processed_data) as [rep |];
          [| contradiction].
        destruct (nonempty (report_rows rep)); [| contradiction].
        destruct H as [<- | []]. simpl. right. now left.
      * unfold charted_personnel in H.
        destruct (res_Personnel processed_data) as [[| r l] |]; try contradiction.
        destruct H as [<- | []]. simpl. right. right. now left.
Qed.

(** ** When the workbook has sheets *)


(** * [validate_dataframe] *)

(** A frame is given by its column labels, [None] standing for no frame. *)
Definition validate_dataframe (df : option (list string)) (required_cols : list string)
           (sheet_name : string) : bool * list Event :=
  match df with
  | None => (false, [])
  | Some columns =>
      let missing_cols := filter (fun col => negb (str_in col columns)) required_cols in
      if nonempty missing_cols then (false, [ShowWarning "Missing Columns"])
      else (true, [])
  end.

(** X17.  [validate_dataframe] accepts a frame exactly when every required
    column is one of its columns; it warns, once, exactly when there is a
    frame and a required column is missing, and says nothing when there is
    no frame. *)
Theorem validate_dataframe_accepts (df : option (list string))
        (required_cols : list string) (sheet_name : string) :
  (fst (validate_dataframe df required_cols sheet_name) = true
   <-> exists columns, df = Some columns /\ incl required_cols columns)
  /\ (snd (validate_dataframe df required_cols sheet_name)
      = [ShowWarning "Missing Columns"]
      <-> exists columns, df = Some columns /\ ~ incl required_cols columns)
  /\ (snd (validate_dataframe df required_cols sheet_name) = []
      \/ snd (validate_dataframe df required_cols sheet_name)
         = [ShowWarning "Missing Columns"]).
Proof.
  assert (Hin : forall col columns, str_in col columns = true <-> In col columns).
  { intros col columns. unfold str_in. rewrite existsb_exists. split.
    - intros [x [Hx E]]. apply String.eqb_eq in E. now subst.
    - intros H. exists col. split; [exact H | apply String.eqb_refl]. }
  destruct df as [columns |]; simpl.
  - destruct (filter (fun col => negb (str_in col columns)) required_cols)
      as [| m ms] eqn:Em; simpl.
    + assert (Hall : incl required_cols columns).
      { intros col Hcol. apply Hin.
        destruct (str_in col columns) eqn:Es; [reflexivity |]. exfalso.
        assert (H : In col (filter (fun col => negb (str_in col columns)) required_cols))
          by (apply filter_In; split; [exact Hcol | now rewrite Es]).
        now rewrite Em in H. }
      split; [| split].
      * split; [intros _; now exists columns | reflexivity].
      * split; [discriminate |]. intros [c [Ec Hc]]. inversion Ec; subst. contradiction.
      * now left.
    + assert (Hmiss : ~ incl required_cols columns).
      { intros Hinc.
        assert (H : In m (filter (fun col => negb (str_in col columns)) required_cols))
          by (rewrite Em; now left).
        apply filter_In in H. destruct H as [Hm Hn]. apply negb_true_iff in Hn.
        apply Hinc in Hm. apply Hin in Hm. congruence. }
      split; [| split].
      * split; [discriminate |]. intros [c [Ec Hc]]. inversion Ec; subst. contradiction.
      * split; [intros _; now exists columns | reflexivity].
      * now right.
  - split; [| split].
    + split; [discriminate | intros [c [Ec _]]; discriminate].
    + split; [discriminate | intros [c [Ec _]]; discriminate].
    + now left.
Qed.

(** * The month of a record *)

(** The year of a day of the 400-year cycle that starts on a 1 March, as
    [Calendar.civil_from_days] computes it, and the first day of a year of
    the cycle. *)
Definition cycle_year (doe : Z) : Z :=
  (doe - doe / 1460 + doe / 36524 - doe / 146096) / 365.

Definition year_start (yoe : Z) : Z := 365 * yoe + yoe / 4 - yoe / 100.

(** Year, month counted from March, and day of the month of a day of the
    cycle. *)
Definition cycle_date (doe : Z) : Z * Z * Z :=
  let yoe := (doe - doe / 1460 + doe / 36524 - doe / 146096) / 365 in
  let doy := doe - (365 * yoe + yoe / 4 - yoe / 100) in
  let mp := (5 * doy + 2) / 153 in
  (yoe, mp, doy - (153 * mp + 2) / 5 + 1).

Fixpoint all_from (n : nat) (i : Z) (f : Z -> bool) : bool :=
  match n with
  | O => true
  | S k => f i && all_from k (i + 1) f
  end.

(** The first and the last day of a year of the cycle are days of that
    year. *)
Definition year_ok (yoe : Z) : bool :=
  (cycle_year (year_start yoe) =? yoe)
  && (cycle_year (year_start (yoe + 1) - 1) =? yoe).

(** [month] is the midnight that opens the first day of the calendar month
    of the timestamp [t]. *)
Definition first_of_month (t : Z) (month : DateTime) : Prop :=
  exists w y m d,
    month = Some w
    /\ Calendar.civil_from_days (t / Calendar.ns_per_day) = (y, m, d)
    /\ 1 <= m <= 12
    /\ w mod Calendar.ns_per_day = 0
    /\ Calendar.civil_from_days (w / Calendar.ns_per_day) = (y, m, 1)
    /\ w <= t < w + 31 * Calendar.ns_per_day.

Lemma cycle_year_mono (x y : Z) : x <= y -> cycle_year x <= cycle_year y.
Proof.
  intros H. unfold cycle_year.
  apply Z.div_le_mono; [lia |].
  Z.to_euclidean_division_equations. lia.
Qed.

Lemma month_of_day (doy : Z) :
  0 <= doy <= 365 ->
  let mp := (5 * doy + 2) / 153 in
  let d := doy - (153 * mp + 2) / 5 + 1 in
  0 <= mp <= 11 /\ 1 <= d <= 31
  /\ (5 * (doy - (d - 1)) + 2) / 153 = mp.
Proof.
  intros H. cbv zeta. Z.to_euclidean_division_equations. lia.
Qed.

Lemma all_from_spec (f : Z -> bool) (n : nat) :
  forall i, all_from n i f = true ->
            forall j, i <= j < i + Z.of_nat n -> f j = true.
Proof.
  induction n as [| k IH]; intros i H j Hj.
  - simpl in Hj. lia.
  - cbn [all_from] in H. apply andb_true_iff in H. destruct H as [Hi Hk].
    destruct (Z.eq_dec j i) as [-> | Hne]; [exact Hi |].
    apply (IH (i + 1) Hk). lia.
Qed.

Lemma years_ok (yoe : Z) :
  0 <= yoe <= 399 ->
  cycle_year (year_start yoe) = yoe /\ cycle_year (year_start (yoe + 1) - 1) = yoe.
Proof.
  intros H.
  assert (Hok : year_ok yoe = true).
  { apply (all_from_spec year_ok 400 0); [vm_compute; reflexivity | lia]. }
  apply andb_true_iff in Hok. now rewrite !Z.eqb_eq in Hok.
Qed.

Lemma cycle_year_spec (doe : Z) :
  0 <= doe < 146097 ->
  0 <= cycle_year doe <= 399
  /\ 0 <= doe - year_start (cycle_year doe) <= 365.
Proof.
  intros H.
  assert (H0 : 0 <= cycle_year doe)
    by (apply (cycle_year_mono 0 doe); lia).
  assert (H399 : cycle_year doe <= 399)
    by (apply (cycle_year_mono doe 146096); lia).
  split; [lia |].
  set (y := cycle_year doe) in *.
  split.
  - destruct (Z_le_gt_dec (year_start y) doe) as [Hle | Hgt]; [lia | exfalso].
    assert (Hy : 1 <= y).
    { destruct (Z.eq_dec y 0) as [E | E]; [| lia].
      rewrite E in Hgt. unfold year_start in Hgt. simpl in Hgt. lia. }
    destruct (years_ok (y - 1)) as [_ Hlast]; [lia |].
    replace (y - 1 + 1) with y in Hlast by lia.
    pose proof (cycle_year_mono doe (year_start y - 1)) as Hm.
    fold y in Hm. lia.
  - destruct (Z.eq_dec y 399) as [E | E].
    + rewrite E. unfold year_start. simpl. lia.
    + destruct (Z_lt_ge_dec doe (year_start (y + 1))) as [Hlt | Hge].
      * unfold year_start in *. Z.to_euclidean_division_equations. lia.
      * exfalso. destruct (years_ok (y + 1)) as [Hfirst _]; [lia |].
        pose proof (cycle_year_mono (year_start (y + 1)) doe) as Hm.
        fold y in Hm. lia.
Qed.

Lemma cycle_date_eq (doe : Z) :
  cycle_date doe
  = (cycle_year doe,
     (5 * (doe - year_start (cycle_year doe)) + 2) / 153,
     doe - year_start (cycle_year doe)
     - (153 * ((5 * (doe - year_start (cycle_year doe)) + 2) / 153) + 2) / 5 + 1).
Proof. reflexivity. Qed.

(** The first day of the month of a day of the cycle is a day of the cycle,
    of the same year and month. *)
Lemma cycle_date_first (doe : Z) :
  0 <= doe < 146097 ->
  exists yoe mp d,
    cycle_date doe = (yoe, mp, d)
    /\ 0 <= yoe <= 399 /\ 0 <= mp <= 11 /\ 1 <= d <= 31
    /\ 0 <= doe - (d - 1)
    /\ doe = year_start yoe + (153 * mp + 2) / 5 + d - 1
    /\ cycle_date (doe - (d - 1)) = (yoe, mp, 1).
Proof.
  intros H. rewrite cycle_date_eq.
  destruct (cycle_year_spec doe H) as [Hy Hdoy].
  set (y := cycle_year doe) in *.
  set (doy := doe - year_start y) in *.
  destruct (month_of_day doy Hdoy) as (Hmp & Hd & Hfirst).
  set (mp := (5 * doy + 2) / 153) in *.
  set (d := doy - (153 * mp + 2) / 5 + 1) in *.
  exists y, mp, d. split; [reflexivity |].
  assert (Ed : d = doy - (153 * mp + 2) / 5 + 1) by reflexivity.
  assert (Edoy : doy = doe - year_start y) by reflexivity.
  assert (Emp : 0 <= (153 * mp + 2) / 5)
    by (clear - Hmp; Z.to_euclidean_division_equations; lia).
  clearbody d doy mp.
  split; [exact Hy |]. split; [exact Hmp |]. split; [exact Hd |].
  assert (Hys : 0 <= year_start y)
    by (unfold year_start; Z.to_euclidean_division_equations; lia).
  split; [lia |]. split; [lia |].
  assert (Hy1 : cycle_year (doe - (d - 1)) = y).
  { destruct (years_ok y Hy) as [Hfirst' _].
    pose proof (cycle_year_mono (year_start y) (doe - (d - 1))) as H1.
    pose proof (cycle_year_mono (doe - (d - 1)) doe) as H2.
    fold y in H2. lia. }
  rewrite cycle_date_eq, Hy1.
  replace (doe - (d - 1) - year_start y) with (doy - (d - 1)) by lia.
  rewrite Hfirst. f_equal. lia.
Qed.

Lemma civil_from_days_cycle (z : Z) :
  let era := (z + 719468) / 146097 in
  let '(yoe, mp, d) := cycle_date (z + 719468 - era * 146097) in
  let m := if mp <? 10 then mp + 3 else mp - 9 in
  Calendar.civil_from_days z
  = (if m <=? 2 then yoe + era * 400 + 1 else yoe + era * 400, m, d).
Proof. reflexivity. Qed.

Ltac split_ifs :=
  repeat match goal with
         | |- context [if ?a <? ?b then _ else _] => destruct (Z.ltb_spec a b)
         | |- context [if ?a <=? ?b then _ else _] => destruct (Z.leb_spec a b)
         end.

Lemma month_start_first_day (t : Z) :
  exists y m d,
    Calendar.civil_from_days (t / Calendar.ns_per_day) = (y, m, d)
    /\ 1 <= m <= 12 /\ 1 <= d <= 31
    /\ Calendar.month_start t
       = (t / Calendar.ns_per_day - (d - 1)) * Calendar.ns_per_day
    /\ Calendar.civil_from_days (t / Calendar.ns_per_day - (d - 1)) = (y, m, 1).
Proof.
  unfold Calendar.month_start, Calendar.midnight.
  generalize (t / Calendar.ns_per_day). clear t. intros z.
  pose proof (civil_from_days_cycle z) as E. cbv zeta in E.
  set (era := (z + 719468) / 146097) in *.
  set (doe := z + 719468 - era * 146097) in *.
  assert (Hdoe : 0 <= doe < 146097)
    by (subst doe era; Z.to_euclidean_division_equations; lia).
  destruct (cycle_date_first doe Hdoe)
    as (yoe & mp & d & Ed & Hy & Hmp & Hd & Hf & Hdoe' & Ed1).
  rewrite Ed in E.
  pose proof (civil_from_days_cycle (z - (d - 1))) as E1. cbv zeta in E1.
  assert (Hera : (z - (d - 1) + 719468) / 146097 = era).
  { clear - Hdoe Hd Hf. subst doe era. Z.to_euclidean_division_equations. lia. }
  rewrite Hera in E1.
  replace (z - (d - 1) + 719468 - era * 146097) with (doe - (d - 1)) in E1
    by (subst doe; lia).
  rewrite Ed1 in E1. rewrite E.
  eexists; eexists; eexists. split; [reflexivity |].
  split; [split_ifs; lia |]. split; [lia |].
  split; [| exact E1].
  f_equal. unfold Calendar.days_from_civil. cbv zeta.
  set (m := if mp <? 10 then mp + 3 else mp - 9).
  assert (Hm : (m + 9) mod 12 = mp)
    by (subst m; split_ifs; Z.to_euclidean_division_equations; lia).
  rewrite Hm.
  assert (Hy' : (if m <=? 2
                 then (if m <=? 2 then yoe + era * 400 + 1 else yoe + era * 400) - 1
                 else (if m <=? 2 then yoe + era * 400 + 1 else yoe + era * 400))
                = yoe + era * 400) by (split_ifs; lia).
  rewrite Hy'.
  assert (He : (yoe + era * 400) / 400 = era)
    by (clear - Hy; Z.to_euclidean_division_equations; lia).
  rewrite He.
  replace (yoe + era * 400 - era * 400) with yoe by lia.
  unfold year_start in Hdoe'. clear - Hdoe'. subst doe. lia.
Qed.

Lemma period_month_first (t : Z) : first_of_month t (period_month (Some t)).
Proof.
  destruct (month_start_first_day t) as (y & m & d & Ec & Hm & Hd & Es & E1).
  exists (Calendar.month_start t), y, m, d.
  split; [reflexivity |]. split; [exact Ec |]. split; [exact Hm |].
  rewrite Es.
  set (D := Calendar.ns_per_day) in *.
  assert (HD : 0 < D) by (unfold D; reflexivity).
  pose proof (Z.div_mod t D ltac:(lia)) as Ht.
  pose proof (Z.mod_pos_bound t D HD) as Hb.
  split; [apply Z.mod_mul; lia |].
  split; [rewrite Z.div_mul by lia; exact E1 |].
  nia.
Qed.

(** X18.  A row of a process table whose anchor date is present has a Month,
    which is the midnight that opens the first day of the calendar month of
    the anchor: it has the year and the month of the anchor and the day 1,
    and it is not after the anchor and less than 31 days before it.  The
    anchor is Indate for Key and QC and Shipment Date for Final. *)
Theorem month_is_first_of_anchor_month (cols : Columns) (input_df : DataFrame) :
  (forall row t, In row (fst (process_key (cols_Key cols) input_df)) ->
                 Indate row = Some t -> first_of_month t (Month row))
  /\ (forall row t, In row (fst (process_qc (cols_QC cols) input_df)) ->
                    Indate row = Some t -> first_of_month t (Month row))
  /\ (forall row t, In row (fst (process_final (cols_Final cols) input_df)) ->
                    ShipmentDate row = Some t -> first_of_month t (Month row)).
Proof.
  split; [| split]; intros row t Hin Ht.
  - destruct (process_key_derived _ _ _ Hin) as [x [-> _]]. simpl in *.
    rewrite Ht. apply period_month_first.
  - destruct (process_qc_derived _ _ _ Hin) as [x [-> _]]. simpl in *.
    rewrite Ht. apply period_month_first.
  - destruct (process_final_derived _ _ _ Hin) as [x [-> _]]. simpl in *.
    rewrite Ht. apply period_month_first.
Qed.

(** * The Processing Days of the process reports *)

(** The statistic of a group of records. *)
Definition stat_of (w : Z) (p : Process) (members : list Row) : PeriodStat :=
  {| ps_Period := w; ps_Process := p;
     ps_TotalRec := sum_Z (map (fun r => total_value (TotalRec r)) members);
     ps_Days := days_mean (present_days (map ProcessingDays members)) |}.

(** The mean of the processing days that are present, as the library
    computes it, and 0 when none is. *)
Definition mean_days (members : list Row) : Q :=
  match present_days (map ProcessingDays members) with
  | [] => 0%Q
  | days => float_mean days
  end.

Lemma period_stats_filter (period : Row -> DateTime) (df : list Row)
      (w : Z) (p : Process) :
  filter (stat_matches w p) (period_stats period df)
  = match process_records period df w p with
    | [] => []
    | members => [stat_of w p members]
    end.
Proof.
  unfold period_stats. fold (period_process_pairs period df).
  set (ks := group_keys period_process_eq_dec period_process_leb
                        (map fst (period_process_pairs period df))).
  set (mk := fun k : Z * Process =>
               {| ps_Period := fst k; ps_Process := snd k;
                  ps_TotalRec :=
                    sum_Z (map (fun r => total_value (TotalRec r))
                               (group_of period_process_eq_dec k
                                         (period_process_pairs period df)));
                  ps_Days :=
                    days_mean (present_days
                            (map ProcessingDays
                                 (group_of period_process_eq_dec k
                                           (period_process_pairs period df)))) |}).
  assert (E : filter (stat_matches w p) (map mk ks)
              = map mk (filter (fun k => stat_matches w p (mk k)) ks)).
  { clear. induction ks as [| k ks IH]; simpl; [reflexivity |].
    destruct (stat_matches w p (mk k)); simpl; now rewrite IH. }
  rewrite E.
  rewrite (filter_key_NoDup period_process_eq_dec _ (w, p) ks).
  - assert (Hin : In (w, p) ks <-> process_records period df w p <> []).
    { unfold ks. rewrite group_keys_In. split.
      - intros H. apply in_map_iff in H. destruct H as [[k r] [Ek Hr]].
        cbn [fst] in Ek. subst k. unfold period_process_pairs in Hr.
        apply in_flat_map in Hr. destruct Hr as [r' [Hr' Hm]].
        destruct (period r') as [w' |] eqn:Ew; [| contradiction].
        destruct Hm as [Hm | []]. injection Hm as E1 E2 E3.
        assert (Hrec : In r' (process_records period df w p)).
        { unfold process_records. apply filter_In. split; [exact Hr' |].
          rewrite Ew, E1, E2. now destruct (period_process_eq_dec (w, p) (w, p)). }
        intros Hnil. now rewrite Hnil in Hrec.
      - intros H. destruct (process_records period df w p) as [| r l] eqn:Er;
          [congruence |].
        assert (Hr : In r (process_records period df w p)) by (rewrite Er; now left).
        unfold process_records in Hr. apply filter_In in Hr. destruct Hr as [Hr Hm].
        destruct (period r) as [w' |] eqn:Ew; [| discriminate].
        destruct (period_process_eq_dec (w', RowProcess r) (w, p)) as [Ek | _];
          [| discriminate].
        apply in_map_iff. exists ((w, p), r). split; [reflexivity |].
        unfold period_process_pairs. apply in_flat_map. exists r. split; [exact Hr |].
        rewrite Ew. inversion Ek; subst. now left. }
    destruct (in_dec period_process_eq_dec (w, p) ks) as [Hk | Hk].
    + cbn [map]. unfold mk. cbn [fst snd]. rewrite period_process_pairs_group.
      apply Hin in Hk.
      destruct (process_records period df w p) as [| r l]; [congruence | reflexivity].
    + destruct (process_records period df w p) as [| r l]; [reflexivity |].
      exfalso. apply Hk, Hin. discriminate.
  - apply group_keys_NoDup.
  - intros [w' p']. unfold stat_matches, mk. cbn [ps_Period ps_Process fst snd].
    split.
    + intros H. apply andb_true_iff in H. destruct H as [H1 H2].
      apply Z.eqb_eq in H1. destruct (Process_eq_dec p' p); [| discriminate]. congruence.
    + intros H. inversion H; subst. rewrite Z.eqb_refl.
      now destruct (Process_eq_dec p p).
Qed.

Lemma process_records_other (period : Row -> DateTime) (df : list Row)
      (w : Z) (p q : Process) :
  Forall (fun r => RowProcess r = q) df -> q <> p ->
  process_records period df w p = [].
Proof.
  intros Hall Hne. unfold process_records.
  induction Hall as [| r df Hr Hall IH]; [reflexivity |].
  cbn [filter]. rewrite IH.
  destruct (period r) as [w' |]; [| reflexivity].
  destruct (period_process_eq_dec (w', RowProcess r) (w, p)) as [E | _];
    [| reflexivity].
  inversion E. congruence.
Qed.

Lemma pivot_cell_days (w : Z) (p : Process) (members : list Row) :
  Qeq (pivot_cell (match members with
                   | [] => []
                   | _ => [stat_of w p members]
                   end) w MProcessingDays p)
      (mean_days members).
Proof.
  unfold mean_days. destruct members as [| r l]; [reflexivity |].
  unfold pivot_cell, stat_of.
  remember (present_days (map ProcessingDays (r :: l))) as days eqn:Edays.
  clear Edays.
  cbn [filter ps_Period ps_Process].
  rewrite Z.eqb_refl. destruct (Process_eq_dec p p) as [_ | Hne]; [| congruence].
  cbn [andb map sum_Q fold_right metric_value ps_Days].
  destruct days as [| d ds].
  - reflexivity.
  - cbn [days_mean]. rewrite Qred_correct. rewrite Qplus_0_r. reflexivity.
Qed.

Lemma period_report_days (label : string) (period : Row -> DateTime)
      (key_df qc_df final_df : list Row) (w : Z) (p : Process) :
  Forall (fun r => RowProcess r = Key) key_df ->
  Forall (fun r => RowProcess r = QC) qc_df ->
  Forall (fun r => RowProcess r = Final) final_df ->
  (exists p', has_data (key_df ++ qc_df ++ final_df) period w p') ->
  (exists w', has_data (key_df ++ qc_df ++ final_df) period w' p) ->
  exists v : Q,
    report_value (period_report label period key_df qc_df final_df) w
                 (column_title MProcessingDays p) = Some v
    /\ Qeq v (mean_days (process_records period (key_df ++ qc_df ++ final_df) w p)).
Proof.
  intros Hk Hq Hf [p' Hw] [w' Hp]. unfold period_report.
  set (stats := period_stats period key_df ++ period_stats period qc_df
                  ++ period_stats period final_df).
  assert (Hkeys : forall w p, has_data (key_df ++ qc_df ++ final_df) period w p ->
                              In (w, p) (map stat_key stats)).
  { intros w0 p0 [r (Hr & Ew & Ep)]. unfold stats. rewrite !map_app, !in_app_iff.
    rewrite !period_stats_keys. unfold has_data. rewrite !in_app_iff in Hr.
    destruct Hr as [Hr | [Hr | Hr]]; [left | right; left | right; right]; exists r; auto. }
  assert (Hin_w : In w (map ps_Period stats)).
  { apply Hkeys in Hw. apply in_map_iff in Hw. destruct Hw as [s [E Hs]].
    apply in_map_iff. exists s. inversion E. auto. }
  assert (Hin_p : In p (map ps_Process stats)).
  { apply Hkeys in Hp. apply in_map_iff in Hp. destruct Hp as [s [E Hs]].
    apply in_map_iff. exists s. inversion E. auto. }
  exists (pivot_cell stats w MProcessingDays p).
  split; [now apply report_value_cell |].
  assert (Hcell : forall members,
             filter (stat_matches w p) stats
             = match members with [] => [] | _ => [stat_of w p members] end ->
             Qeq (pivot_cell stats w MProcessingDays p) (mean_days members)).
  { intros members Hs. rewrite <- (pivot_cell_days w p members).
    unfold pivot_cell. fold (stat_matches w p).
    change (fun s : PeriodStat =>
              (ps_Period s =? w)
              && (if Process_eq_dec (ps_Process s) p then true else false))
      with (stat_matches w p).
    rewrite Hs.
    assert (Hid : filter (stat_matches w p)
                    (match members with [] => [] | _ => [stat_of w p members] end)
                  = match members with [] => [] | _ => [stat_of w p members] end).
    { destruct members as [| r l]; [reflexivity |].
      cbn [filter]. unfold stat_matches. cbn [stat_of ps_Period ps_Process].
      rewrite Z.eqb_refl. now destruct (Process_eq_dec p p). }
    rewrite Hid. reflexivity. }
  assert (Hrec : process_records period (key_df ++ qc_df ++ final_df) w p
                 = process_records period key_df w p
                   ++ process_records period qc_df w p
                   ++ process_records period final_df w p).
  { unfold process_records. now rewrite !filter_app. }
  rewrite Hrec.
  apply Hcell.
  unfold stats. rewrite !filter_app, !period_stats_filter.
  destruct p.
  - rewrite (process_records_other period qc_df w Key QC Hq) by discriminate.
    rewrite (process_records_other period final_df w Key Final Hf) by discriminate.
    rewrite !app_nil_r. now destruct (process_records period key_df w Key).
  - rewrite (process_records_other period key_df w QC Key Hk) by discriminate.
    rewrite (process_records_other period final_df w QC Final Hf) by discriminate.
    rewrite !app_nil_r. cbn [app]. now destruct (process_records period qc_df w QC).
  - rewrite (process_records_other period key_df w Final Key Hk) by discriminate.
    rewrite (process_records_other period qc_df w Final QC Hq) by discriminate.
    cbn [app]. now destruct (process_records period final_df w Final).
Qed.

(** X19.  When each table holds the records of its own process and the
    Total Rec. are numbers, the absolute values of which add up to less than
    2^53, the Processing Days value of a process in a period of the weekly
    (or monthly) process report is the mean, as the library computes it, of
    the processing days of the records of that process in that period which
    have processing days, and 0 when none of them has. *)
Theorem period_report_days_is_mean (what block label : string)
        (period : Row -> DateTime) (key_df qc_df final_df : list Row)
        (w : Z) (p : Process) :
  let tables := key_df ++ qc_df ++ final_df in
  Forall (fun r => RowProcess r = Key) key_df ->
  Forall (fun r => RowProcess r = QC) qc_df ->
  Forall (fun r => RowProcess r = Final) final_df ->
  numeric_table tables = true ->
  magnitude tables < 2 ^ 53 ->
  (exists p', has_data tables period w p') ->
  (exists w', has_data tables period w' p) ->
  exists (rep : PeriodReport) (v : Q),
    period_report_try what block label period key_df qc_df final_df = (Some rep, [])
    /\ report_value rep w (column_title MProcessingDays p) = Some v
    /\ Qeq v (mean_days (process_records period tables w p)).
Proof.
  intros tables Hk Hq Hf Hn Hb Hw Hp.
  destruct (period_report_days label period key_df qc_df final_df w p Hk Hq Hf Hw Hp)
    as (v & Hv & Hm).
  exists (period_report label period key_df qc_df final_df), v.
  split; [| now split].
  apply period_report_try_dated; try assumption.
  destruct Hw as [p' [r (Hr & Ew & _)]]. exists r. split; [exact Hr |].
  rewrite Ew. discriminate.
Qed.

(** * The failure of one process block is contained *)















End Pipeline.

(** * Concrete runs

    The pipeline run with reference instances of the library on small
    tables. *)


Lemma sort_values_desc_ref_sorted (l : list PersonnelRow) :
  StronglySorted (fun a b => p_TotalRec b <= p_TotalRec a) (sort_values_desc_ref l).
Proof.
  apply sort_by_sorted; unfold total_desc_leb.
  - intros a b H. now apply Z.leb_le.
  - intros a b H. apply Z.leb_gt in H. lia.
  - intros a b c. lia.
Qed.

(** ** Reference instances of the library *)

(** Date columns of timestamps without a UTC offset: the date arithmetic of
    a block does not raise. *)
Definition derive_raises_ref (p : Process) (df : list Row) : option Exn := None.

(** Sums in a column of 64-bit integers, which wrap around. *)
Definition wrap64 (z : Z) : Z := (z + 2 ^ 63) mod 2 ^ 64 - 2 ^ 63.

Definition int_sum_ref (site : Site) (zs : list Z) : Z := wrap64 (sum_Z zs).

(** A group that holds a text and a number: Python's [+] raises
    [TypeError].  The tables below have no group of text alone. *)
Definition object_sum_ref (site : Site) (cells : list Cell) : result Z :=
  Raised TypeError.

(** The mean as a fraction; the float of the library is its rounding. *)
Definition float_mean_ref : list Z -> Q := exact_mean.

Definition object_raises_ref (block : string) (tables : list Row) : option Exn := None.

Definition empty_pivot_raises_ref (block : string) : option Exn := None.

(** The pivot of a trend chart on two rows: the first row is grouped under
    the label [key], the second under the label 'Name'; the labels come in
    sorted order, a capital before the small letters, under the header of
    [reset_index()]. *)
Definition label_pivot_ref (key : string) (filtered : list PeriodPersonnelRow)
  : result (list (list Value)) :=
  match filtered with
  | [first; second] =>
      Ok [[VText "index"; VText "Total Rec."];
          [VText "Name"; VInt (pp_TotalRec second)];
          [VText key; VInt (pp_TotalRec first)]]
  | _ => Raised KeyError
  end.

Lemma sum_abs_bound (zs : list Z) : Z.abs (sum_Z zs) <= sum_Z (map Z.abs zs).
Proof.
  induction zs as [| z zs IH]; [reflexivity |].
  cbn [map]. rewrite !sum_Z_cons. lia.
Qed.

Lemma int_sum_ref_exact (site : Site) (zs : list Z) :
  sum_Z (map Z.abs zs) < 2 ^ 53 -> int_sum_ref site zs = sum_Z zs.
Proof.
  intros H. pose proof (sum_abs_bound zs) as Hb.
  unfold int_sum_ref, wrap64. rewrite Z.mod_small; lia.
Qed.

Example int_sum_ref_wraps : int_sum_ref AtPersonnel [2 ^ 62; 2 ^ 62] = - 2 ^ 63.
Proof. vm_compute. reflexivity. Qed.

(** [process_input_data] with the reference instances. *)
Definition run_ref (cols : Columns) (input_df : DataFrame)
  : option Results * list Event :=
  process_input_data_with ToDatetimeRef.to_datetime sort_values_desc_ref
    derive_raises_ref float_mean_ref int_sum_ref object_sum_ref object_raises_ref
    empty_pivot_raises_ref cols input_df.

Definition no_results : Results := {|
  res_Key := []; res_QC := []; res_Final := [];
  res_Weekly := None; res_Monthly := None; res_Personnel := None;
  res_PersonnelWeekly := None; res_PersonnelMonthly := None
|}.

Definition results_of (run : option Results * list Event) : Results :=
  match fst run with Some res => res | None => no_results end.

(** ** Tables *)

(** A raw row of 29 columns (A to AC): the Key cells J-N, the QC cells U-W,
    the shared cell X, and the Final cells Y-AC. *)
Definition raw_row (key qc : list Cell) (x : Cell) (final : list Cell) : list Cell :=
  repeat CNull 9 ++ key ++ repeat CNull 6 ++ qc ++ [x] ++ final.

(** Two Key rows with equal totals and one without a branch, one QC row, and
    two Final rows of the same person, the second without a shipment date. *)
Definition sample_table : DataFrame := {|
  ncols := 29;
  rows := [
    raw_row [CStr "A"; CStr "2024-03-01"; CStr "2024-03-10"; CStr "03/05/2024"; CNum 10]
            [CStr "Q"; CStr "WIP"; CTime 0] (CNum 5)
            [CStr "P"; CNull; CNull; CStr "ok"; CStr "2024-03-05"];
    raw_row [CStr "B"; CStr "not-a-date"; CNull; CStr "2024-03-12"; CNum 10]
            [CNull; CNull; CNull] CNull
            [CStr "P"; CNull; CNull; CStr "ok"; CStr "2024-03-05"];
    raw_row [CNull; CStr "2024-03-01"; CNull; CStr "2024-03-12"; CNum 7]
            [CNull; CNull; CNull] (CNum 3)
            [CStr "P"; CNull; CNull; CStr "ok"; CNull]]
|}.

(** A table that stops at column Y: the Final block cannot select Z to AC. *)
Definition narrow_table : DataFrame := {|
  ncols := 25;
  rows := [repeat CNull 23 ++ [CNum 5; CStr "P"]]
|}.

(** Only the Key process has a record. *)
Definition key_only_table : DataFrame := {|
  ncols := 29;
  rows := [
    raw_row [CStr "A"; CStr "2024-03-01"; CStr "2024-03-10"; CStr "03/05/2024"; CNum 10]
            [CNull; CNull; CNull] CNull [CNull; CNull; CNull; CNull; CNull]]
|}.




(** The run of the tool on the sample. *)
Definition sample_results : Results :=
  Eval vm_compute in results_of (run_ref default_columns sample_table).

Definition sample_events : list Event :=
  Eval vm_compute in snd (run_ref default_columns sample_table).

Lemma sample_run :
  run_ref default_columns sample_table = (Some sample_results, sample_events).
Proof. vm_compute. reflexivity. Qed.

Definition sample_key : list Row := Eval vm_compute in res_Key sample_results.
Definition sample_qc : list Row := Eval vm_compute in res_QC sample_results.
Definition sample_final : list Row := Eval vm_compute in res_Final sample_results.

(** The records of the sample are numbers that add up to 33. *)
Lemma sample_tables :
  res_Key sample_results ++ res_QC sample_results ++ res_Final sample_results
  = sample_key ++ sample_qc ++ sample_final
  /\ sample_key ++ sample_qc ++ sample_final <> []
  /\ numeric_table (sample_key ++ sample_qc ++ sample_final) = true
  /\ magnitude (sample_key ++ sample_qc ++ sample_final) = 33.
Proof. repeat split. discriminate. Qed.

(** ** The reference instances on known dates *)

Example ref_iso :
  ToDatetimeRef.to_datetime (Some "%Y-%m-%d") (CStr "2024-03-05")
  = Ok (Some (Calendar.midnight 2024 3 5)).
Proof. vm_compute. reflexivity. Qed.

Example ref_mdy :
  ToDatetimeRef.to_datetime (Some "%m/%d/%Y") (CStr "01/02/2024")
  = Ok (Some (Calendar.midnight 2024 1 2)).
Proof. vm_compute. reflexivity. Qed.

Example week_of_tuesday :
  Calendar.week_start (Calendar.midnight 2024 3 5 + 5) = Calendar.midnight 2024 3 4.
Proof. vm_compute. reflexivity. Qed.

Example month_of_date :
  Calendar.month_start (Calendar.midnight 2024 2 29 + 7) = Calendar.midnight 2024 2 1
  /\ Calendar.civil_from_days (Calendar.days_from_civil 1969 12 31) = (1969, 12, 31)
  /\ Calendar.days_from_civil 1970 1 1 = 0
  /\ Calendar.days_from_civil 2024 3 5 = 19787.
Proof. vm_compute. repeat split. Qed.

(** ** C7 *)

(** C7, as first stated, fails twice: the labels [a] and [A] are different
    and share index 0, and the empty label has index -1. *)
Lemma excel_column_to_index_case_collision :
  ColumnMapper.letters_only "a" /\ ColumnMapper.letters_only "A"
  /\ "a" <> "A"
  /\ ColumnMapper.excel_column_to_index "a" = ColumnMapper.excel_column_to_index "A"
  /\ ColumnMapper.letters_only ""
  /\ ColumnMapper.excel_column_to_index "" = (Some (-1), []).
Proof.
  repeat split; try discriminate; try reflexivity;
    unfold ColumnMapper.letters_only; simpl; repeat constructor.
Qed.

Lemma excel_column_to_index_base26_witness :
  (exists idx : Z,
      ColumnMapper.excel_column_to_index "ac" = (Some idx, [])
      /\ 0 <= idx
      /\ idx = ColumnMapper.base26_value (PyStr.chars (PyStr.upper "ac")) - 1)
  /\ PyStr.upper "ac" = PyStr.upper "AC"
  /\ ColumnMapper.excel_column_to_index "A1" = (None, [ShowError "Column Conversion Error"]).
Proof.
  destruct excel_column_to_index_base26 as (H1 & _ & _ & _ & H2 & H3).
  split; [| split].
  - apply (H1 "ac"); [discriminate |].
    unfold ColumnMapper.letters_only; simpl; repeat constructor.
  - apply (H2 "ac" "AC"); try reflexivity;
      unfold ColumnMapper.letters_only; simpl; repeat constructor.
  - apply (H3 "A1").
    + simpl; repeat constructor.
    + simpl. apply Exists_cons_tl. apply Exists_cons_hd. reflexivity.
Defined.

(** ** C3 and C4 *)

Lemma not_a_date_unparsable : unparsable ToDatetimeRef.to_datetime (CStr "not-a-date").
Proof.
  split.
  - intros f Hf. simpl in Hf.
    destruct Hf as [<- | [<- | [<- | [<- | []]]]]; eexists; vm_compute; reflexivity.
  - eexists. vm_compute. reflexivity.
Qed.

Lemma safe_date_parse_never_raises_witness :
  safe_date_parse ToDatetimeRef.to_datetime (CStr "not-a-date") = (NaT, [parse_warning])
  /\ safe_date_parse ToDatetimeRef.to_datetime (CStr "  n/a ") = (NaT, [])
  /\ safe_date_parse ToDatetimeRef.to_datetime (CStr "   ") = (NaT, []).
Proof.
  destruct (safe_date_parse_never_raises ToDatetimeRef.to_datetime) as (_ & _ & Hs & _ & Hbad).
  split; [| split].
  - apply Hbad. exact not_a_date_unparsable.
  - apply Hs. vm_compute. tauto.
  - apply Hs. vm_compute. tauto.
Defined.

Lemma safe_date_parse_format_order_witness :
  safe_date_parse ToDatetimeRef.to_datetime (CStr "01/02/2024")
  = (Some (Calendar.midnight 2024 1 2), [])
  /\ safe_date_parse ToDatetimeRef.to_datetime (CStr "2024-03-05")
     = (Some (Calendar.midnight 2024 3 5), []).
Proof.
  destruct (safe_date_parse_format_order ToDatetimeRef.to_datetime) as (_ & Hord & Hmdy & _).
  split.
  - apply (Hmdy _ ValueError); vm_compute; reflexivity.
  - destruct (Hord (CStr "2024-03-05") eq_refl eq_refl) as [Hfirst _].
    apply (Hfirst [] "%Y-%m-%d" ["%m/%d/%Y"; "%d-%m-%Y"; "%Y/%m/%d"]).
    + reflexivity.
    + intros f [].
    + vm_compute. reflexivity.
Defined.


(** ** C1 *)



(** ** C2 *)

(** C2, as first stated, fails on a table without the columns Z to AC: its
    row has a Final Person and a Total Rec., and the Final table is empty. *)
Lemma final_row_lost_on_narrow_table :
  (forall r, In r (rows narrow_table) ->
             isna (cell_at r 24) = false /\ isna (cell_at r 23) = false)
  /\ rows narrow_table <> []
  /\ process_final ToDatetimeRef.to_datetime derive_raises_ref
       (cols_Final default_columns) narrow_table
     = ([], [ShowWarning "Final Data Warning"]).
Proof.
  split; [| split].
  - intros r [<- | []]. split; reflexivity.
  - discriminate.
  - vm_compute. reflexivity.
Qed.

Lemma extractors_keep_and_derive_witness :
  extracted ToDatetimeRef.to_datetime 9 10 12 13 Indate sample_table
    (fst (process_key ToDatetimeRef.to_datetime derive_raises_ref
            (cols_Key default_columns) sample_table))
  /\ extracted ToDatetimeRef.to_datetime 20 21 22 23 Indate sample_table
       (fst (process_qc ToDatetimeRef.to_datetime derive_raises_ref
               (cols_QC default_columns) sample_table))
  /\ extracted ToDatetimeRef.to_datetime 24 25 28 23 ShipmentDate sample_table
       (fst (process_final ToDatetimeRef.to_datetime derive_raises_ref
               (cols_Final default_columns) sample_table)).
Proof.
  destruct (extractors_keep_and_derive ToDatetimeRef.to_datetime derive_raises_ref
              sample_table) as (H1 & H2 & H3 & _).
  split; [| split]; [apply H1 | apply H2 | apply H3];
    try (simpl; lia); intros [e He]; vm_compute in He; discriminate He.
Defined.

(** ** C9 and C10 *)

Lemma key_on_time_status_two_valued_witness :
  exists row : Row,
    nth_error sample_key 1 = Some row
    /\ Duedate row = NaT
    /\ OnTimeStatus row = Some "Delayed".
Proof.
  eexists. split; [reflexivity |]. split; [reflexivity |].
  refine (proj1 (proj2 (proj2
            (key_on_time_status_two_valued ToDatetimeRef.to_datetime derive_raises_ref
               (cols_Key default_columns) sample_table _ _))) _).
  - vm_compute. right. left. reflexivity.
  - right. reflexivity.
Defined.

(** The Final record of the sample without a shipment date. *)
Definition unshipped : Row := {|
  row_index := 2; Name := CStr "P"; Outdate := NaT; Duedate := NaT; Indate := NaT;
  Status := CStr "ok"; ShipmentDate := NaT; TotalRec := CNum 3;
  ProcessingDays := None; OnTimeStatus := None; Week := NaT; Month := NaT;
  RowProcess := Final
|}.



(** ** C5 *)



(** ** C6 *)

(** C6, as first stated, fails when Final has no record in any period: the
    week of the Key record has a row, and that row has no Final column at
    all, neither 0 nor anything else. *)
Lemma weekly_report_without_final_columns :
  option_map res_Weekly (fst (run_ref default_columns key_only_table))
  = Some (Some {|
      period_label := "Week";
      value_columns := ["Processing Days Key"; "Total Rec. Key"];
      report_rows := [(Calendar.midnight 2024 3 4, [Qmake 4 1; Qmake 10 1])]
    |})
  /\ report_value
       {| period_label := "Week";
          value_columns := ["Processing Days Key"; "Total Rec. Key"];
          report_rows := [(Calendar.midnight 2024 3 4, [Qmake 4 1; Qmake 10 1])] |}
       (Calendar.midnight 2024 3 4) "Total Rec. Final" = None.
Proof. split; vm_compute; reflexivity. Qed.

(** The weekly process report of the sample. *)
Definition sample_weekly_report : PeriodReport :=
  Eval vm_compute in
    match res_Weekly sample_results with Some rep => rep | None => empty_report end.

Lemma sample_weekly_run :
  period_report_try float_mean_ref int_sum_ref object_sum_ref object_raises_ref
    empty_pivot_raises_ref "weekly" "Weekly Report Warning" "Week" Week
    sample_key sample_qc sample_final
  = (Some sample_weekly_report, []).
Proof. vm_compute. reflexivity. Qed.

(** In the sample, the week of 2024-03-11 has a Key record and no Final
    record, and Final has a record in the week of 2024-03-04. *)
Lemma period_report_pivot_witness :
  res_Weekly sample_results = Some sample_weekly_report
  /\ report_value sample_weekly_report
       (Calendar.midnight 2024 3 11) "Total Rec. Final" = Some 0%Q
  /\ report_value sample_weekly_report
       (Calendar.midnight 2024 3 11) "Processing Days Final" = Some 0%Q.
Proof.
  pose proof (period_report_pivot float_mean_ref int_sum_ref object_sum_ref
                object_raises_ref empty_pivot_raises_ref
                "weekly" "Weekly Report Warning" "Week" Week
                sample_key sample_qc sample_final sample_weekly_report []
                sample_weekly_run) as H.
  cbv zeta in H. destruct H as (_ & _ & _ & _ & _ & _ & H & _ & Ht).
  - vm_compute. discriminate.
  - rewrite (Ht eq_refl) in H. clear Ht.
    assert (Hkey : exists p', has_data (sample_key ++ sample_qc ++ sample_final) Week
                                (Calendar.midnight 2024 3 11) p').
    { exists Key. eexists. split; [right; left; reflexivity |]. split; reflexivity. }
    assert (Hfinal : exists w', has_data (sample_key ++ sample_qc ++ sample_final) Week
                                  w' Final).
    { exists (Calendar.midnight 2024 3 4). eexists.
      split; [do 3 right; left; reflexivity |]. split; reflexivity. }
    assert (Hnone : ~ has_data (sample_key ++ sample_qc ++ sample_final) Week
                      (Calendar.midnight 2024 3 11) Final).
    { intros [r (Hin & Hw & Hp)]. simpl in Hin.
      destruct Hin as [<- | [<- | [<- | [<- | [<- | []]]]]]; simpl in Hw, Hp;
        try discriminate Hp; discriminate Hw. }
    split; [reflexivity |]. split.
    + exact (proj2 (H (Calendar.midnight 2024 3 11) MTotalRec Final Hkey Hfinal) Hnone).
    + exact (proj2 (H (Calendar.midnight 2024 3 11) MProcessingDays Final Hkey Hfinal)
               Hnone).
Defined.

(** ** C8 *)

(** Results with a personnel report and nothing else. *)
Definition personnel_only : Results := {|
  res_Key := []; res_QC := []; res_Final := [];
  res_Weekly := None; res_Monthly := None;
  res_Personnel :=
    Some [{| SNo := 1; pr_Name := CStr "A"; pr_Process := Key; pr_TotalRec := 10 |}];
  res_PersonnelWeekly := Some []; res_PersonnelMonthly := None
|}.

Lemma save_reports_sheet_order_witness :
  In "Personnel Performance" (map title (build_workbook personnel_only))
  /\ ~ In "Personnel Weekly" (map title (build_workbook personnel_only)).
Proof.
  destruct (save_reports_sheet_order personnel_only) as (_ & _ & _ & H & _).
  split.
  - apply (H "Personnel Performance" true); [| reflexivity].
    simpl. do 5 right. left. reflexivity.
  - intros Hin. apply (H "Personnel Weekly" false) in Hin; [discriminate |].
    simpl. do 6 right. left. reflexivity.
Defined.


(** ** Further properties on the sample *)

Lemma block_raises_iff_not_selectable_witness :
  frame_raised (final_frame ToDatetimeRef.to_datetime derive_raises_ref
                  (cols_Final default_columns) narrow_table)
  /\ ~ frame_raised (key_frame ToDatetimeRef.to_datetime derive_raises_ref
                       (cols_Key default_columns) sample_table).
Proof.
  split.
  - apply (proj2 (proj2 (block_raises_iff_not_selectable ToDatetimeRef.to_datetime
                           derive_raises_ref narrow_table
                           (cols_Final default_columns)))).
    left. intros [H _].
    inversion H as [| ? ? _ Hy]. inversion Hy as [| ? ? _ Hz].
    inversion Hz as [| ? ? [i [Ei Hi]] _].
    vm_compute in Ei. inversion Ei; subst. unfold in_frame in Hi. simpl in Hi. lia.
  - intros H.
    apply (proj1 (block_raises_iff_not_selectable ToDatetimeRef.to_datetime
                    derive_raises_ref sample_table (cols_Key default_columns))) in H.
    destruct H as [H | (c0 & c1 & c2 & c3 & c4 & _ & _ & H)].
    + apply H. split; [| reflexivity].
      repeat (apply Forall_cons;
              [eexists; split; [vm_compute; reflexivity | unfold in_frame; simpl; lia] |]).
      apply Forall_nil.
    + apply H. reflexivity.
Defined.

Lemma qc_and_final_share_total_witness :
  exists a b : Row,
    nth_error sample_qc 0 = Some a /\ nth_error sample_final 0 = Some b
    /\ TotalRec a = TotalRec b /\ TotalRec a = CNum 5.
Proof.
  eexists. eexists. split; [reflexivity |]. split; [reflexivity |].
  split; [| reflexivity].
  apply (qc_and_final_share_total ToDatetimeRef.to_datetime derive_raises_ref
           sample_table).
  - simpl. lia.
  - vm_compute. left. reflexivity.
  - vm_compute. left. reflexivity.
  - reflexivity.
Defined.

Lemma week_is_monday_of_anchor_witness :
  exists (row : Row) (w : Z),
    nth_error sample_key 0 = Some row
    /\ Indate row = Some (Calendar.midnight 2024 3 5)
    /\ Week row = Some w
    /\ w <= Calendar.midnight 2024 3 5 < w + 7 * Calendar.ns_per_day
    /\ (w / Calendar.ns_per_day + 3) mod 7 = 0.
Proof.
  pose proof (week_is_monday_of_anchor ToDatetimeRef.to_datetime derive_raises_ref
                default_columns sample_table) as H.
  cbv zeta in H. destruct H as [H _].
  destruct (H (nth 0 sample_key unshipped) (Calendar.midnight 2024 3 5))
    as [w (Hw & Hb & _ & Hm)].
  - vm_compute. left. reflexivity.
  - reflexivity.
  - exists (nth 0 sample_key unshipped), w.
    split; [reflexivity |]. split; [reflexivity |]. split; [exact Hw |].
    split; [exact Hb | exact Hm].
Defined.



Lemma period_personnel_report_sorted_witness :
  exists weekly monthly : list PeriodPersonnelRow,
    res_PersonnelWeekly sample_results = Some weekly
    /\ res_PersonnelMonthly sample_results = Some monthly
    /\ StronglySorted period_then_total weekly
    /\ NoDup (map group_key monthly)
    /\ exists row : PeriodPersonnelRow,
         In row weekly
         /\ group_key row = (Calendar.midnight 2024 3 4, CStr "A", Key).
Proof.
  pose proof (period_personnel_report_sorted ToDatetimeRef.to_datetime
                sort_values_desc_ref derive_raises_ref float_mean_ref int_sum_ref
                object_sum_ref object_raises_ref empty_pivot_raises_ref
                int_sum_ref_exact
                default_columns sample_table sample_results sample_events
                sample_run) as H.
  cbv zeta in H. destruct H as (weekly & monthly & Hw & Hm & Gw & Gm).
  - vm_compute. discriminate.
  - vm_compute. reflexivity.
  - vm_compute. reflexivity.
  - exists weekly, monthly. split; [exact Hw |]. split; [exact Hm |].
    destruct Gw as (Hs & _ & _ & Hall). destruct Gm as (_ & Hnd & _).
    split; [exact Hs |]. split; [exact Hnd |].
    apply (Hall Key (nth 0 sample_key unshipped) (Calendar.midnight 2024 3 4)).
    + left. reflexivity.
    + reflexivity.
Defined.

Lemma period_personnel_report_keeps_total_witness :
  exists weekly monthly : list PeriodPersonnelRow,
    res_PersonnelWeekly sample_results = Some weekly
    /\ res_PersonnelMonthly sample_results = Some monthly
    /\ sum_Z (map pp_TotalRec weekly) = 30
    /\ sum_Z (map pp_TotalRec monthly) = 30.
Proof.
  pose proof (period_personnel_report_keeps_total ToDatetimeRef.to_datetime
                sort_values_desc_ref derive_raises_ref float_mean_ref int_sum_ref
                object_sum_ref object_raises_ref empty_pivot_raises_ref
                int_sum_ref_exact
                default_columns sample_table sample_results sample_events
                sample_run) as H.
  cbv zeta in H. destruct H as (weekly & monthly & Hw & Hm & Sw & Sm).
  - vm_compute. discriminate.
  - vm_compute. reflexivity.
  - vm_compute. reflexivity.
  - exists weekly, monthly. split; [exact Hw |]. split; [exact Hm |].
    split; [rewrite Sw | rewrite Sm]; reflexivity.
Defined.

Lemma period_report_total_is_sum_witness :
  exists v : Q,
    report_value sample_weekly_report
      (Calendar.midnight 2024 3 4) "Total Rec. Final" = Some v
    /\ Qeq v (inject_Z 5).
Proof.
  pose proof (period_report_total_is_sum float_mean_ref int_sum_ref object_sum_ref
                object_raises_ref empty_pivot_raises_ref int_sum_ref_exact
                "weekly" "Weekly Report Warning" "Week" Week
                sample_key sample_qc sample_final
                (Calendar.midnight 2024 3 4) Final) as H.
  cbv zeta in H. destruct H as (rep & v & E & Hv & Hq).
  - vm_compute. reflexivity.
  - vm_compute. reflexivity.
  - exists Final. eexists. split; [do 3 right; left; reflexivity |]. split; reflexivity.
  - exists (Calendar.midnight 2024 3 4). eexists.
    split; [do 3 right; left; reflexivity |]. split; reflexivity.
  - rewrite sample_weekly_run in E. inversion E; subst rep.
    exists v. split; [exact Hv | exact Hq].
Defined.


(** Two processes in one week. *)
Definition sample_stats : list PeriodStat := [
  {| ps_Period := Calendar.midnight 2024 3 4; ps_Process := Key;
     ps_TotalRec := 10; ps_Days := Some (Qmake 4 1) |};
  {| ps_Period := Calendar.midnight 2024 3 4; ps_Process := Final;
     ps_TotalRec := 5; ps_Days := None |}].

Lemma production_chart_columns_witness :
  exists ch : Chart,
    add_production_chart (report_sheet "Weekly" (pivot_table "Week" sample_stats))
                         (pivot_table "Week" sample_stats) "Weekly" = Some ch
    /\ ref_min_col (chart_data ch) = 2
    /\ 2 * (ref_max_col (chart_data ch) - 1) = 4
    /\ ref_max_row (chart_data ch) = 2.
Proof.
  destruct (production_chart_columns "Week" sample_stats "Weekly")
    as [ch (H1 & H2 & H3 & _ & _ & H4 & _)].
  - vm_compute. discriminate.
  - exists ch. split; [exact H1 |]. split; [exact H2 |]. split; [exact H3 | exact H4].
Defined.

Definition sample_projection : list PersonnelRow := [
  {| p_Name := CStr "A"; p_Process := Key; p_TotalRec := 10 |};
  {| p_Name := CStr "B"; p_Process := Key; p_TotalRec := 10 |};
  {| p_Name := CStr "A"; p_Process := QC; p_TotalRec := 15 |};
  {| p_Name := CStr "A"; p_Process := Key; p_TotalRec := 3 |}].

Lemma personnel_chart_top_rows_witness :
  exists ch : Chart,
    add_personnel_chart
      (personnel_sheet (personnel_report sort_values_desc_ref sample_projection))
      (personnel_report sort_values_desc_ref sample_projection) = Some ch
    /\ ref_min_row (chart_data ch) = 2
    /\ 2 <= ref_max_row (chart_data ch) <= 16.
Proof.
  destruct (personnel_chart_top_rows sort_values_desc_ref sort_values_desc_ref_sorted
              sample_projection)
    as [ch (H1 & _ & _ & _ & _ & H2 & _ & _ & H3 & _)].
  - vm_compute. discriminate.
  - exists ch. split; [exact H1 |]. split; [exact H2 | exact H3].
Defined.

(** A weekly personnel table of two names over two weeks. *)
Definition sample_weekly : list PeriodPersonnelRow := [
  {| pp_Period := Calendar.midnight 2024 3 4; pp_Name := CStr "A";
     pp_TotalRec := 10; pp_Process := Key |};
  {| pp_Period := Calendar.midnight 2024 3 4; pp_Name := CStr "P";
     pp_TotalRec := 5; pp_Process := Final |};
  {| pp_Period := Calendar.midnight 2024 3 11; pp_Name := CStr "A";
     pp_TotalRec := 7; pp_Process := Key |}].

(** The first two rows of that table: a table of exactly two rows. *)
Definition two_weekly : list PeriodPersonnelRow := firstn 2 sample_weekly.

(** On three rows the trend chart is not added; on two rows the library
    groups by the labels 'weekly' and 'Name', and the chart is added over
    the two columns of its two names. *)
Lemma trend_chart_needs_two_rows_witness :
  add_personnel_trend_chart int_sum_ref label_pivot_ref
    (period_personnel_sheet "Personnel Weekly" "Week" "%Y-%m-%d" sample_weekly)
    "Week" sample_weekly "Weekly"
  = (period_personnel_sheet "Personnel Weekly" "Week" "%Y-%m-%d" sample_weekly,
     None, [trend_warning])
  /\ option_map (fun ch => (ref_min_col (chart_data ch), ref_max_col (chart_data ch),
                            ref_min_row (chart_data ch), ref_max_row (chart_data ch)))
       (snd (fst (add_personnel_trend_chart int_sum_ref label_pivot_ref
                    (period_personnel_sheet "Personnel Weekly" "Week" "%Y-%m-%d"
                       two_weekly)
                    "Week" two_weekly "Weekly")))
     = Some (2, 3, 4, 6).
Proof.
  split.
  - refine (proj1 (proj2 (trend_chart_needs_two_rows int_sum_ref label_pivot_ref
                            (period_personnel_sheet "Personnel Weekly" "Week"
                               "%Y-%m-%d" sample_weekly)
                            "Week" sample_weekly "Weekly" "W" "eek" eq_refl eq_refl)) _).
    intros E. vm_compute in E. discriminate E.
  - rewrite (proj2 (proj2 (trend_chart_needs_two_rows int_sum_ref label_pivot_ref
                             (period_personnel_sheet "Personnel Weekly" "Week"
                                "%Y-%m-%d" two_weekly)
                             "Week" two_weekly "Weekly" "W" "eek" eq_refl eq_refl))).
    + vm_compute. reflexivity.
    + vm_compute. reflexivity.
Defined.

Lemma save_reports_charts_sheets_witness :
  exists w : Worksheet,
    In w (fst (save_reports_charts int_sum_ref label_pivot_ref personnel_only))
    /\ ws_charts w <> []
    /\ In (title (ws_sheet w))
          ["Weekly Report"; "Monthly Report"; "Personnel Performance"].
Proof.
  destruct (save_reports_charts_sheets int_sum_ref label_pivot_ref personnel_only)
    as (_ & H).
  destruct H as (_ & _ & H).
  - intros E. vm_compute in E. discriminate E.
  - intros E. vm_compute in E. discriminate E.
  - assert (Hw : exists w,
               In w (fst (save_reports_charts int_sum_ref label_pivot_ref
                            personnel_only))
               /\ ws_charts w <> []).
    { eexists. split; [vm_compute; left; reflexivity | vm_compute; discriminate]. }
    destruct Hw as [w [Hin Hch]].
    exists w. split; [exact Hin |]. split; [exact Hch |]. exact (H w Hin Hch).
Defined.


Lemma validate_dataframe_accepts_witness :
  fst (validate_dataframe (Some ["Name"; "Total Rec."]) ["Name"] "Key") = true
  /\ snd (validate_dataframe (Some ["Name"]) ["Name"; "Outdate"] "Key")
     = [ShowWarning "Missing Columns"].
Proof.
  split.
  - apply (proj1 (validate_dataframe_accepts (Some ["Name"; "Total Rec."]) ["Name"]
                    "Key")).
    eexists. split; [reflexivity |]. intros x [<- | []]. left. reflexivity.
  - apply (proj1 (proj2 (validate_dataframe_accepts (Some ["Name"])
                           ["Name"; "Outdate"] "Key"))).
    eexists. split; [reflexivity |]. intros H.
    destruct (H "Outdate" (or_intror (or_introl eq_refl))) as [E | []].
    discriminate E.
Defined.

Lemma month_is_first_of_anchor_month_witness :
  first_of_month (Calendar.midnight 2024 3 5) (Some (Calendar.midnight 2024 3 1)).
Proof.
  refine (proj1 (month_is_first_of_anchor_month ToDatetimeRef.to_datetime
                   derive_raises_ref default_columns sample_table)
                (nth 0 sample_key unshipped) (Calendar.midnight 2024 3 5) _ _).
  - vm_compute. left. reflexivity.
  - reflexivity.
Defined.

Lemma period_report_days_is_mean_witness :
  exists v : Q,
    report_value sample_weekly_report
      (Calendar.midnight 2024 3 4) "Processing Days Key" = Some v
    /\ Qeq v (Qmake 4 1).
Proof.
  pose proof (period_report_days_is_mean float_mean_ref int_sum_ref object_sum_ref
                object_raises_ref empty_pivot_raises_ref int_sum_ref_exact
                "weekly" "Weekly Report Warning" "Week" Week
                sample_key sample_qc sample_final
                (Calendar.midnight 2024 3 4) Key) as H.
  cbv zeta in H. destruct H as (rep & v & E & Hv & Hq).
  - repeat constructor.
  - repeat constructor.
  - repeat constructor.
  - vm_compute. reflexivity.
  - vm_compute. reflexivity.
  - exists Key. eexists. split; [left; reflexivity |]. split; reflexivity.
  - exists (Calendar.midnight 2024 3 4). eexists.
    split; [left; reflexivity |]. split; reflexivity.
  - rewrite sample_weekly_run in E. inversion E; subst rep.
    exists v. split; [exact Hv | exact Hq].
Defined.
